(** * nixpkgs-review: the [pr] command and its configuration resolver

    A shallow embedding of [nixpkgs_review/cli/config.py] and
    [nixpkgs_review/cli/pr.py], followed by the properties of the
    configuration resolver, the identifier parser and the review
    orchestrator.

    Modelling conventions.
    - Python strings are [string]s whose characters are read as the code
      points 0..255; arguments with larger code points are outside the model.
    - Python integers are [Z]; the interpreter's optional limit on the number
      of digits [int] converts (sys.set_int_max_str_digits) is switched off.
    - TOML documents and the attributes of a [Config] object are dynamically
      typed values ([pyval]); a table is a finite map from key to value.
    - A method that assigns to [self] and may raise is a state transformer on
      the object that also yields the exception: the assignments made before
      the [raise] stay on the object.
    - The collaborators that live in other modules ([re], [Review],
      [Builddir], [Buildenv], [warn]) are parameters; [warn] and the scope
      entries and exits are recorded in an event trace.
    - The class bodies are taken as declaring the defaults they write; what
      [dataclass] makes of them at import time is not modelled. *)

From Stdlib Require Import ZArith List String Ascii Bool Lia DecimalString.
From stdpp Require Import gmap strings list fin_maps.
Import ListNotations.

Open Scope string_scope.
Open Scope Z_scope.

(** ** Dynamically typed values *)

#[local] Set Warnings "-register-all".

Inductive pyval : Type :=
| PStr (s : string)
| PInt (n : Z)
| PBool (b : bool)
| PFloat (repr : string)
| PDatetime (repr : string)
| PDate (repr : string)
| PTime (repr : string)
| PList (l : list pyval)
| PDict (d : gmap string pyval)
| PPattern (source : string).

(** The classes [isinstance] is asked about in [config.py]. *)
Inductive pytype : Type := TBool | TInt | TStr | TList.

(** [isinstance(value, expected_type)]; [bool] is a subclass of [int]. *)
Definition isinstance (value : pyval) (expected_type : pytype) : bool :=
  match expected_type, value with
  | TBool, PBool _ => true
  | TInt, PInt _ => true
  | TInt, PBool _ => true
  | TStr, PStr _ => true
  | TList, PList _ => true
  | _, _ => false
  end.

(** [str(expected_type)] as it appears in an f-string. *)
Definition class_repr (t : pytype) : string :=
  match t with
  | TBool => "<class 'bool'>"
  | TInt => "<class 'int'>"
  | TStr => "<class 'str'>"
  | TList => "<class 'list'>"
  end.

(** [str(type(value))]. *)
Definition type_repr (v : pyval) : string :=
  match v with
  | PStr _ => "<class 'str'>"
  | PInt _ => "<class 'int'>"
  | PBool _ => "<class 'bool'>"
  | PFloat _ => "<class 'float'>"
  | PDatetime _ => "<class 'datetime.datetime'>"
  | PDate _ => "<class 'datetime.date'>"
  | PTime _ => "<class 'datetime.time'>"
  | PList _ => "<class 'list'>"
  | PDict _ => "<class 'dict'>"
  | PPattern _ => "<class 're.Pattern'>"
  end.

(** [type(value).__name__], used by the attribute-lookup failure. *)
Definition type_name (v : pyval) : string :=
  match v with
  | PStr _ => "str"
  | PInt _ => "int"
  | PBool _ => "bool"
  | PFloat _ => "float"
  | PDatetime _ => "datetime.datetime"
  | PDate _ => "datetime.date"
  | PTime _ => "datetime.time"
  | PList _ => "list"
  | PDict _ => "dict"
  | PPattern _ => "re.Pattern"
  end.

(** [value in VALUES] for a tuple of strings: only an equal string is in. *)
Definition in_values (value : pyval) (values : list string) : bool :=
  match value with
  | PStr s => existsb (String.eqb s) values
  | _ => false
  end.

(** ** Exceptions *)

Inductive exn : Type :=
| ValueError (msg : string)
| AssertionError
| AttributeError (msg : string)
| TypeError (msg : string)
| ArgumentTypeError (msg : string)
| NixpkgsReviewError (msg : string)
| ReError (msg : string)
| OverflowError (msg : string)
| SystemExit (code : Z)
| OtherError (msg : string).

Inductive result (A : Type) : Type :=
| Ok (a : A)
| Raise (e : exn).
Arguments Ok {A} a.
Arguments Raise {A} e.

Definition is_ok {A} (r : result A) : bool :=
  match r with Ok _ => true | Raise _ => false end.

(** ** Methods that mutate [self]: state and exception

    [M S A] is a computation on an object of class [S]; the object comes
    back in whatever state the computation left it, also when it raised. *)

Definition M (S A : Type) : Type := S -> S * result A.

Definition ret {S A} (a : A) : M S A := fun s => (s, Ok a).

Definition throw {S A} (e : exn) : M S A := fun s => (s, Raise e).

Definition bind {S A B} (m : M S A) (k : A -> M S B) : M S B :=
  fun s =>
    match m s with
    | (s', Ok a) => k a s'
    | (s', Raise e) => (s', Raise e)
    end.

Definition lift {S A} (r : result A) : M S A := fun s => (s, r).

Definition reads {S A} (f : S -> A) : M S A := fun s => (s, Ok (f s)).

Definition assign {S} (f : S -> S) : M S unit := fun s => (f s, Ok tt).

Notation "x <- m ;; k" := (bind m (fun x => k))
  (at level 100, m at next level, right associativity).
Notation "m ;; k" := (bind m (fun _ => k))
  (at level 100, right associativity).

(** [assert cond] *)
Definition py_assert {S} (cond : bool) : M S unit :=
  if cond then ret tt else throw AssertionError.

(** ** config.py *)

(** The exception [_check_type] raises. *)
Definition incorrect_value (option_name : string) (value : pyval)
    (expected_type : pytype) : exn :=
  ValueError
    ("Incorrect value for option '" ++ option_name ++ "'."
     ++ "Expected '" ++ class_repr expected_type
     ++ "' but got '" ++ type_repr value ++ "'.").

(** [_check_type(option_name, value, expected_type)] *)
Definition _check_type {S} (option_name : string) (value : pyval)
    (expected_type : pytype) : M S unit :=
  if isinstance value expected_type then ret tt
  else throw (incorrect_value option_name value expected_type).

Definition EVAL_VALUES : list string := ["ofborg"; "local"].
Definition CHECKOUT_VALUES : list string := ["merge"; "commit"].
Definition ALLOW_VALUES : list string := ["aliases"; "ifd"; "url-literals"].
Definition BUILD_GRAPH_VALUES : list string := ["nix"; "nom"].

(** [config_dict.get(key, default)] on a table. *)
Definition dict_get (config_dict : gmap string pyval) (key : string)
    (dflt : pyval) : pyval :=
  match config_dict !! key with
  | Some v => v
  | None => dflt
  end.

(** The exception of a failed attribute lookup. *)
Definition no_attribute (v : pyval) (name : string) : exn :=
  AttributeError
    ("'" ++ type_name v ++ "' object has no attribute '" ++ name ++ "'").

(** [config_dict.get(key, default)] on whatever the enclosing table holds
    under the sub-namespace key: only a table has a [get]. *)
Definition py_get {S} (config_dict : pyval) (key : string) (dflt : pyval)
    : M S pyval :=
  match config_dict with
  | PDict d => ret (dict_get d key dflt)
  | v => throw (no_attribute v "get")
  end.

Module PrConfig.

Record t : Type := mk {
  eval : pyval;
  checkout : pyval;
  post_result : pyval
}.

Definition default : t :=
  {| eval := PStr "ofborg";
     checkout := PStr "merge";
     post_result := PBool false |}.

Definition set_eval (v : pyval) (self : t) : t :=
  {| eval := v; checkout := checkout self; post_result := post_result self |}.
Definition set_checkout (v : pyval) (self : t) : t :=
  {| eval := eval self; checkout := v; post_result := post_result self |}.
Definition set_post_result (v : pyval) (self : t) : t :=
  {| eval := eval self; checkout := checkout self; post_result := v |}.

(** [PrConfig.update_from_dict] *)
Definition update_from_dict (config_dict : pyval) : M t unit :=
  cur <- reads eval ;;
  v <- py_get config_dict "eval" cur ;;
  assign (set_eval v) ;;
  py_assert (in_values v EVAL_VALUES) ;;

  cur <- reads checkout ;;
  v <- py_get config_dict "checkout" cur ;;
  assign (set_checkout v) ;;
  py_assert (in_values v CHECKOUT_VALUES) ;;

  cur <- reads post_result ;;
  v <- py_get config_dict "post_result" cur ;;
  assign (set_post_result v) ;;
  _check_type "pr.post_result" v TBool.

End PrConfig.

Module RevConfig.

Record t : Type := mk {
  branch : pyval
}.

Definition default : t := {| branch := PStr "master" |}.

Definition set_branch (v : pyval) (self : t) : t := {| branch := v |}.

(** [RevConfig.update_from_dict] *)
Definition update_from_dict (config_dict : pyval) : M t unit :=
  cur <- reads branch ;;
  v <- py_get config_dict "branch" cur ;;
  assign (set_branch v) ;;
  _check_type "rev.branch" v TStr.

End RevConfig.

Module WipConfig.

Record t : Type := mk {
  branch : pyval;
  staged : pyval
}.

Definition default : t :=
  {| branch := PStr "master"; staged := PBool false |}.

Definition set_branch (v : pyval) (self : t) : t :=
  {| branch := v; staged := staged self |}.
Definition set_staged (v : pyval) (self : t) : t :=
  {| branch := branch self; staged := v |}.

(** [WipConfig.update_from_dict]; the fallback of the [staged] lookup is
    [self.branch], as the source has it. *)
Definition update_from_dict (config_dict : pyval) : M t unit :=
  cur <- reads branch ;;
  v <- py_get config_dict "branch" cur ;;
  assign (set_branch v) ;;
  _check_type "wip.branch" v TStr ;;

  cur <- reads branch ;;
  v <- py_get config_dict "staged" cur ;;
  assign (set_staged v) ;;
  _check_type "wip.staged" v TBool.

End WipConfig.

(** The parsed command line ([argparse.Namespace]): the attributes the
    [pr] command reads itself.  What it only hands on to [Review] (token,
    package selections, allowed features) stays with that collaborator. *)
Record Namespace : Type := mkNamespace {
  number : list string;
  arg_eval : string;
  arg_checkout : string;
  arg_post_result : bool;
  arg_print_result : bool;
  arg_no_shell : bool;
  arg_build_args : string;
  arg_remote : string;
  arg_run : string;
  arg_sandbox : bool;
  arg_systems : string;
  arg_build_graph : string;
  arg_extra_nixpkgs_config : string;
  arg_num_parallel_evals : Z;
  arg_system : string
}.

Module Config.

Record t : Type := mk {
  allow : pyval;
  build_args : pyval;
  no_shell : pyval;
  remote : pyval;
  run : pyval;
  sandbox : pyval;
  skipped_packages : pyval;
  skipped_package_regexes : pyval;
  systems : pyval;
  build_graph : pyval;
  print_result : pyval;
  extra_nixpkgs_config : pyval;
  num_parallel_evals : pyval;
  rev_config : RevConfig.t;
  pr_config : PrConfig.t;
  wip_config : WipConfig.t
}.

(** The class-level defaults; [nix_nom_tool()] comes from [utils]. *)
Definition default (nix_nom_tool : string) : t :=
  {| allow := PList [];
     build_args := PStr "";
     no_shell := PBool false;
     remote := PStr "https://github.com/NixOS/nixpkgs";
     run := PStr "";
     sandbox := PBool false;
     skipped_packages := PList [];
     skipped_package_regexes := PList [];
     systems := PStr "current";
     build_graph := PStr nix_nom_tool;
     print_result := PBool false;
     extra_nixpkgs_config := PStr "{ }";
     num_parallel_evals := PInt 1;
     rev_config := RevConfig.default;
     pr_config := PrConfig.default;
     wip_config := WipConfig.default |}.

Definition set_allow (v : pyval) (self : t) : t :=
  {| allow := v; build_args := build_args self; no_shell := no_shell self;
     remote := remote self; run := run self; sandbox := sandbox self;
     skipped_packages := skipped_packages self;
     skipped_package_regexes := skipped_package_regexes self;
     systems := systems self; build_graph := build_graph self;
     print_result := print_result self;
     extra_nixpkgs_config := extra_nixpkgs_config self;
     num_parallel_evals := num_parallel_evals self;
     rev_config := rev_config self; pr_config := pr_config self;
     wip_config := wip_config self |}.

Definition set_build_args (v : pyval) (self : t) : t :=
  {| allow := allow self; build_args := v; no_shell := no_shell self;
     remote := remote self; run := run self; sandbox := sandbox self;
     skipped_packages := skipped_packages self;
     skipped_package_regexes := skipped_package_regexes self;
     systems := systems self; build_graph := build_graph self;
     print_result := print_result self;
     extra_nixpkgs_config := extra_nixpkgs_config self;
     num_parallel_evals := num_parallel_evals self;
     rev_config := rev_config self; pr_config := pr_config self;
     wip_config := wip_config self |}.

Definition set_no_shell (v : pyval) (self : t) : t :=
  {| allow := allow self; build_args := build_args self; no_shell := v;
     remote := remote self; run := run self; sandbox := sandbox self;
     skipped_packages := skipped_packages self;
     skipped_package_regexes := skipped_package_regexes self;
     systems := systems self; build_graph := build_graph self;
     print_result := print_result self;
     extra_nixpkgs_config := extra_nixpkgs_config self;
     num_parallel_evals := num_parallel_evals self;
     rev_config := rev_config self; pr_config := pr_config self;
     wip_config := wip_config self |}.

Definition set_remote (v : pyval) (self : t) : t :=
  {| allow := allow self; build_args := build_args self;
     no_shell := no_shell self; remote := v; run := run self;
     sandbox := sandbox self; skipped_packages := skipped_packages self;
     skipped_package_regexes := skipped_package_regexes self;
     systems := systems self; build_graph := build_graph self;
     print_result := print_result self;
     extra_nixpkgs_config := extra_nixpkgs_config self;
     num_parallel_evals := num_parallel_evals self;
     rev_config := rev_config self; pr_config := pr_config self;
     wip_config := wip_config self |}.

Definition set_run (v : pyval) (self : t) : t :=
  {| allow := allow self; build_args := build_args self;
     no_shell := no_shell self; remote := remote self; run := v;
     sandbox := sandbox self; skipped_packages := skipped_packages self;
     skipped_package_regexes := skipped_package_regexes self;
     systems := systems self; build_graph := build_graph self;
     print_result := print_result self;
     extra_nixpkgs_config := extra_nixpkgs_config self;
     num_parallel_evals := num_parallel_evals self;
     rev_config := rev_config self; pr_config := pr_config self;
     wip_config := wip_config self |}.

Definition set_sandbox (v : pyval) (self : t) : t :=
  {| allow := allow self; build_args := build_args self;
     no_shell := no_shell self; remote := remote self; run := run self;
     sandbox := v; skipped_packages := skipped_packages self;
     skipped_package_regexes := skipped_package_regexes self;
     systems := systems self; build_graph := build_graph self;
     print_result := print_result self;
     extra_nixpkgs_config := extra_nixpkgs_config self;
     num_parallel_evals := num_parallel_evals self;
     rev_config := rev_config self; pr_config := pr_config self;
     wip_config := wip_config self |}.

Definition set_skipped_packages (v : pyval) (self : t) : t :=
  {| allow := allow self; build_args := build_args self;
     no_shell := no_shell self; remote := remote self; run := run self;
     sandbox := sandbox self; skipped_packages := v;
     skipped_package_regexes := skipped_package_regexes self;
     systems := systems self; build_graph := build_graph self;
     print_result := print_result self;
     extra_nixpkgs_config := extra_nixpkgs_config self;
     num_parallel_evals := num_parallel_evals self;
     rev_config := rev_config self; pr_config := pr_config self;
     wip_config := wip_config self |}.

Definition set_skipped_package_regexes (v : pyval) (self : t) : t :=
  {| allow := allow self; build_args := build_args self;
     no_shell := no_shell self; remote := remote self; run := run self;
     sandbox := sandbox self; skipped_packages := skipped_packages self;
     skipped_package_regexes := v; systems := systems self;
     build_graph := build_graph self; print_result := print_result self;
     extra_nixpkgs_config := extra_nixpkgs_config self;
     num_parallel_evals := num_parallel_evals self;
     rev_config := rev_config self; pr_config := pr_config self;
     wip_config := wip_config self |}.

Definition set_systems (v : pyval) (self : t) : t :=
  {| allow := allow self; build_args := build_args self;
     no_shell := no_shell self; remote := remote self; run := run self;
     sandbox := sandbox self; skipped_packages := skipped_packages self;
     skipped_package_regexes := skipped_package_regexes self; systems := v;
     build_graph := build_graph self; print_result := print_result self;
     extra_nixpkgs_config := extra_nixpkgs_config self;
     num_parallel_evals := num_parallel_evals self;
     rev_config := rev_config self; pr_config := pr_config self;
     wip_config := wip_config self |}.

Definition set_build_graph (v : pyval) (self : t) : t :=
  {| allow := allow self; build_args := build_args self;
     no_shell := no_shell self; remote := remote self; run := run self;
     sandbox := sandbox self; skipped_packages := skipped_packages self;
     skipped_package_regexes := skipped_package_regexes self;
     systems := systems self; build_graph := v;
     print_result := print_result self;
     extra_nixpkgs_config := extra_nixpkgs_config self;
     num_parallel_evals := num_parallel_evals self;
     rev_config := rev_config self; pr_config := pr_config self;
     wip_config := wip_config self |}.

Definition set_print_result (v : pyval) (self : t) : t :=
  {| allow := allow self; build_args := build_args self;
     no_shell := no_shell self; remote := remote self; run := run self;
     sandbox := sandbox self; skipped_packages := skipped_packages self;
     skipped_package_regexes := skipped_package_regexes self;
     systems := systems self; build_graph := build_graph self;
     print_result := v; extra_nixpkgs_config := extra_nixpkgs_config self;
     num_parallel_evals := num_parallel_evals self;
     rev_config := rev_config self; pr_config := pr_config self;
     wip_config := wip_config self |}.

Definition set_extra_nixpkgs_config (v : pyval) (self : t) : t :=
  {| allow := allow self; build_args := build_args self;
     no_shell := no_shell self; remote := remote self; run := run self;
     sandbox := sandbox self; skipped_packages := skipped_packages self;
     skipped_package_regexes := skipped_package_regexes self;
     systems := systems self; build_graph := build_graph self;
     print_result := print_result self; extra_nixpkgs_config := v;
     num_parallel_evals := num_parallel_evals self;
     rev_config := rev_config self; pr_config := pr_config self;
     wip_config := wip_config self |}.

Definition set_num_parallel_evals (v : pyval) (self : t) : t :=
  {| allow := allow self; build_args := build_args self;
     no_shell := no_shell self; remote := remote self; run := run self;
     sandbox := sandbox self; skipped_packages := skipped_packages self;
     skipped_package_regexes := skipped_package_regexes self;
     systems := systems self; build_graph := build_graph self;
     print_result := print_result self;
     extra_nixpkgs_config := extra_nixpkgs_config self;
     num_parallel_evals := v; rev_config := rev_config self;
     pr_config := pr_config self; wip_config := wip_config self |}.

Definition set_rev_config (v : RevConfig.t) (self : t) : t :=
  {| allow := allow self; build_args := build_args self;
     no_shell := no_shell self; remote := remote self; run := run self;
     sandbox := sandbox self; skipped_packages := skipped_packages self;
     skipped_package_regexes := skipped_package_regexes self;
     systems := systems self; build_graph := build_graph self;
     print_result := print_result self;
     extra_nixpkgs_config := extra_nixpkgs_config self;
     num_parallel_evals := num_parallel_evals self; rev_config := v;
     pr_config := pr_config self; wip_config := wip_config self |}.

Definition set_pr_config (v : PrConfig.t) (self : t) : t :=
  {| allow := allow self; build_args := build_args self;
     no_shell := no_shell self; remote := remote self; run := run self;
     sandbox := sandbox self; skipped_packages := skipped_packages self;
     skipped_package_regexes := skipped_package_regexes self;
     systems := systems self; build_graph := build_graph self;
     print_result := print_result self;
     extra_nixpkgs_config := extra_nixpkgs_config self;
     num_parallel_evals := num_parallel_evals self;
     rev_config := rev_config self; pr_config := v;
     wip_config := wip_config self |}.

Definition set_wip_config (v : WipConfig.t) (self : t) : t :=
  {| allow := allow self; build_args := build_args self;
     no_shell := no_shell self; remote := remote self; run := run self;
     sandbox := sandbox self; skipped_packages := skipped_packages self;
     skipped_package_regexes := skipped_package_regexes self;
     systems := systems self; build_graph := build_graph self;
     print_result := print_result self;
     extra_nixpkgs_config := extra_nixpkgs_config self;
     num_parallel_evals := num_parallel_evals self;
     rev_config := rev_config self; pr_config := pr_config self;
     wip_config := v |}.

(** A method of a sub-config runs on the object stored in the attribute;
    the object is shared, so whatever the method assigned before raising
    is visible through the [Config]. *)
Definition on_rev_config {A} (m : M RevConfig.t A) : M t A :=
  fun self => let (sub, r) := m (rev_config self) in (set_rev_config sub self, r).
Definition on_wip_config {A} (m : M WipConfig.t A) : M t A :=
  fun self => let (sub, r) := m (wip_config self) in (set_wip_config sub self, r).
Definition on_pr_config {A} (m : M PrConfig.t A) : M t A :=
  fun self => let (sub, r) := m (pr_config self) in (set_pr_config sub self, r).

(** The items a [for] or a comprehension walks through; the loader only
    iterates values it has already checked to be lists. *)
Definition items (v : pyval) : list pyval :=
  match v with
  | PList l => l
  | _ => []
  end.

(** [self.num_parallel_evals > 0], evaluated after the [int] check. *)
Definition positive (v : pyval) : bool :=
  match v with
  | PInt n => 0 <? n
  | PBool b => b
  | _ => false
  end.

Section Loader.

(** [re.compile] of the standard library on a string: it returns, or it
    raises.  [ReError msg] is [re.error], with [msg] what [str(e)] gives;
    the engine also raises exceptions that are no [re.error], such as the
    [OverflowError] of a repetition count that is too large. *)
Variable re_compile : string -> result unit.

(** [regex_type]: only [re.error] is caught; any other exception of
    [re.compile] leaves the function as it is.  [re.compile] hands a
    compiled pattern back as it is and rejects what is neither a string nor
    a pattern with a [TypeError]. *)
Definition regex_type (s : pyval) : result pyval :=
  match s with
  | PStr s =>
      match re_compile s with
      | Ok _ => Ok (PPattern s)
      | Raise (ReError e) =>
          Raise (ArgumentTypeError ("'" ++ s ++ "' is not a valid regex: " ++ e))
      | Raise other => Raise other
      end
  | PPattern p => Ok (PPattern p)
  | PList _ => Raise (TypeError "unhashable type: 'list'")
  | PDict _ => Raise (TypeError "unhashable type: 'dict'")
  | _ => Raise (TypeError "first argument must be string or compiled pattern")
  end.

(** [[regex_type(regex) for regex in skipped_package_regexes]] *)
Fixpoint compile_all (regexes : list pyval) : result (list pyval) :=
  match regexes with
  | [] => Ok []
  | regex :: rest =>
      match regex_type regex with
      | Raise e => Raise e
      | Ok p =>
          match compile_all rest with
          | Raise e => Raise e
          | Ok ps => Ok (p :: ps)
          end
      end
  end.

(** [Config.update_from_dict] *)
Definition update_from_dict (config_dict : gmap string pyval) : M t unit :=
  cur <- reads allow ;;
  let v := dict_get config_dict "allow" cur in
  assign (set_allow v) ;;
  _check_type "allow" v TList ;;
  py_assert (forallb (fun x => in_values x ALLOW_VALUES) (items v)) ;;

  cur <- reads build_args ;;
  let v := dict_get config_dict "build_args" cur in
  assign (set_build_args v) ;;
  _check_type "build_args" v TStr ;;

  cur <- reads no_shell ;;
  let v := dict_get config_dict "no_shell" cur in
  assign (set_no_shell v) ;;
  _check_type "no_shell" v TBool ;;

  cur <- reads remote ;;
  let v := dict_get config_dict "remote" cur in
  assign (set_remote v) ;;
  _check_type "remote" v TStr ;;

  cur <- reads run ;;
  let v := dict_get config_dict "run" cur in
  assign (set_run v) ;;
  _check_type "run" v TStr ;;

  cur <- reads sandbox ;;
  let v := dict_get config_dict "sandbox" cur in
  assign (set_sandbox v) ;;
  _check_type "sandbox" v TBool ;;

  cur <- reads skipped_packages ;;
  let v := dict_get config_dict "skipped_packages" cur in
  assign (set_skipped_packages v) ;;
  _check_type "skipped_packages" v TList ;;

  cur <- reads skipped_package_regexes ;;
  let regexes := dict_get config_dict "skipped_package_regexes" cur in
  _check_type "skipped_package_regexes" regexes TList ;;
  compiled <- lift (compile_all (items regexes)) ;;
  assign (set_skipped_package_regexes (PList compiled)) ;;

  cur <- reads systems ;;
  let v := dict_get config_dict "systems" cur in
  assign (set_systems v) ;;
  py_assert (isinstance v TStr || isinstance v TList) ;;
  (if isinstance v TList
   then py_assert (forallb (fun system => isinstance system TStr) (items v))
   else ret tt) ;;

  cur <- reads build_graph ;;
  let v := dict_get config_dict "build_graph" cur in
  assign (set_build_graph v) ;;
  _check_type "build_graph" v TStr ;;
  py_assert (in_values v BUILD_GRAPH_VALUES) ;;

  cur <- reads print_result ;;
  let v := dict_get config_dict "print_result" cur in
  assign (set_print_result v) ;;
  _check_type "print_result" v TBool ;;

  cur <- reads extra_nixpkgs_config ;;
  let v := dict_get config_dict "extra_nixpkgs_config" cur in
  assign (set_extra_nixpkgs_config v) ;;
  _check_type "extra_nixpkgs_config" v TStr ;;

  cur <- reads num_parallel_evals ;;
  let v := dict_get config_dict "num_parallel_evals" cur in
  assign (set_num_parallel_evals v) ;;
  _check_type "num_parallel_evals" v TInt ;;
  py_assert (positive v) ;;

  on_rev_config
    (RevConfig.update_from_dict (dict_get config_dict "rev" (PDict ∅))) ;;

  on_wip_config
    (WipConfig.update_from_dict (dict_get config_dict "wip" (PDict ∅))) ;;

  on_pr_config
    (PrConfig.update_from_dict (dict_get config_dict "pr" (PDict ∅))).

(** [Config.update_from_args] is declared with the single parameter
    [args] and no [self]; [config.update_from_args(args)] binds [config]
    to it and has [args] left over, so the call raises before the body
    ([self.update_from_dict(config_dict = {})]) is entered. *)
Definition update_from_args (args : Namespace) : M t unit :=
  throw (TypeError
    "Config.update_from_args() takes 1 positional argument but 2 were given").

(** [Config.read_config]; [config_file] is [None] when the path does not
    exist, and otherwise what [tomllib.load] makes of the file. *)
Definition read_config (config_file : option (result (gmap string pyval)))
    : M t unit :=
  match config_file with
  | None => ret tt
  | Some loaded =>
      file_config <- lift loaded ;;
      update_from_dict file_config
  end.

End Loader.

End Config.

(** ** pr.py: the identifier parser *)

(** [str(n)] for an integer, as an f-string renders it. *)
Definition str_of_int (n : Z) : string :=
  NilZero.string_of_int (Z.to_int n).

(** The characters [\d] matches among the code points below 256. *)
Definition is_digit (c : ascii) : bool :=
  let n := nat_of_ascii c in ((48 <=? n) && (n <=? 57))%nat.

Definition digit_value (c : ascii) : Z :=
  Z.of_nat (nat_of_ascii c) - 48.

(** The characters [int] skips around a literal. *)
Definition is_space (c : ascii) : bool :=
  let n := nat_of_ascii c in
  (((9 <=? n) && (n <=? 13)) || (n =? 32) || (n =? 133) || (n =? 160))%nat.

(** The longest run of digits at the front of [s], and what follows it. *)
Fixpoint span_digits (s : string) : string * string :=
  match s with
  | String c rest =>
      if is_digit c
      then let (ds, tl) := span_digits rest in (String c ds, tl)
      else (EmptyString, s)
  | EmptyString => (EmptyString, EmptyString)
  end.

(** The grammar of a base-10 literal after the sign: groups of digits
    joined by single underscores, then only spaces. *)
Inductive int_state : Type := NeedDigit | AfterDigit | Trailing.

Fixpoint int_scan (st : int_state) (acc : Z) (s : string) : option Z :=
  match s with
  | EmptyString =>
      match st with
      | NeedDigit => None
      | _ => Some acc
      end
  | String c rest =>
      match st with
      | NeedDigit =>
          if is_digit c then int_scan AfterDigit (10 * acc + digit_value c) rest
          else None
      | AfterDigit =>
          if is_digit c then int_scan AfterDigit (10 * acc + digit_value c) rest
          else if Ascii.eqb c "_" then int_scan NeedDigit acc rest
          else if is_space c then int_scan Trailing acc rest
          else None
      | Trailing =>
          if is_space c then int_scan Trailing acc rest else None
      end
  end.

Fixpoint lstrip (s : string) : string :=
  match s with
  | String c rest => if is_space c then lstrip rest else s
  | EmptyString => EmptyString
  end.

(** [int(s)] for a string; [None] stands for the [ValueError]. *)
Definition int_of_str (s : string) : option Z :=
  match lstrip s with
  | String "+" rest => int_scan NeedDigit 0 rest
  | String "-" rest => option_map Z.opp (int_scan NeedDigit 0 rest)
  | body => int_scan NeedDigit 0 body
  end.

(** [int(s)] as a call that may raise; the text of the message is not
    reproduced. *)
Definition py_int {S} (s : string) : M S Z :=
  match int_of_str s with
  | Some n => ret n
  | None => throw (ValueError "invalid literal for int() with base 10")
  end.

(** [list(range(a, b))] *)
Definition range (a b : Z) : list Z :=
  List.map (fun i => a + Z.of_nat i) (seq 0 (Z.to_nat (b - a))).

(** [s] without the literal prefix [p], when it starts with it. *)
Fixpoint strip_prefix (p s : string) : option string :=
  match p with
  | EmptyString => Some s
  | String a p' =>
      match s with
      | String b s' => if Ascii.eqb a b then strip_prefix p' s' else None
      | EmptyString => None
      end
  end.

(** [re.match(r"(\d+)-(\d+)", arg)]: the two groups.  A greedy [\d+] takes
    the whole run of digits; giving some back never helps, since the
    character after a shorter run is a digit and not the hyphen.  The match
    is anchored at the start only, so [arg] may go on after the second run. *)
Definition match_range (arg : string) : option (string * string) :=
  match span_digits arg with
  | (EmptyString, _) => None
  | (a, String "-" rest) =>
      match span_digits rest with
      | (EmptyString, _) => None
      | (b, _) => Some (a, b)
      end
  | _ => None
  end.

(** [re.match(r"https://github.com/NixOS/nixpkgs/pull/(\d+)/?.*", arg)]:
    the group.  The dot of [github.com] is a pattern dot, which matches any
    character but a newline; the tail [/?.*] matches anything, the empty
    string included. *)
Definition match_url (arg : string) : option string :=
  match strip_prefix "https://github" arg with
  | Some (String c rest) =>
      if Ascii.eqb c "010" then None
      else
        match strip_prefix "com/NixOS/nixpkgs/pull/" rest with
        | Some tl =>
            match span_digits tl with
            | (EmptyString, _) => None
            | (n, _) => Some n
            end
        | None => None
        end
  | _ => None
  end.

(** ** pr.py: the process, its collaborators and its local variables *)

(** Modelled from the spec: [Builddir] (module [builddir]) is not among the
    sources.  A build session is a uniquely named temporary directory
    created at acquisition; the serial number tells apart the sessions of
    one run, also two that were asked for under the same name. *)
Record Builddir : Type := mkBuilddir {
  bd_name : string;
  bd_serial : nat
}.

(** A [Review] object, known by the session it was constructed on; the
    other constructor arguments are the same for every identifier. *)
Record Review : Type := mkReview {
  review_builddir : Builddir
}.

(** [dict[System, list[Attr]]]: the attributes to build for each system. *)
Definition Attrs : Type := gmap string (list string).

(** An entry of [contexts]: PR number, builddir path, attributes. *)
Definition context : Type := Z * string * Attrs.

(** What the run shows to the outside: warnings, and the scopes it enters
    and leaves. *)
Inductive event : Type :=
| Warn (msg : string)
| BuildenvEnter
| BuildenvExit
| BuilddirEnter (b : Builddir)
| BuilddirExit (b : Builddir).

(** The collaborators of the command that are defined elsewhere. *)
Record World : Type := mkWorld {
  nix_nom_tool : string;
  re_compile : string -> result unit;
  config_file : option (result (gmap string pyval));
  ensure_github_token : result unit;
  AllowedFeatures : result unit;
  builddir_path : Builddir -> string;
  Review_init : Builddir -> result unit;
  build_pr : Review -> Z -> result Attrs;
  start_review : Review -> Attrs -> string -> Z -> bool -> bool -> result bool
}.

(** The state of a run: the trace, the callbacks pending on the
    [ExitStack] (latest first), the number of sessions created so far, and
    the local variables of [pr_command]. *)
Record Frame : Type := mkFrame {
  trace : list event;
  pending : list Builddir;
  sessions : nat;
  config : Config.t;
  contexts : list context;
  review : option Review;
  builddir : option Builddir
}.

Definition set_trace (v : list event) (fr : Frame) : Frame :=
  {| trace := v; pending := pending fr; sessions := sessions fr;
     config := config fr; contexts := contexts fr; review := review fr;
     builddir := builddir fr |}.

Definition set_pending (v : list Builddir) (fr : Frame) : Frame :=
  {| trace := trace fr; pending := v; sessions := sessions fr;
     config := config fr; contexts := contexts fr; review := review fr;
     builddir := builddir fr |}.

Definition set_sessions (v : nat) (fr : Frame) : Frame :=
  {| trace := trace fr; pending := pending fr; sessions := v;
     config := config fr; contexts := contexts fr; review := review fr;
     builddir := builddir fr |}.

Definition set_config (v : Config.t) (fr : Frame) : Frame :=
  {| trace := trace fr; pending := pending fr; sessions := sessions fr;
     config := v; contexts := contexts fr; review := review fr;
     builddir := builddir fr |}.

Definition set_contexts (v : list context) (fr : Frame) : Frame :=
  {| trace := trace fr; pending := pending fr; sessions := sessions fr;
     config := config fr; contexts := v; review := review fr;
     builddir := builddir fr |}.

Definition set_review (v : option Review) (fr : Frame) : Frame :=
  {| trace := trace fr; pending := pending fr; sessions := sessions fr;
     config := config fr; contexts := contexts fr; review := v;
     builddir := builddir fr |}.

Definition set_builddir (v : option Builddir) (fr : Frame) : Frame :=
  {| trace := trace fr; pending := pending fr; sessions := sessions fr;
     config := config fr; contexts := contexts fr; review := review fr;
     builddir := v |}.

Definition Frame_init (w : World) : Frame :=
  {| trace := []; pending := []; sessions := 0%nat;
     config := Config.default (nix_nom_tool w);
     contexts := []; review := None; builddir := None |}.

(** [warn(msg)] of [utils]: the message reaches the user. *)
Definition warn (msg : string) : M (list event) unit :=
  assign (fun tr => (tr ++ [Warn msg])%list).

(** [sys.exit(code)] *)
Definition sys_exit {S A} (code : Z) : M S A := throw (SystemExit code).

(** A computation that only writes to the trace, run inside the command. *)
Definition on_trace {A} (m : M (list event) A) : M Frame A :=
  fun fr => let (tr, r) := m (trace fr) in (set_trace tr fr, r).

(** A method of the local [config] object. *)
Definition on_config {A} (m : M Config.t A) : M Frame A :=
  fun fr => let (c, r) := m (config fr) in (set_config c fr, r).

Definition emit (e : event) : M Frame unit :=
  assign (fun fr => set_trace (trace fr ++ [e])%list fr).

(** [try: body except NixpkgsReviewError as e: handler]; any other
    exception passes through. *)
Definition except_NixpkgsReviewError {S A} (body : M S A)
    (handler : string -> M S A) : M S A :=
  fun s =>
    match body s with
    | (s', Raise (NixpkgsReviewError e)) => handler e s'
    | other => other
    end.

(** [with manager: body]: the manager is left when the body is, however
    the body ends, and the body's outcome is the outcome of the whole.
    Neither entering nor leaving raises or swallows an exception. *)
Definition with_ {S A} (enter exit : M S unit) (body : M S A) : M S A :=
  fun s =>
    match enter s with
    | (s1, Raise e) => (s1, Raise e)
    | (s1, Ok _) =>
        let (s2, r) := body s1 in
        let (s3, _) := exit s2 in
        (s3, r)
    end.

(** [parse_pr_numbers]: the loop over [number_args], [prs] being the list
    built so far.  In the last branch [m] is the failed URL match, that is
    [None], and this is what the f-string renders. *)
Fixpoint parse_pr_numbers_loop (number_args : list string) (prs : list Z)
    : M (list event) (list Z) :=
  match number_args with
  | [] => ret prs
  | arg :: rest =>
      match match_range arg with
      | Some (a, b) =>
          lo <- py_int a ;;
          hi <- py_int b ;;
          parse_pr_numbers_loop rest (prs ++ range lo hi)%list
      | None =>
          match match_url arg with
          | Some n =>
              pr <- py_int n ;;
              parse_pr_numbers_loop rest (prs ++ [pr])%list
          | None =>
              match int_of_str arg with
              | Some pr => parse_pr_numbers_loop rest (prs ++ [pr])%list
              | None =>
                  warn ("expected number or URL, got " ++ "None") ;;
                  sys_exit 1
              end
          end
      end
  end.

Definition parse_pr_numbers (number_args : list string)
    : M (list event) (list Z) :=
  parse_pr_numbers_loop number_args [].

Section PrCommand.

Variable w : World.

(** Modelled from the spec: [Builddir(name)] creates a fresh session; it
    takes the next serial number. *)
Definition Builddir_new (name : string) : M Frame Builddir :=
  fun fr =>
    (set_sessions (S (sessions fr)) fr,
     Ok {| bd_name := name; bd_serial := sessions fr |}).

(** [stack.enter_context(cm)]: enter [cm] and push its exit on the stack. *)
Definition enter_context (b : Builddir) : M Frame Builddir :=
  emit (BuilddirEnter b) ;;
  assign (fun fr => set_pending (b :: pending fr) fr) ;;
  ret b.

(** Leaving the [ExitStack]: the pending exits run, the latest first. *)
Definition ExitStack_exit : M Frame unit :=
  assign (fun fr =>
    set_pending []
      (set_trace (trace fr ++ List.map BuilddirExit (pending fr))%list fr)).

(** [Review(builddir=builddir, ...)] *)
Definition Review_new (b : Builddir) : M Frame Review :=
  lift (Review_init w b) ;;
  ret {| review_builddir := b |}.

(** The warning of the [except] clause. *)
Definition failed_to_build (pr : Z) (e : string) : string :=
  "https://github.com/NixOS/nixpkgs/pull/" ++ str_of_int pr
  ++ " failed to build: " ++ e.

(** One turn of [for pr in prs] (lines 73 to 98). *)
Definition review_pr (pr : Z) : M Frame unit :=
  b <- Builddir_new ("pr-" ++ str_of_int pr) ;;
  b <- enter_context b ;;
  assign (set_builddir (Some b)) ;;
  except_NixpkgsReviewError
    (r <- Review_new b ;;
     assign (set_review (Some r)) ;;
     attrs <- lift (build_pr w r pr) ;;
     assign (fun fr =>
       set_contexts (contexts fr ++ [(pr, builddir_path w b, attrs)])%list fr))
    (fun e => on_trace (warn (failed_to_build pr e))).

Fixpoint for_pr_in (prs : list Z) : M Frame unit :=
  match prs with
  | [] => ret tt
  | pr :: rest => review_pr pr ;; for_pr_in rest
  end.

(** [all(review.start_review(attrs, path, pr, ...) for pr, path, attrs in
    contexts)]: the generator is consumed up to the first false result. *)
Fixpoint all_start_review (post_result print_result : bool) (r : Review)
    (cs : list context) : M Frame bool :=
  match cs with
  | [] => ret true
  | (pr, path, attrs) :: rest =>
      ok <- lift (start_review w r attrs path pr post_result print_result) ;;
      if ok then all_start_review post_result print_result r rest
      else ret false
  end.

(** The body of the [with] statement (lines 71 to 110). *)
Definition with_body (args : Namespace) (prs : list Z) : M Frame unit :=
  assign (set_review None) ;;
  for_pr_in prs ;;
  r <- reads review ;;
  match r with
  | None => throw AssertionError
  | Some r =>
      cs <- reads contexts ;;
      all_succeeded <-
        all_start_review (arg_post_result args) (arg_print_result args) r cs ;;
      (if arg_no_shell args
       then sys_exit (if all_succeeded then 0 else 1)
       else ret tt) ;;
      cs <- reads contexts ;;
      (if negb (length cs =? length prs)%nat
       then sys_exit 1
       else ret tt)
  end.

(** Lines 67 to 112: the two scopes around the loop, and the result. *)
Definition review_prs (args : Namespace) (prs : list Z) : M Frame string :=
  assign (set_builddir None) ;;
  with_ (emit BuildenvEnter) (emit BuildenvExit)
    (with_ (ret tt) ExitStack_exit
       (with_body args prs)) ;;
  b <- reads builddir ;;
  match b with
  | None => throw AssertionError
  | Some b => ret (builddir_path w b)
  end.

(** [pr_command] *)
Definition pr_command (args : Namespace) : M Frame string :=
  assign (set_config (Config.default (nix_nom_tool w))) ;;
  on_config (Config.read_config (re_compile w) (config_file w)) ;;

  prs <- on_trace (parse_pr_numbers (number args)) ;;
  on_config (Config.update_from_args args) ;;

  (if arg_post_result args then lift (ensure_github_token w) else ret tt) ;;
  (if negb (String.eqb (arg_system args) "")
   then on_trace (warn
          "Warning: The `--system` is deprecated. Use `--systems` instead.")
   else ret tt) ;;

  assign (set_contexts []) ;;
  lift (AllowedFeatures w) ;;
  review_prs args prs.

End PrCommand.

(** * Vocabulary of the properties *)

(** ** Identifiers *)

(** A string of decimal digits, and the number it writes. *)
Fixpoint all_digits (s : string) : bool :=
  match s with
  | EmptyString => true
  | String c rest => is_digit c && all_digits rest
  end.

Fixpoint decimal_from (acc : Z) (s : string) : Z :=
  match s with
  | EmptyString => acc
  | String c rest => decimal_from (10 * acc + digit_value c) rest
  end.

Definition decimal (s : string) : Z := decimal_from 0 s.

(** [needle in haystack] for two strings. *)
Fixpoint occurs_in (needle haystack : string) : bool :=
  if String.prefix needle haystack then true
  else
    match haystack with
    | EmptyString => false
    | String _ rest => occurs_in needle rest
    end.

(** ** Loaded configurations *)

(** What a completed [Config.update_from_dict] has checked, and what it
    has left on the object: every attribute holds the value of its key, or
    what it held before when the key is absent. *)
Record Loaded (re : string -> result unit) (d : gmap string pyval)
    (c c' : Config.t) : Prop := {
  ld_allow : Config.allow c' = dict_get d "allow" (Config.allow c);
  ld_allow_type : isinstance (Config.allow c') TList = true;
  ld_allow_values :
    forallb (fun x => in_values x ALLOW_VALUES)
      (Config.items (Config.allow c')) = true;
  ld_build_args :
    Config.build_args c' = dict_get d "build_args" (Config.build_args c);
  ld_build_args_type : isinstance (Config.build_args c') TStr = true;
  ld_no_shell : Config.no_shell c' = dict_get d "no_shell" (Config.no_shell c);
  ld_no_shell_type : isinstance (Config.no_shell c') TBool = true;
  ld_remote : Config.remote c' = dict_get d "remote" (Config.remote c);
  ld_remote_type : isinstance (Config.remote c') TStr = true;
  ld_run : Config.run c' = dict_get d "run" (Config.run c);
  ld_run_type : isinstance (Config.run c') TStr = true;
  ld_sandbox : Config.sandbox c' = dict_get d "sandbox" (Config.sandbox c);
  ld_sandbox_type : isinstance (Config.sandbox c') TBool = true;
  ld_skipped_packages :
    Config.skipped_packages c'
    = dict_get d "skipped_packages" (Config.skipped_packages c);
  ld_skipped_packages_type : isinstance (Config.skipped_packages c') TList = true;
  ld_regexes_type :
    isinstance
      (dict_get d "skipped_package_regexes" (Config.skipped_package_regexes c))
      TList = true;
  ld_regexes :
    exists compiled,
      Config.compile_all re
        (Config.items
           (dict_get d "skipped_package_regexes"
              (Config.skipped_package_regexes c))) = Ok compiled
      /\ Config.skipped_package_regexes c' = PList compiled;
  ld_systems : Config.systems c' = dict_get d "systems" (Config.systems c);
  ld_systems_type :
    isinstance (Config.systems c') TStr = true
    \/ isinstance (Config.systems c') TList = true
       /\ forallb (fun system => isinstance system TStr)
            (Config.items (Config.systems c')) = true;
  ld_build_graph :
    Config.build_graph c' = dict_get d "build_graph" (Config.build_graph c);
  ld_build_graph_type : isinstance (Config.build_graph c') TStr = true;
  ld_build_graph_values :
    in_values (Config.build_graph c') BUILD_GRAPH_VALUES = true;
  ld_print_result :
    Config.print_result c' = dict_get d "print_result" (Config.print_result c);
  ld_print_result_type : isinstance (Config.print_result c') TBool = true;
  ld_extra_nixpkgs_config :
    Config.extra_nixpkgs_config c'
    = dict_get d "extra_nixpkgs_config" (Config.extra_nixpkgs_config c);
  ld_extra_nixpkgs_config_type :
    isinstance (Config.extra_nixpkgs_config c') TStr = true;
  ld_num_parallel_evals :
    Config.num_parallel_evals c'
    = dict_get d "num_parallel_evals" (Config.num_parallel_evals c);
  ld_num_parallel_evals_type :
    isinstance (Config.num_parallel_evals c') TInt = true;
  ld_num_parallel_evals_positive :
    Config.positive (Config.num_parallel_evals c') = true;
  ld_rev :
    exists t,
      dict_get d "rev" (PDict ∅) = PDict t
      /\ RevConfig.branch (Config.rev_config c')
         = dict_get t "branch" (RevConfig.branch (Config.rev_config c))
      /\ isinstance (RevConfig.branch (Config.rev_config c')) TStr = true;
  ld_wip :
    exists t,
      dict_get d "wip" (PDict ∅) = PDict t
      /\ WipConfig.branch (Config.wip_config c')
         = dict_get t "branch" (WipConfig.branch (Config.wip_config c))
      /\ isinstance (WipConfig.branch (Config.wip_config c')) TStr = true
      /\ WipConfig.staged (Config.wip_config c')
         = dict_get t "staged" (WipConfig.branch (Config.wip_config c'))
      /\ isinstance (WipConfig.staged (Config.wip_config c')) TBool = true;
  ld_pr :
    exists t,
      dict_get d "pr" (PDict ∅) = PDict t
      /\ PrConfig.eval (Config.pr_config c')
         = dict_get t "eval" (PrConfig.eval (Config.pr_config c))
      /\ in_values (PrConfig.eval (Config.pr_config c')) EVAL_VALUES = true
      /\ PrConfig.checkout (Config.pr_config c')
         = dict_get t "checkout" (PrConfig.checkout (Config.pr_config c))
      /\ in_values (PrConfig.checkout (Config.pr_config c'))
           CHECKOUT_VALUES = true
      /\ PrConfig.post_result (Config.pr_config c')
         = dict_get t "post_result" (PrConfig.post_result (Config.pr_config c))
      /\ isinstance (PrConfig.post_result (Config.pr_config c')) TBool = true
}.

Definition absent_or (ok : pyval -> bool) (o : option pyval) : bool :=
  match o with
  | Some v => ok v
  | None => true
  end.

(** The values that pass the checks the loader makes on a key, as the
    loader makes them: [isinstance] on the value of an option, membership
    for an enumerated option, [> 0] for the number of parallel evaluations,
    [regex_type] on every entry of the list of regular expressions.  This
    is less than the annotations of the classes: the elements of
    [skipped_packages] (annotated [list[str]]) are not looked at, and a
    [bool], being an [int], passes for [num_parallel_evals].  Keys the
    loader does not know are not looked at. *)
Definition passes_checks (re : string -> result unit) (key : string)
    (v : pyval) : bool :=
  if String.eqb key "allow" then
    isinstance v TList
    && forallb (fun x => in_values x ALLOW_VALUES) (Config.items v)
  else if String.eqb key "build_args" then isinstance v TStr
  else if String.eqb key "no_shell" then isinstance v TBool
  else if String.eqb key "remote" then isinstance v TStr
  else if String.eqb key "run" then isinstance v TStr
  else if String.eqb key "sandbox" then isinstance v TBool
  else if String.eqb key "skipped_packages" then isinstance v TList
  else if String.eqb key "skipped_package_regexes" then
    isinstance v TList
    && forallb (fun x => is_ok (Config.regex_type re x)) (Config.items v)
  else if String.eqb key "systems" then
    isinstance v TStr
    || isinstance v TList
       && forallb (fun x => isinstance x TStr) (Config.items v)
  else if String.eqb key "build_graph" then
    isinstance v TStr && in_values v BUILD_GRAPH_VALUES
  else if String.eqb key "print_result" then isinstance v TBool
  else if String.eqb key "extra_nixpkgs_config" then isinstance v TStr
  else if String.eqb key "num_parallel_evals" then
    isinstance v TInt && Config.positive v
  else if String.eqb key "rev" then
    match v with
    | PDict t => absent_or (fun x => isinstance x TStr) (t !! "branch")
    | _ => false
    end
  else if String.eqb key "wip" then
    match v with
    | PDict t =>
        absent_or (fun x => isinstance x TStr) (t !! "branch")
        && absent_or (fun x => isinstance x TBool) (t !! "staged")
    | _ => false
    end
  else if String.eqb key "pr" then
    match v with
    | PDict t =>
        absent_or (fun x => in_values x EVAL_VALUES) (t !! "eval")
        && absent_or (fun x => in_values x CHECKOUT_VALUES) (t !! "checkout")
        && absent_or (fun x => isinstance x TBool) (t !! "post_result")
    | _ => false
    end
  else true.

(** ** Runs of the orchestrator *)

(** The session of the identifier [pr] when [n] sessions came before. *)
Definition session (n : nat) (pr : Z) : Builddir :=
  {| bd_name := "pr-" ++ str_of_int pr; bd_serial := n |}.

(** The sessions a list of identifiers asks for, in order. *)
Fixpoint planned (n : nat) (prs : list Z) : list Builddir :=
  match prs with
  | [] => []
  | pr :: rest => session n pr :: planned (S n) rest
  end.

(** What the collaborators make of an identifier on its session: the
    attributes to build, or the exception of the constructor or of
    [build_pr]. *)
Definition pipeline (w : World) (b : Builddir) (pr : Z) : result Attrs :=
  match Review_init w b with
  | Ok _ => build_pr w {| review_builddir := b |} pr
  | Raise e => Raise e
  end.

(** The contexts of the identifiers whose pipeline did not raise. *)
Fixpoint recorded (w : World) (n : nat) (prs : list Z) : list context :=
  match prs with
  | [] => []
  | pr :: rest =>
      match pipeline w (session n pr) pr with
      | Ok attrs =>
          (pr, builddir_path w (session n pr), attrs) :: recorded w (S n) rest
      | Raise _ => recorded w (S n) rest
      end
  end.

(** The [Review] object constructed last, if any was. *)
Fixpoint last_review (w : World) (n : nat) (prs : list Z)
    (r0 : option Review) : option Review :=
  match prs with
  | [] => r0
  | pr :: rest =>
      last_review w (S n) rest
        match Review_init w (session n pr) with
        | Ok _ => Some {| review_builddir := session n pr |}
        | Raise _ => r0
        end
  end.

(** The session entered last, if any was. *)
Fixpoint last_session (n : nat) (prs : list Z) (b0 : option Builddir)
    : option Builddir :=
  match prs with
  | [] => b0
  | pr :: rest => last_session (S n) rest (Some (session n pr))
  end.

(** What the loop shows: each session entered, and a warning for each
    identifier whose pipeline raised the domain error. *)
Fixpoint loop_trace (w : World) (n : nat) (prs : list Z) : list event :=
  match prs with
  | [] => []
  | pr :: rest =>
      (BuilddirEnter (session n pr)
       :: match pipeline w (session n pr) pr with
          | Raise (NixpkgsReviewError e) => [Warn (failed_to_build pr e)]
          | _ => []
          end
       ++ loop_trace w (S n) rest)%list
  end.

(** The frame the loop leaves behind when every identifier is handled. *)
Definition after_loop (w : World) (prs : list Z) (fr : Frame) : Frame :=
  {| trace := (trace fr ++ loop_trace w (sessions fr) prs)%list;
     pending := (rev (planned (sessions fr) prs) ++ pending fr)%list;
     sessions := (sessions fr + length prs)%nat;
     config := config fr;
     contexts := (contexts fr ++ recorded w (sessions fr) prs)%list;
     review := last_review w (sessions fr) prs (review fr);
     builddir := last_session (sessions fr) prs (builddir fr) |}.

Definition is_domain_error (e : exn) : bool :=
  match e with
  | NixpkgsReviewError _ => true
  | _ => false
  end.

(** A world in which [Review] and [build_pr] fail with the domain error
    only, and one in which [start_review] always answers. *)
Definition raises_domain_errors_only (w : World) : Prop :=
  (forall b e, Review_init w b = Raise e -> is_domain_error e = true)
  /\ (forall r pr e, build_pr w r pr = Raise e -> is_domain_error e = true).

(** The identifier [pr] on the session [b] is recorded or warned about:
    whatever its pipeline raises is the domain error. *)
Definition handled (w : World) (b : Builddir) (pr : Z) : Prop :=
  forall e, pipeline w b pr = Raise e -> is_domain_error e = true.

Definition reviews_return (w : World) : Prop :=
  forall r attrs path pr post print,
    exists ok, start_review w r attrs path pr post print = Ok ok.

(** Whether the review of a recorded context reports success. *)
Definition review_succeeds (w : World) (args : Namespace) (r : Review)
    (c : context) : bool :=
  let '(pr, path, attrs) := c in
  match start_review w r attrs path pr
          (arg_post_result args) (arg_print_result args) with
  | Ok ok => ok
  | Raise _ => false
  end.

(** The scope entries and exits of a trace, without the warnings. *)
Definition is_scope_event (e : event) : bool :=
  match e with
  | Warn _ => false
  | _ => true
  end.

Definition scope_events (tr : list event) : list event :=
  List.filter is_scope_event tr.

Definition is_warning (e : event) : bool := negb (is_scope_event e).

(** How the run ends once the loop is through: the exit code under
    [no_shell], the comparison of the two lengths otherwise. *)
Definition outcome (w : World) (args : Namespace) (prs : list Z)
    (r : Review) (cs : list context) (b : option Builddir) : result string :=
  if arg_no_shell args then
    Raise (SystemExit (if forallb (review_succeeds w args r) cs then 0 else 1))
  else if (length cs =? length prs)%nat then
    match b with
    | Some b => Ok (builddir_path w b)
    | None => Raise AssertionError
    end
  else Raise (SystemExit 1).

(** The answer of [all(...)] over the contexts [cs]: whether every review
    succeeded, or the exception of the first review that raises. *)
Definition all_succeeded (w : World) (args : Namespace) (r : Review)
    (cs : list context) : result bool :=
  snd (all_start_review w (arg_post_result args) (arg_print_result args) r cs
         (Frame_init w)).

(** How lines 106 to 112 end on the answer of [all(...)]. *)
Definition ending (w : World) (args : Namespace) (prs : list Z)
    (answer : result bool) (cs : list context) (b : option Builddir)
    : result string :=
  match answer with
  | Raise e => Raise e
  | Ok ok =>
      if arg_no_shell args then Raise (SystemExit (if ok then 0 else 1))
      else if (length cs =? length prs)%nat then
        match b with
        | Some b => Ok (builddir_path w b)
        | None => Raise AssertionError
        end
      else Raise (SystemExit 1)
  end.

(** ** Sample inputs *)

(** [re.compile] on the patterns of the examples: it rejects ["("] with
    the [re.error] below, gives up on the repetition count of
    ["a{4294967295}"] with an [OverflowError], and compiles the others. *)
Definition re_sample (s : string) : result unit :=
  if String.eqb s "(" then
    Raise (ReError "missing ), unterminated subpattern at position 0")
  else if String.eqb s "a{4294967295}" then
    Raise (OverflowError "the repetition number is too large")
  else Ok tt.

(** A file that sets [allow] and gives [no_shell] a string. *)
Definition file_bad_no_shell : gmap string pyval :=
  <["allow" := PList [PStr "ifd"]]> (<["no_shell" := PStr "yes"]> ∅).

(** A file whose list of regular expressions ends in a broken one. *)
Definition file_bad_regex : gmap string pyval :=
  <["skipped_package_regexes" := PList [PStr "^python3"; PStr "("]]>
    (<["wip" := PDict (<["staged" := PBool false]> ∅)]> ∅).

(** The broken one after an entry that is no string. *)
Definition file_regex_after_number : gmap string pyval :=
  <["skipped_package_regexes" := PList [PInt 1; PStr "("]]>
    (<["wip" := PDict (<["staged" := PBool false]> ∅)]> ∅).

(** A pattern the engine gives up on. *)
Definition file_regex_overflow : gmap string pyval :=
  <["skipped_package_regexes" := PList [PStr "a{4294967295}"]]>
    (<["wip" := PDict (<["staged" := PBool false]> ∅)]> ∅).

(** What [regex_type] raises on the string [s] when [re.compile] raises
    [e]: its own [ArgumentTypeError] for [re.error], and [e] otherwise. *)
Definition regex_type_raises (s : string) (e : exn) : exn :=
  match e with
  | ReError msg =>
      ArgumentTypeError ("'" ++ s ++ "' is not a valid regex: " ++ msg)
  | other => other
  end.

(** The command line [nixpkgs-review pr 1 2 3], with or without
    [--no-shell]. *)
Definition sample_args (no_shell : bool) : Namespace :=
  {| number := ["1"; "2"; "3"];
     arg_eval := "ofborg";
     arg_checkout := "merge";
     arg_post_result := false;
     arg_print_result := false;
     arg_no_shell := no_shell;
     arg_build_args := "--show-trace";
     arg_remote := "https://github.com/NixOS/nixpkgs";
     arg_run := "";
     arg_sandbox := false;
     arg_systems := "current";
     arg_build_graph := "nix";
     arg_extra_nixpkgs_config := "{ }";
     arg_num_parallel_evals := 1;
     arg_system := "" |}.

(** A world in which the checkout of pull request 2 fails and every
    review succeeds. *)
Definition world_second_fails : World :=
  {| nix_nom_tool := "nix";
     re_compile := re_sample;
     config_file := None;
     ensure_github_token := Ok tt;
     AllowedFeatures := Ok tt;
     builddir_path := fun b => "/tmp/" ++ bd_name b;
     Review_init := fun _ => Ok tt;
     build_pr := fun _ pr =>
       if pr =? 2 then Raise (NixpkgsReviewError "checkout failed")
       else Ok ∅;
     start_review := fun _ _ _ _ _ _ => Ok true |}.

(** A world in which the checkout of every pull request fails. *)
Definition world_checkouts_fail : World :=
  {| nix_nom_tool := "nix";
     re_compile := re_sample;
     config_file := None;
     ensure_github_token := Ok tt;
     AllowedFeatures := Ok tt;
     builddir_path := fun b => "/tmp/" ++ bd_name b;
     Review_init := fun _ => Ok tt;
     build_pr := fun _ _ => Raise (NixpkgsReviewError "checkout failed");
     start_review := fun _ _ _ _ _ _ => Ok true |}.

(** A world in which the build of pull request 2 dies of something that
    is not the domain error. *)
Definition world_second_crashes : World :=
  {| nix_nom_tool := "nix";
     re_compile := re_sample;
     config_file := None;
     ensure_github_token := Ok tt;
     AllowedFeatures := Ok tt;
     builddir_path := fun b => "/tmp/" ++ bd_name b;
     Review_init := fun _ => Ok tt;
     build_pr := fun _ pr =>
       if pr =? 2 then Raise (OtherError "KeyboardInterrupt") else Ok ∅;
     start_review := fun _ _ _ _ _ _ => Ok true |}.

(** A file that sets [build_args] and loads. *)
Definition file_build_args : gmap string pyval :=
  <["build_args" := PStr "--keep-going"]>
    (<["wip" := PDict (<["staged" := PBool false]> ∅)]> ∅).

Definition world_with_file : World :=
  {| nix_nom_tool := "nix";
     re_compile := re_sample;
     config_file := Some (Ok file_build_args);
     ensure_github_token := Ok tt;
     AllowedFeatures := Ok tt;
     builddir_path := fun b => "/tmp/" ++ bd_name b;
     Review_init := fun _ => Ok tt;
     build_pr := fun _ _ => Ok ∅;
     start_review := fun _ _ _ _ _ _ => Ok true |}.

(** ** Arguments and their expansions *)

(** The identifiers one argument stands for, by the first form it
    matches; [None] when it matches none. *)
Definition expansion (arg : string) : option (list Z) :=
  match match_range arg with
  | Some (a, b) => Some (range (decimal a) (decimal b))
  | None =>
      match match_url arg with
      | Some n => Some [decimal n]
      | None => option_map (fun pr => [pr]) (int_of_str arg)
      end
  end.

(** The expansions of all the arguments, one after the other; [None] as
    soon as one argument has none. *)
Fixpoint expansions (number_args : list string) : option (list Z) :=
  match number_args with
  | [] => Some []
  | arg :: rest =>
      match expansion arg, expansions rest with
      | Some prs, Some more => Some (prs ++ more)%list
      | _, _ => None
      end
  end.

(** What does not start with a digit ends a run of digits. *)
Definition ends_digits (rest : string) : Prop :=
  match rest with
  | String c _ => is_digit c = false
  | EmptyString => True
  end.

(** ** Well-formed configurations *)

Definition is_pattern (v : pyval) : bool :=
  match v with
  | PPattern _ => true
  | _ => false
  end.

(** The keys [Config.update_from_dict] looks up in the file. *)
Definition known_keys : list string :=
  ["allow"; "build_args"; "no_shell"; "remote"; "run"; "sandbox";
   "skipped_packages"; "skipped_package_regexes"; "systems"; "build_graph";
   "print_result"; "extra_nixpkgs_config"; "num_parallel_evals";
   "rev"; "wip"; "pr"].

(** A [Config] on which every check of the loader holds: each attribute is
    an instance of the class the loader asks for, the enumerated options
    hold a value of their vocabulary, the number of parallel evaluations is
    positive, and the list of regular expressions holds compiled patterns
    only.  These are the checks of the code, not the annotations: nothing
    is said of the elements of [skipped_packages], and a [bool] counts as
    an [int]. *)
Definition checks_hold (c : Config.t) : bool :=
  isinstance (Config.allow c) TList
  && forallb (fun x => in_values x ALLOW_VALUES) (Config.items (Config.allow c))
  && isinstance (Config.build_args c) TStr
  && isinstance (Config.no_shell c) TBool
  && isinstance (Config.remote c) TStr
  && isinstance (Config.run c) TStr
  && isinstance (Config.sandbox c) TBool
  && isinstance (Config.skipped_packages c) TList
  && isinstance (Config.skipped_package_regexes c) TList
  && forallb is_pattern (Config.items (Config.skipped_package_regexes c))
  && (isinstance (Config.systems c) TStr
      || isinstance (Config.systems c) TList
         && forallb (fun x => isinstance x TStr)
              (Config.items (Config.systems c)))
  && isinstance (Config.build_graph c) TStr
  && in_values (Config.build_graph c) BUILD_GRAPH_VALUES
  && isinstance (Config.print_result c) TBool
  && isinstance (Config.extra_nixpkgs_config c) TStr
  && isinstance (Config.num_parallel_evals c) TInt
  && Config.positive (Config.num_parallel_evals c)
  && isinstance (RevConfig.branch (Config.rev_config c)) TStr
  && isinstance (WipConfig.branch (Config.wip_config c)) TStr
  && isinstance (WipConfig.staged (Config.wip_config c)) TBool
  && in_values (PrConfig.eval (Config.pr_config c)) EVAL_VALUES
  && in_values (PrConfig.checkout (Config.pr_config c)) CHECKOUT_VALUES
  && isinstance (PrConfig.post_result (Config.pr_config c)) TBool.

(** A file that loads: it gives [wip.staged], a list of systems and two
    regular expressions, and says [true] for the number of evaluations. *)
Definition file_loads : gmap string pyval :=
  <["num_parallel_evals" := PBool true]>
    (<["systems" := PList [PStr "x86_64-linux"; PStr "aarch64-linux"]]>
       (<["skipped_package_regexes" := PList [PStr "^python3"; PStr "a.*"]]>
          (<["wip" := PDict (<["staged" := PBool true]> ∅)]> ∅))).

(** The file [file_loads] with a list under [skipped_packages] that holds
    no string at all. *)
Definition file_unchecked_elements : gmap string pyval :=
  <["skipped_packages" := PList [PInt 1; PBool true; PList []]]> file_loads.

(** The keys of the options proper, without the three sub-namespaces. *)
Definition option_keys : list string :=
  ["allow"; "build_args"; "no_shell"; "remote"; "run"; "sandbox";
   "skipped_packages"; "skipped_package_regexes"; "systems"; "build_graph";
   "print_result"; "extra_nixpkgs_config"; "num_parallel_evals"].

(** The object once the options proper are assigned, [compiled] being the
    compiled regular expressions. *)
Definition after_options (d : gmap string pyval) (c : Config.t)
    (compiled : list pyval) : Config.t :=
  Config.set_num_parallel_evals
    (dict_get d "num_parallel_evals" (Config.num_parallel_evals c))
    (Config.set_extra_nixpkgs_config
       (dict_get d "extra_nixpkgs_config" (Config.extra_nixpkgs_config c))
       (Config.set_print_result
          (dict_get d "print_result" (Config.print_result c))
          (Config.set_build_graph
             (dict_get d "build_graph" (Config.build_graph c))
             (Config.set_systems (dict_get d "systems" (Config.systems c))
                (Config.set_skipped_package_regexes (PList compiled)
                   (Config.set_skipped_packages
                      (dict_get d "skipped_packages" (Config.skipped_packages c))
                      (Config.set_sandbox
                         (dict_get d "sandbox" (Config.sandbox c))
                         (Config.set_run (dict_get d "run" (Config.run c))
                            (Config.set_remote
                               (dict_get d "remote" (Config.remote c))
                               (Config.set_no_shell
                                  (dict_get d "no_shell" (Config.no_shell c))
                                  (Config.set_build_args
                                     (dict_get d "build_args"
                                        (Config.build_args c))
                                     (Config.set_allow
                                        (dict_get d "allow" (Config.allow c))
                                        c)))))))))))).

(** The last three statements of [Config.update_from_dict]. *)
Definition sub_namespaces (d : gmap string pyval) : M Config.t unit :=
  Config.on_rev_config
    (RevConfig.update_from_dict (dict_get d "rev" (PDict ∅))) ;;
  Config.on_wip_config
    (WipConfig.update_from_dict (dict_get d "wip" (PDict ∅))) ;;
  Config.on_pr_config
    (PrConfig.update_from_dict (dict_get d "pr" (PDict ∅))).

Definition is_table (v : pyval) : bool :=
  match v with
  | PDict _ => true
  | _ => false
  end.

(** A file whose [pr] namespace is a string. *)
Definition file_pr_string : gmap string pyval :=
  <["pr" := PStr "ofborg"]> file_loads.

(** ** Reviews *)

(** The call [review.start_review(attrs, path, pr, post_result,
    print_result)] for a recorded context. *)
Definition start_review_of (w : World) (post print : bool) (r : Review)
    (c : context) : result bool :=
  let '(pr, path, attrs) := c in
  start_review w r attrs path pr post print.

(** A world in which the review of pull request 1 fails and the review of
    pull request 3 would raise. *)
Definition world_first_review_fails : World :=
  {| nix_nom_tool := "nix";
     re_compile := re_sample;
     config_file := None;
     ensure_github_token := Ok tt;
     AllowedFeatures := Ok tt;
     builddir_path := fun b => "/tmp/" ++ bd_name b;
     Review_init := fun _ => Ok tt;
     build_pr := fun _ _ => Ok ∅;
     start_review := fun _ _ _ pr _ _ =>
       if pr =? 1 then Ok false
       else if pr =? 3 then Raise (OtherError "post failed")
       else Ok true |}.

(** A world in which every pull request builds and every review reports
    failure. *)
Definition world_reviews_fail : World :=
  {| nix_nom_tool := "nix";
     re_compile := re_sample;
     config_file := None;
     ensure_github_token := Ok tt;
     AllowedFeatures := Ok tt;
     builddir_path := fun b => "/tmp/" ++ bd_name b;
     Review_init := fun _ => Ok tt;
     build_pr := fun _ _ => Ok ∅;
     start_review := fun _ _ _ _ _ _ => Ok false |}.

(** ** Layers *)

(** Two tables seen as one: the keys of the later table win. *)
Definition merge_tables (v1 v2 : pyval) : pyval :=
  match v1, v2 with
  | PDict t1, PDict t2 => PDict (t2 ∪ t1)
  | _, _ => v2
  end.

(** Two dictionaries seen as one file: the later dictionary wins key by
    key, inside the three sub-namespaces too. *)
Definition layered (d1 d2 : gmap string pyval) : gmap string pyval :=
  <["rev" := merge_tables (dict_get d1 "rev" (PDict ∅))
               (dict_get d2 "rev" (PDict ∅))]>
    (<["wip" := merge_tables (dict_get d1 "wip" (PDict ∅))
                  (dict_get d2 "wip" (PDict ∅))]>
       (<["pr" := merge_tables (dict_get d1 "pr" (PDict ∅))
                    (dict_get d2 "pr" (PDict ∅))]>
          (d2 ∪ d1))).

(** A second file, which sets less than the first. *)
Definition file_second : gmap string pyval :=
  <["systems" := PStr "all"]>
    (<["wip" := PDict (<["staged" := PBool false]> ∅)]> ∅).

(** * Properties *)

(** ** The identifier parser *)

Lemma append_empty_r (s : string) : s ++ EmptyString = s.
Proof.
  induction s as [|c s IH]; [reflexivity|].
  change (String c (s ++ EmptyString) = String c s). now rewrite IH.
Qed.

Lemma digit_not_space c : is_digit c = true -> is_space c = false.
Proof.
  unfold is_digit, is_space. intros H.
  apply andb_true_iff in H as [H1 H2].
  apply Nat.leb_le in H1. apply Nat.leb_le in H2.
  repeat rewrite orb_false_iff. repeat split.
  - apply andb_false_iff. right. apply Nat.leb_gt. lia.
  - apply Nat.eqb_neq. lia.
  - apply Nat.eqb_neq. lia.
  - apply Nat.eqb_neq. lia.
Qed.

Lemma digit_not_char c (d : ascii) :
  is_digit c = true -> is_digit d = false -> Ascii.eqb c d = false.
Proof.
  intros Hc Hd. destruct (Ascii.eqb_spec c d) as [Heq|Hne]; [|reflexivity].
  rewrite Heq, Hd in Hc. discriminate.
Qed.

Lemma span_digits_app a rest :
  all_digits a = true ->
  match rest with String c _ => is_digit c = false | EmptyString => True end ->
  span_digits (a ++ rest) = (a, rest).
Proof.
  intros Ha Hrest. induction a as [|c a IH]; simpl in *.
  - destruct rest as [|c r]; [reflexivity|]. simpl. now rewrite Hrest.
  - apply andb_true_iff in Ha as [Hc Ha]. rewrite Hc, (IH Ha). reflexivity.
Qed.

Lemma int_scan_digits a :
  all_digits a = true -> a <> EmptyString ->
  forall acc, int_scan NeedDigit acc a = Some (decimal_from acc a).
Proof.
  intros Ha Hne.
  assert (Hafter : forall b acc, all_digits b = true ->
            int_scan AfterDigit acc b = Some (decimal_from acc b)).
  { induction b as [|c b IH]; intros acc Hb; simpl in *; [reflexivity|].
    apply andb_true_iff in Hb as [Hc Hb]. rewrite Hc. now apply IH. }
  destruct a as [|c a]; [congruence|]. intros acc. simpl in *.
  apply andb_true_iff in Ha as [Hc Ha]. rewrite Hc. now apply Hafter.
Qed.

Lemma int_of_str_digits a :
  all_digits a = true -> a <> EmptyString -> int_of_str a = Some (decimal a).
Proof.
  intros Ha Hne. unfold int_of_str, decimal.
  destruct a as [|c a]; [congruence|].
  pose proof Ha as Ha'. simpl in Ha'. apply andb_true_iff in Ha' as [Hc _].
  simpl lstrip. rewrite (digit_not_space c Hc).
  pose proof (digit_not_char c "+" Hc eq_refl) as Hplus.
  pose proof (digit_not_char c "-" Hc eq_refl) as Hminus.
  rewrite <- (int_scan_digits (String c a) Ha Hne 0).
  destruct c as [[] [] [] [] [] [] [] []]; try reflexivity;
    simpl in Hplus, Hminus; discriminate.
Qed.

Lemma match_range_digits a b :
  all_digits a = true -> a <> EmptyString ->
  all_digits b = true -> b <> EmptyString ->
  match_range (a ++ "-" ++ b) = Some (a, b).
Proof.
  intros Ha Hane Hb Hbne. unfold match_range.
  rewrite (span_digits_app a ("-" ++ b) Ha) by reflexivity.
  destruct a as [|c a]; [congruence|].
  change ("-" ++ b) with (String "-" b).
  rewrite <- (append_empty_r b) at 1.
  rewrite (span_digits_app b EmptyString Hb I).
  destruct b; [congruence|reflexivity].
Qed.

Lemma match_url_digits n :
  all_digits n = true -> n <> EmptyString ->
  match_url ("https://github.com/NixOS/nixpkgs/pull/" ++ n) = Some n.
Proof.
  intros Hn Hne. unfold match_url. cbv -[span_digits].
  rewrite <- (append_empty_r n) at 1.
  rewrite (span_digits_app n EmptyString Hn I).
  destruct n; [congruence|reflexivity].
Qed.

(** A digit string starts with a digit: it is neither a range nor a URL. *)
Lemma match_range_bare n : all_digits n = true -> match_range n = None.
Proof.
  intros Hn. unfold match_range.
  rewrite <- (append_empty_r n).
  rewrite (span_digits_app n EmptyString Hn I). now destruct n.
Qed.

Lemma match_url_bare n : all_digits n = true -> match_url n = None.
Proof.
  intros Hn. unfold match_url. destruct n as [|c n]; [reflexivity|].
  simpl in Hn. apply andb_true_iff in Hn as [Hc _].
  pose proof (digit_not_char c "h" Hc eq_refl) as Hh.
  change (strip_prefix "https://github" (String c n))
    with (if Ascii.eqb "h" c then strip_prefix "ttps://github" n else None).
  rewrite Ascii.eqb_sym, Hh. reflexivity.
Qed.

Lemma range_length a b : length (range a b) = Z.to_nat (b - a).
Proof. unfold range. now rewrite length_map, length_seq. Qed.

Lemma range_nth a b (i : nat) :
  (i < Z.to_nat (b - a))%nat -> nth_error (range a b) i = Some (a + Z.of_nat i).
Proof.
  intros Hi. unfold range.
  rewrite nth_error_map, nth_error_seq.
  destruct (Nat.ltb_spec i (Z.to_nat (b - a))); [reflexivity|lia].
Qed.

Lemma range_In a b x : In x (range a b) <-> a <= x < b.
Proof.
  unfold range. rewrite in_map_iff. split.
  - intros (i & <- & Hi). apply in_seq in Hi. lia.
  - intros Hx. exists (Z.to_nat (x - a)). split; [lia|]. apply in_seq. lia.
Qed.

(** The list built so far only grows at its end. *)
Lemma parse_pr_numbers_loop_acc number_args :
  forall prs tr,
    parse_pr_numbers_loop number_args prs tr =
    match parse_pr_numbers number_args tr with
    | (tr', Ok found) => (tr', Ok (prs ++ found)%list)
    | (tr', Raise e) => (tr', Raise e)
    end.
Proof.
  unfold parse_pr_numbers.
  induction number_args as [|arg rest IH]; intros prs tr; simpl.
  - unfold ret. now rewrite app_nil_r.
  - destruct (match_range arg) as [[a b]|].
    { unfold bind, py_int.
      destruct (int_of_str a) as [lo|]; [|reflexivity]. unfold ret.
      destruct (int_of_str b) as [hi|]; [|reflexivity].
      rewrite (IH (prs ++ range lo hi)%list), (IH (range lo hi)).
      destruct (parse_pr_numbers_loop rest [] tr) as [tr' [found|e]];
        [|reflexivity].
      now rewrite app_assoc. }
    destruct (match_url arg) as [n|].
    { unfold bind, py_int.
      destruct (int_of_str n) as [pr|]; [|reflexivity]. unfold ret.
      rewrite (IH (prs ++ [pr])%list), (IH [pr]).
      destruct (parse_pr_numbers_loop rest [] tr) as [tr' [found|e]];
        [|reflexivity].
      now rewrite <- app_assoc. }
    destruct (int_of_str arg) as [pr|]; [|reflexivity].
    rewrite (IH (prs ++ [pr])%list), (IH [pr]).
    destruct (parse_pr_numbers_loop rest [] tr) as [tr' [found|e]];
      [|reflexivity].
    now rewrite <- app_assoc.
Qed.

(** Parsing a list is parsing a front part, then going on with the rest. *)
Lemma parse_pr_numbers_loop_app before after :
  forall prs tr,
    parse_pr_numbers_loop (before ++ after) prs tr =
    match parse_pr_numbers_loop before prs tr with
    | (tr', Ok found) => parse_pr_numbers_loop after found tr'
    | (tr', Raise e) => (tr', Raise e)
    end.
Proof.
  induction before as [|arg rest IH]; intros prs tr; simpl; [reflexivity|].
  destruct (match_range arg) as [[a b]|].
  { unfold bind, py_int.
    destruct (int_of_str a) as [lo|]; [|reflexivity]. unfold ret.
    destruct (int_of_str b) as [hi|]; [|reflexivity]. apply IH. }
  destruct (match_url arg) as [n|].
  { unfold bind, py_int.
    destruct (int_of_str n) as [pr|]; [|reflexivity]. apply IH. }
  destruct (int_of_str arg) as [pr|]; [apply IH|reflexivity].
Qed.

(** A parse that succeeds has warned about nothing. *)
Lemma parse_pr_numbers_loop_ok number_args :
  forall prs tr tr' found,
    parse_pr_numbers_loop number_args prs tr = (tr', Ok found) -> tr' = tr.
Proof.
  induction number_args as [|arg rest IH]; intros prs tr tr' found H;
    simpl in H.
  - now injection H as <- _.
  - destruct (match_range arg) as [[a b]|].
    { unfold bind, py_int in H.
      destruct (int_of_str a) as [lo|]; [|discriminate]. unfold ret in H.
      destruct (int_of_str b) as [hi|]; [|discriminate]. exact (IH _ _ _ _ H). }
    destruct (match_url arg) as [n|].
    { unfold bind, py_int in H.
      destruct (int_of_str n) as [pr|]; [|discriminate]. exact (IH _ _ _ _ H). }
    destruct (int_of_str arg) as [pr|]; [exact (IH _ _ _ _ H)|discriminate].
Qed.

Lemma parse_pr_numbers_range_arg a b rest prs tr :
  all_digits a = true -> a <> EmptyString ->
  all_digits b = true -> b <> EmptyString ->
  parse_pr_numbers_loop ((a ++ "-" ++ b) :: rest) prs tr =
  parse_pr_numbers_loop rest (prs ++ range (decimal a) (decimal b))%list tr.
Proof.
  intros Ha Hane Hb Hbne. cbn [parse_pr_numbers_loop].
  rewrite (match_range_digits a b Ha Hane Hb Hbne).
  unfold bind, py_int.
  now rewrite (int_of_str_digits a Ha Hane), (int_of_str_digits b Hb Hbne).
Qed.

Lemma parse_pr_numbers_url_arg n rest prs tr :
  all_digits n = true -> n <> EmptyString ->
  parse_pr_numbers_loop
    (("https://github.com/NixOS/nixpkgs/pull/" ++ n) :: rest) prs tr =
  parse_pr_numbers_loop rest (prs ++ [decimal n])%list tr.
Proof.
  intros Hn Hne. cbn [parse_pr_numbers_loop].
  assert (Hr : match_range ("https://github.com/NixOS/nixpkgs/pull/" ++ n)
               = None) by reflexivity.
  rewrite Hr, (match_url_digits n Hn Hne).
  unfold bind, py_int. now rewrite (int_of_str_digits n Hn Hne).
Qed.

Lemma parse_pr_numbers_bare_arg n rest prs tr :
  all_digits n = true -> n <> EmptyString ->
  parse_pr_numbers_loop (n :: rest) prs tr =
  parse_pr_numbers_loop rest (prs ++ [decimal n])%list tr.
Proof.
  intros Hn Hne. cbn [parse_pr_numbers_loop].
  now rewrite (match_range_bare n Hn), (match_url_bare n Hn),
    (int_of_str_digits n Hn Hne).
Qed.

(** C4.  An argument [A-B] made of two decimal numbers expands, at its
    place among the other arguments, to the half-open sequence
    [A, A+1, ..., B-1]; a bare number and a pull-request URL expand to the
    number they hold; the output follows the order of the arguments. *)
Theorem parse_pr_numbers_expands_in_place
    (A B : string) (before after : list string) (xs ys : list Z)
    (tr : list event) :
  all_digits A = true -> A <> EmptyString ->
  all_digits B = true -> B <> EmptyString ->
  parse_pr_numbers before tr = (tr, Ok xs) ->
  parse_pr_numbers after tr = (tr, Ok ys) ->
  parse_pr_numbers (before ++ [(A ++ "-" ++ B)%string] ++ after)%list tr
    = (tr, Ok (xs ++ range (decimal A) (decimal B) ++ ys)%list)
  /\ length (range (decimal A) (decimal B)) = Z.to_nat (decimal B - decimal A)
  /\ (forall i : nat, (i < Z.to_nat (decimal B - decimal A))%nat ->
        nth_error (range (decimal A) (decimal B)) i
        = Some (decimal A + Z.of_nat i))
  /\ parse_pr_numbers (before ++ [A] ++ after)%list tr
     = (tr, Ok (xs ++ [decimal A] ++ ys)%list)
  /\ parse_pr_numbers
       (before
        ++ [("https://github.com/NixOS/nixpkgs/pull/" ++ A)%string]
        ++ after)%list
       tr
     = (tr, Ok (xs ++ [decimal A] ++ ys)%list).
Proof.
  intros HA HAne HB HBne Hbefore Hafter.
  assert (Hrest : forall found,
            parse_pr_numbers_loop after found tr = (tr, Ok (found ++ ys)%list)).
  { intros found. rewrite parse_pr_numbers_loop_acc. now rewrite Hafter. }
  unfold parse_pr_numbers in *.
  repeat split.
  - rewrite parse_pr_numbers_loop_app, Hbefore.
    change ([(A ++ "-" ++ B)%string] ++ after)%list
      with ((A ++ "-" ++ B) :: after).
    rewrite (parse_pr_numbers_range_arg A B after xs tr HA HAne HB HBne).
    rewrite Hrest. now rewrite <- app_assoc.
  - apply range_length.
  - intros i Hi. now apply range_nth.
  - rewrite parse_pr_numbers_loop_app, Hbefore.
    change ([A] ++ after)%list with (A :: after).
    rewrite (parse_pr_numbers_bare_arg A after xs tr HA HAne).
    rewrite Hrest. now rewrite <- app_assoc.
  - rewrite parse_pr_numbers_loop_app, Hbefore.
    change ([("https://github.com/NixOS/nixpkgs/pull/" ++ A)%string]
            ++ after)%list
      with (("https://github.com/NixOS/nixpkgs/pull/" ++ A) :: after).
    rewrite (parse_pr_numbers_url_arg A after xs tr HA HAne).
    rewrite Hrest. now rewrite <- app_assoc.
Qed.

Lemma parse_pr_numbers_expands_in_place_witness :
  parse_pr_numbers
    ["123"; "10-13"; "https://github.com/NixOS/nixpkgs/pull/456"] []
  = ([], Ok [123; 10; 11; 12; 456]).
Proof.
  exact (proj1 (parse_pr_numbers_expands_in_place
                  "10" "13" ["123"]
                  ["https://github.com/NixOS/nixpkgs/pull/456"]
                  [123] [456] []
                  eq_refl ltac:(discriminate) eq_refl ltac:(discriminate)
                  eq_refl eq_refl)).
Defined.

(** An argument of none of the three forms ends the parse, whatever comes
    after it: one warning, then [sys.exit(1)].  The warning is the same
    text for every such argument. *)
Lemma parse_pr_numbers_unrecognized arg before after found tr :
  parse_pr_numbers before tr = (tr, Ok found) ->
  match_range arg = None -> match_url arg = None -> int_of_str arg = None ->
  parse_pr_numbers (before ++ arg :: after)%list tr
  = ((tr ++ [Warn "expected number or URL, got None"])%list,
     Raise (SystemExit 1)).
Proof.
  intros Hbefore Hr Hu Hi. unfold parse_pr_numbers in *.
  rewrite parse_pr_numbers_loop_app, Hbefore. cbn [parse_pr_numbers_loop].
  now rewrite Hr, Hu, Hi.
Qed.

(** C7.  On the argument [abc] the parser warns and exits with code 1, and
    the warning shows [None] where the argument was meant to be. *)
Theorem parse_pr_numbers_warning_omits_argument :
  parse_pr_numbers ["abc"] []
  = ([Warn "expected number or URL, got None"], Raise (SystemExit 1))
  /\ occurs_in "abc" "expected number or URL, got None" = false.
Proof. split; reflexivity. Qed.

(** ** The configuration loader *)

(** One statement of a method at a time. *)
Section Steps.
Context {S A B : Type}.
Implicit Types (k : A -> M S B) (s : S).

Lemma bind_run (m : M S A) k s :
  bind m k s =
  match m s with
  | (s', Ok a) => k a s'
  | (s', Raise e) => (s', Raise e)
  end.
Proof. reflexivity. Qed.

Lemma bind_reads (f : S -> A) k s : bind (reads f) k s = k (f s) s.
Proof. reflexivity. Qed.

Lemma bind_ret (a : A) k s : bind (ret a) k s = k a s.
Proof. reflexivity. Qed.

Lemma bind_lift (r : result A) k s :
  bind (lift r) k s =
  match r with Ok a => k a s | Raise e => (s, Raise e) end.
Proof. unfold bind, lift. now destruct r. Qed.

End Steps.

Section UnitSteps.
Context {S B : Type}.
Implicit Types (k : unit -> M S B) (s : S).

Lemma bind_assign (f : S -> S) k s : bind (assign f) k s = k tt (f s).
Proof. reflexivity. Qed.

Lemma bind_check_type n v t k s :
  bind (_check_type n v t) k s =
  if isinstance v t then k tt s else (s, Raise (incorrect_value n v t)).
Proof. unfold bind, _check_type. now destruct (isinstance v t). Qed.

Lemma bind_assert (b : bool) k s :
  bind (py_assert b) k s = if b then k tt s else (s, Raise AssertionError).
Proof. unfold bind, py_assert. now destruct b. Qed.

End UnitSteps.

Lemma bind_py_get {S B} (t : pyval) key dflt (k : pyval -> M S B) s :
  bind (py_get t key dflt) k s =
  match t with
  | PDict d => k (dict_get d key dflt) s
  | v => (s, Raise (no_attribute v "get"))
  end.
Proof. now destruct t. Qed.

Lemma check_type_ok {S} n v t (s s' : S) :
  _check_type n v t s = (s', Ok tt) -> isinstance v t = true /\ s' = s.
Proof.
  unfold _check_type. destruct (isinstance v t); cbv; intros H; now inversion H.
Qed.

Ltac config_simpl H :=
  cbn [Config.set_allow Config.set_build_args Config.set_no_shell
       Config.set_remote Config.set_run Config.set_sandbox
       Config.set_skipped_packages Config.set_skipped_package_regexes
       Config.set_systems Config.set_build_graph Config.set_print_result
       Config.set_extra_nixpkgs_config Config.set_num_parallel_evals
       Config.set_rev_config Config.set_pr_config Config.set_wip_config
       Config.allow Config.build_args Config.no_shell Config.remote
       Config.run Config.sandbox Config.skipped_packages
       Config.skipped_package_regexes Config.systems Config.build_graph
       Config.print_result Config.extra_nixpkgs_config
       Config.num_parallel_evals Config.rev_config Config.pr_config
       Config.wip_config
       RevConfig.set_branch RevConfig.branch
       WipConfig.set_branch WipConfig.set_staged
       WipConfig.branch WipConfig.staged
       PrConfig.set_eval PrConfig.set_checkout PrConfig.set_post_result
       PrConfig.eval PrConfig.checkout PrConfig.post_result] in H.

Ltac config_simpl_goal :=
  cbn [Config.set_allow Config.set_build_args Config.set_no_shell
       Config.set_remote Config.set_run Config.set_sandbox
       Config.set_skipped_packages Config.set_skipped_package_regexes
       Config.set_systems Config.set_build_graph Config.set_print_result
       Config.set_extra_nixpkgs_config Config.set_num_parallel_evals
       Config.set_rev_config Config.set_pr_config Config.set_wip_config
       Config.allow Config.build_args Config.no_shell Config.remote
       Config.run Config.sandbox Config.skipped_packages
       Config.skipped_package_regexes Config.systems Config.build_graph
       Config.print_result Config.extra_nixpkgs_config
       Config.num_parallel_evals Config.rev_config Config.pr_config
       Config.wip_config
       RevConfig.set_branch RevConfig.branch
       WipConfig.set_branch WipConfig.set_staged
       WipConfig.branch WipConfig.staged
       PrConfig.set_eval PrConfig.set_checkout PrConfig.set_post_result
       PrConfig.eval PrConfig.checkout PrConfig.post_result].

(** Follow a run that is known to end without an exception through its
    next statement, keeping what the statement checked. *)
Ltac step_ok H :=
  first
    [ rewrite bind_reads in H
    | rewrite bind_assign in H
    | rewrite bind_ret in H
    | rewrite bind_check_type in H;
      match type of H with
      | (if ?b then _ else _) = _ =>
          let E := fresh "Hcheck" in destruct b eqn:E; [|discriminate H]
      end
    | rewrite bind_assert in H;
      match type of H with
      | (if ?b then _ else _) = _ =>
          let E := fresh "Hassert" in destruct b eqn:E; [|discriminate H]
      end
    | rewrite bind_lift in H;
      match type of H with
      | match ?r with Ok _ => _ | Raise _ => _ end = _ =>
          let E := fresh "Hcall" in destruct r eqn:E; [|discriminate H]
      end
    | rewrite bind_py_get in H;
      try match type of H with
          | match ?v with PDict _ => _ | _ => _ end = _ =>
              destruct v; try discriminate H
          end ];
  cbv beta zeta in H; config_simpl H.

Lemma RevConfig_update_ok t self self' :
  RevConfig.update_from_dict t self = (self', Ok tt) ->
  exists d,
    t = PDict d
    /\ isinstance (dict_get d "branch" (RevConfig.branch self)) TStr = true
    /\ self' = {| RevConfig.branch := dict_get d "branch" (RevConfig.branch self) |}.
Proof.
  intros H. unfold RevConfig.update_from_dict in H.
  repeat step_ok H.
  apply check_type_ok in H as [Hb ->]. eauto.
Qed.

Lemma WipConfig_update_ok t self self' :
  WipConfig.update_from_dict t self = (self', Ok tt) ->
  exists d,
    t = PDict d
    /\ isinstance (dict_get d "branch" (WipConfig.branch self)) TStr = true
    /\ isinstance
         (dict_get d "staged" (dict_get d "branch" (WipConfig.branch self)))
         TBool = true
    /\ self' =
       {| WipConfig.branch := dict_get d "branch" (WipConfig.branch self);
          WipConfig.staged :=
            dict_get d "staged" (dict_get d "branch" (WipConfig.branch self)) |}.
Proof.
  intros H. unfold WipConfig.update_from_dict in H.
  repeat step_ok H.
  apply check_type_ok in H as [Hb ->]. eauto.
Qed.

Lemma PrConfig_update_ok t self self' :
  PrConfig.update_from_dict t self = (self', Ok tt) ->
  exists d,
    t = PDict d
    /\ in_values (dict_get d "eval" (PrConfig.eval self)) EVAL_VALUES = true
    /\ in_values (dict_get d "checkout" (PrConfig.checkout self))
         CHECKOUT_VALUES = true
    /\ isinstance (dict_get d "post_result" (PrConfig.post_result self))
         TBool = true
    /\ self' =
       {| PrConfig.eval := dict_get d "eval" (PrConfig.eval self);
          PrConfig.checkout := dict_get d "checkout" (PrConfig.checkout self);
          PrConfig.post_result :=
            dict_get d "post_result" (PrConfig.post_result self) |}.
Proof.
  intros H. unfold PrConfig.update_from_dict in H.
  repeat step_ok H.
  apply check_type_ok in H as [Hb ->]. eauto 10.
Qed.

Lemma bind_on_rev_config {A B} (m : M RevConfig.t A) (k : A -> M Config.t B) s :
  bind (Config.on_rev_config m) k s =
  match m (Config.rev_config s) with
  | (sub, Ok a) => k a (Config.set_rev_config sub s)
  | (sub, Raise e) => (Config.set_rev_config sub s, Raise e)
  end.
Proof.
  unfold bind, Config.on_rev_config.
  now destruct (m (Config.rev_config s)) as [sub [a|e]].
Qed.

Lemma bind_on_wip_config {A B} (m : M WipConfig.t A) (k : A -> M Config.t B) s :
  bind (Config.on_wip_config m) k s =
  match m (Config.wip_config s) with
  | (sub, Ok a) => k a (Config.set_wip_config sub s)
  | (sub, Raise e) => (Config.set_wip_config sub s, Raise e)
  end.
Proof.
  unfold bind, Config.on_wip_config.
  now destruct (m (Config.wip_config s)) as [sub [a|e]].
Qed.

Lemma update_from_dict_ok re d c c' :
  Config.update_from_dict re d c = (c', Ok tt) -> Loaded re d c c'.
Proof.
  intros H. unfold Config.update_from_dict in H.
  repeat step_ok H.
  destruct (isinstance (dict_get d "systems" (Config.systems c)) TList) eqn:El;
    rewrite ?orb_false_r in Hassert0;
    repeat step_ok H.
  all: rewrite bind_on_rev_config in H;
    destruct (RevConfig.update_from_dict _ _) as [rev [[]|e]] eqn:Hrev in H;
    [|discriminate H];
    apply RevConfig_update_ok in Hrev as (trev & Htrev & Hrev1 & ->);
    rewrite bind_on_wip_config in H;
    destruct (WipConfig.update_from_dict _ _) as [wip [[]|e]] eqn:Hwip in H;
    [|discriminate H];
    apply WipConfig_update_ok in Hwip as (twip & Htwip & Hwip1 & Hwip2 & ->);
    unfold Config.on_pr_config in H;
    destruct (PrConfig.update_from_dict _ _) as [pr [[]|e]] eqn:Hpr in H;
    [|discriminate H];
    apply PrConfig_update_ok in Hpr as (tpr & Htpr & Hpr1 & Hpr2 & Hpr3 & ->);
    config_simpl Hrev1; config_simpl Hwip1; config_simpl Hwip2;
    config_simpl Hpr1; config_simpl Hpr2; config_simpl Hpr3;
    injection H as <-;
    constructor; config_simpl_goal;
    try reflexivity; try assumption;
    first
      [ by (left; assumption)
      | by (right; split; assumption)
      | by (exists a; split; [exact Hcall|reflexivity])
      | by (exists trev; repeat split; assumption)
      | by (exists twip; repeat split; assumption)
      | by (exists tpr; repeat split; assumption) ].
Qed.

Lemma str_not_bool v :
  isinstance v TStr = true -> isinstance v TBool = true -> False.
Proof. now destruct v. Qed.

Lemma isinstance_bool v : isinstance v TBool = true -> exists b, v = PBool b.
Proof. destruct v; try discriminate. eauto. Qed.

(** The loader only completes on a dictionary that has a [wip] table with
    a boolean [staged]: without the key, [self.staged] is given the branch
    name, which the next line rejects. *)
Lemma update_from_dict_needs_wip_staged re d c c' :
  Config.update_from_dict re d c = (c', Ok tt) ->
  exists t b, d !! "wip" = Some (PDict t) /\ t !! "staged" = Some (PBool b).
Proof.
  intros H. apply update_from_dict_ok in H.
  destruct (ld_wip _ _ _ _ H) as (t & Ht & _ & Hbranch & Hstaged & Hbool).
  rewrite Hstaged in Hbool. unfold dict_get in Hbool, Ht.
  destruct (t !! "staged") as [v|] eqn:Hv.
  - apply isinstance_bool in Hbool as [b ->].
    destruct (d !! "wip") as [tv|] eqn:Hd.
    + subst tv. eauto.
    + injection Ht as <-. rewrite lookup_empty in Hv. discriminate.
  - destruct (str_not_bool _ Hbranch Hbool).
Qed.

(** C3.  Loading a dictionary that sets nothing, on the default [Config],
    does not leave the defaults in place: [wip.staged] becomes the branch
    name and the loader raises [ValueError]. *)
Theorem update_from_dict_empty_raises :
  forall (re : string -> result unit) (nom : bool),
    let c := Config.default (if nom then "nom" else "nix") in
    Config.update_from_dict re ∅ c
    = (Config.set_wip_config
         {| WipConfig.branch := PStr "master";
            WipConfig.staged := PStr "master" |} c,
       Raise (ValueError
         "Incorrect value for option 'wip.staged'.Expected '<class 'bool'>' but got '<class 'str'>'."))
    /\ WipConfig.staged WipConfig.default = PBool false.
Proof. intros re [|]; split; reflexivity. Qed.

(** *** Invalid values *)

Lemma compile_all_ok re l compiled :
  Config.compile_all re l = Ok compiled ->
  forallb (fun x => is_ok (Config.regex_type re x)) l = true.
Proof.
  revert compiled. induction l as [|x l IH]; intros compiled H; [reflexivity|].
  simpl in *. destruct (Config.regex_type re x) as [p|e]; [|discriminate].
  destruct (Config.compile_all re l) as [ps|e]; [|discriminate].
  simpl. now apply (IH ps).
Qed.

Lemma dict_get_present (d : gmap string pyval) key v dflt :
  d !! key = Some v -> dict_get d key dflt = v.
Proof. unfold dict_get. now intros ->. Qed.

Lemma absent_or_get ok (t : gmap string pyval) key dflt :
  ok (dict_get t key dflt) = true -> absent_or ok (t !! key) = true.
Proof. unfold dict_get, absent_or. now destruct (t !! key). Qed.

(** A dictionary that loads holds only values that pass the checks. *)
Lemma update_from_dict_ok_valid re d c c' key v :
  Config.update_from_dict re d c = (c', Ok tt) ->
  d !! key = Some v -> passes_checks re key v = true.
Proof.
  intros H Hkey. apply update_from_dict_ok in H.
  destruct H as
    [ld_allow0 ld_allow_type0 ld_allow_values0
     ld_build_args0 ld_build_args_type0 ld_no_shell0 ld_no_shell_type0
     ld_remote0 ld_remote_type0 ld_run0 ld_run_type0
     ld_sandbox0 ld_sandbox_type0
     ld_skipped_packages0 ld_skipped_packages_type0
     ld_regexes_type0 ld_regexes0 ld_systems0 ld_systems_type0
     ld_build_graph0 ld_build_graph_type0 ld_build_graph_values0
     ld_print_result0 ld_print_result_type0
     ld_extra_nixpkgs_config0 ld_extra_nixpkgs_config_type0
     ld_num_parallel_evals0 ld_num_parallel_evals_type0
     ld_num_parallel_evals_positive0 ld_rev0 ld_wip0 ld_pr0].
  unfold passes_checks.
  repeat
    match goal with
    | |- (if String.eqb key ?name then _ else _) = true =>
        destruct (String.eqb_spec key name) as [->|_]
    end;
    try reflexivity;
    repeat
      match goal with
      | E : _ = dict_get d ?k _ |- _ =>
          rewrite (dict_get_present d k v _ Hkey) in E
      | E : context [dict_get d ?k _] |- _ =>
          rewrite (dict_get_present d k v _ Hkey) in E
      end.
  - rewrite <- ld_allow0. now rewrite ld_allow_type0, ld_allow_values0.
  - now rewrite <- ld_build_args0.
  - now rewrite <- ld_no_shell0.
  - now rewrite <- ld_remote0.
  - now rewrite <- ld_run0.
  - now rewrite <- ld_sandbox0.
  - now rewrite <- ld_skipped_packages0.
  - destruct ld_regexes0 as (compiled & Hc & _).
    rewrite ld_regexes_type0. now rewrite (compile_all_ok _ _ _ Hc).
  - rewrite <- ld_systems0.
    destruct ld_systems_type0 as [->|[-> ->]]; [reflexivity|].
    apply orb_true_r.
  - rewrite <- ld_build_graph0.
    now rewrite ld_build_graph_type0, ld_build_graph_values0.
  - now rewrite <- ld_print_result0.
  - now rewrite <- ld_extra_nixpkgs_config0.
  - rewrite <- ld_num_parallel_evals0.
    now rewrite ld_num_parallel_evals_type0, ld_num_parallel_evals_positive0.
  - destruct ld_rev0 as (t & -> & Hb & Hs). rewrite Hb in Hs.
    now apply (absent_or_get (fun x => isinstance x TStr)) in Hs.
  - destruct ld_wip0 as (t & -> & Hb & Hs & Hst & Hbool).
    rewrite Hb in Hs. rewrite Hst in Hbool.
    apply (absent_or_get (fun x => isinstance x TStr)) in Hs.
    apply (absent_or_get (fun x => isinstance x TBool)) in Hbool.
    now rewrite Hs, Hbool.
  - destruct ld_pr0 as (t & -> & He & Hev & Hc & Hcv & Hp & Hpv).
    rewrite He in Hev. rewrite Hc in Hcv. rewrite Hp in Hpv.
    apply (absent_or_get (fun x => in_values x EVAL_VALUES)) in Hev.
    apply (absent_or_get (fun x => in_values x CHECKOUT_VALUES)) in Hcv.
    apply (absent_or_get (fun x => isinstance x TBool)) in Hpv.
    now rewrite Hev, Hcv, Hpv.
Qed.

(** Follow a run through its next statement whatever its outcome; [close]
    settles the runs that end in the statement. *)
Ltac step_any H close :=
  first
    [ rewrite bind_reads in H
    | rewrite bind_assign in H
    | rewrite bind_ret in H
    | rewrite bind_check_type in H;
      match type of H with
      | (if ?b then _ else _) = _ => destruct b; [|close]
      end
    | rewrite bind_assert in H;
      match type of H with
      | (if ?b then _ else _) = _ => destruct b; [|close]
      end
    | rewrite bind_lift in H;
      match type of H with
      | match ?r with Ok _ => _ | Raise _ => _ end = _ =>
          destruct r; [|close]
      end
    | rewrite bind_on_rev_config in H;
      match type of H with
      | match ?r with (_, _) => _ end = _ =>
          destruct r as [? [[]|?]]; [|close]
      end
    | rewrite bind_on_wip_config in H;
      match type of H with
      | match ?r with (_, _) => _ end = _ =>
          destruct r as [? [[]|?]]; [|close]
      end ];
  cbv beta zeta in H; config_simpl H.

(** The first assignment of the loader is never undone: however the load
    ends, [allow] holds what the dictionary gave, or what it held. *)
Lemma update_from_dict_assigns_allow re d c c' r :
  Config.update_from_dict re d c = (c', r) ->
  Config.allow c' = dict_get d "allow" (Config.allow c).
Proof.
  intros H. unfold Config.update_from_dict in H.
  repeat step_any H ltac:(by injection H as <- _).
  destruct (isinstance (dict_get d "systems" (Config.systems c)) TList);
    repeat step_any H ltac:(by injection H as <- _).
  all: unfold Config.on_pr_config in H;
    destruct (PrConfig.update_from_dict _ _) as [sub r'];
    by injection H as <- _.
Qed.

(** C6, as the code has it.  A dictionary in which some key holds a value
    that fails a check of the loader never loads: the loader raises.  The
    object is not put back: [allow], assigned first, keeps the value the
    dictionary gave it. *)
Theorem update_from_dict_rejects_invalid
    (re : string -> result unit) (d : gmap string pyval) (c : Config.t)
    (key : string) (v : pyval) :
  d !! key = Some v ->
  passes_checks re key v = false ->
  exists c' e,
    Config.update_from_dict re d c = (c', Raise e)
    /\ Config.allow c' = dict_get d "allow" (Config.allow c).
Proof.
  intros Hkey Hinvalid.
  destruct (Config.update_from_dict re d c) as [c' [[]|e]] eqn:H.
  - rewrite (update_from_dict_ok_valid re d c c' key v H Hkey) in Hinvalid.
    discriminate.
  - exists c', e. split; [reflexivity|].
    exact (update_from_dict_assigns_allow re d c c' _ H).
Qed.

Lemma update_from_dict_rejects_invalid_witness :
  exists c' e,
    Config.update_from_dict re_sample file_bad_no_shell (Config.default "nix")
    = (c', Raise e)
    /\ Config.allow c' = PList [PStr "ifd"].
Proof.
  exact (update_from_dict_rejects_invalid re_sample file_bad_no_shell
           (Config.default "nix") "no_shell" (PStr "yes") eq_refl eq_refl).
Defined.

(** C6 fails as stated, twice.  The file [file_bad_no_shell] holds a value
    of the wrong type, the loader raises, and the [Config] is no longer
    what it was.  The file [file_unchecked_elements] gives
    [skipped_packages], annotated [list[str]], a list without a string in
    it, and loads: the loader only asks for a list. *)
Lemma update_from_dict_not_atomic :
  let c := Config.default "nix" in
  let after := Config.update_from_dict re_sample file_bad_no_shell c in
  let typed := Config.update_from_dict re_sample file_unchecked_elements c in
  (file_bad_no_shell !! "no_shell" = Some (PStr "yes")
   /\ isinstance (PStr "yes") TBool = false
   /\ snd after
      = Raise (ValueError
          "Incorrect value for option 'no_shell'.Expected '<class 'bool'>' but got '<class 'str'>'.")
   /\ fst after <> c
   /\ Config.allow (fst after) = PList [PStr "ifd"]
   /\ Config.no_shell (fst after) = PStr "yes")
  /\ (file_unchecked_elements !! "skipped_packages"
      = Some (PList [PInt 1; PBool true; PList []])
      /\ forallb (fun x => isinstance x TStr) [PInt 1; PBool true; PList []]
         = false
      /\ snd typed = Ok tt
      /\ Config.skipped_packages (fst typed)
         = PList [PInt 1; PBool true; PList []]).
Proof.
  split.
  - repeat split; try reflexivity.
    intros H. apply (f_equal Config.allow) in H. discriminate H.
  - repeat split; vm_compute; reflexivity.
Qed.

(** *** The list of regular expressions *)

Lemma dict_get_insert_ne (d : gmap string pyval) k k' v dflt :
  k <> k' -> dict_get (<[k := v]> d) k' dflt = dict_get d k' dflt.
Proof. intros Hne. unfold dict_get. now rewrite lookup_insert_ne. Qed.

Lemma compile_all_first_failure re before x after e :
  forallb (fun x => is_ok (Config.regex_type re x)) before = true ->
  Config.regex_type re x = Raise e ->
  Config.compile_all re (before ++ x :: after)%list = Raise e.
Proof.
  intros Hbefore Hx. induction before as [|y before IH]; simpl in *.
  - now rewrite Hx.
  - apply andb_true_iff in Hbefore as [Hy Hbefore].
    destruct (Config.regex_type re y); [|discriminate].
    now rewrite (IH Hbefore).
Qed.

(** [regex_type] on a string [re.compile] raises on. *)
Lemma regex_type_raise re s e :
  re s = Raise e ->
  Config.regex_type re (PStr s) = Raise (regex_type_raises s e).
Proof. intros H. cbn [Config.regex_type]. rewrite H. now destruct e. Qed.

Lemma compile_all_length re l compiled :
  Config.compile_all re l = Ok compiled -> length compiled = length l.
Proof.
  revert compiled. induction l as [|x l IH]; intros compiled H; simpl in H.
  - now injection H as <-.
  - destruct (Config.regex_type re x); [|discriminate].
    destruct (Config.compile_all re l) as [ps|]; [|discriminate].
    injection H as <-. simpl. now rewrite (IH ps).
Qed.

(** Follow a run through a check that is known to pass. *)
Ltac step_known H :=
  first
    [ rewrite bind_reads in H
    | rewrite bind_assign in H
    | rewrite bind_ret in H
    | rewrite bind_check_type in H;
      match type of H with
      | (if ?b then _ else _) = _ =>
          match goal with
          | E : ?b' = true |- _ => constr_eq b b'; rewrite E in H
          end
      end
    | rewrite bind_assert in H;
      match type of H with
      | (if ?b then _ else _) = _ =>
          match goal with
          | E : ?b' = true |- _ => constr_eq b b'; rewrite E in H
          end
      end ];
  cbv beta zeta in H; config_simpl H.

(** C8, as the code has it.  When the list under [skipped_package_regexes]
    holds a string on which [re.compile] raises, the load fails.  When the
    entries before that string compile and the file would load with an
    empty list, the failure is what [regex_type] makes of the exception of
    [re.compile]: for [re.error] its [ArgumentTypeError], which quotes the
    pattern and the reason and does not mention the option; any other
    exception as it is.  The attribute has not been assigned then.  A load
    that completes has compiled every entry of the list. *)
Theorem update_from_dict_invalid_regex
    (re : string -> result unit) (d : gmap string pyval) (c : Config.t)
    (before after : list pyval) (s : string) (e : exn) :
  d !! "skipped_package_regexes" = Some (PList (before ++ PStr s :: after)) ->
  re s = Raise e ->
  (exists c' e', Config.update_from_dict re d c = (c', Raise e'))
  /\ (forallb (fun x => is_ok (Config.regex_type re x)) before = true ->
      forall c0,
        Config.update_from_dict re
          (<["skipped_package_regexes" := PList []]> d) c = (c0, Ok tt) ->
        exists c',
          Config.update_from_dict re d c
          = (c', Raise (regex_type_raises s e))
          /\ Config.skipped_package_regexes c'
             = Config.skipped_package_regexes c)
  /\ (forall l c1,
        Config.update_from_dict re
          (<["skipped_package_regexes" := PList l]> d) c = (c1, Ok tt) ->
        exists compiled,
          Config.compile_all re l = Ok compiled
          /\ length compiled = length l
          /\ Config.skipped_package_regexes c1 = PList compiled).
Proof.
  intros Hkey Hs.
  pose proof (regex_type_raise re s e Hs) as Hraise.
  split; [|split].
  - assert (Hinvalid :
      passes_checks re "skipped_package_regexes"
        (PList (before ++ PStr s :: after)) = false).
    { cbn [passes_checks String.eqb Ascii.eqb Bool.eqb isinstance Config.items
           andb].
      rewrite forallb_app. cbn [forallb]. rewrite Hraise.
      cbn [is_ok]. now rewrite andb_false_r. }
    destruct (Config.update_from_dict re d c) as [c' [[]|e']] eqn:H; [|eauto].
    rewrite (update_from_dict_ok_valid re d c c' _ _ H Hkey) in Hinvalid.
    discriminate.
  - intros Hbefore c0 Hload.
    pose proof (compile_all_first_failure re before (PStr s) after _
                  Hbefore Hraise) as Hcompile.
    apply update_from_dict_ok in Hload.
    pose proof (ld_allow_type _ _ _ _ Hload) as H1.
    pose proof (ld_allow_values _ _ _ _ Hload) as H2.
    pose proof (ld_build_args_type _ _ _ _ Hload) as H3.
    pose proof (ld_no_shell_type _ _ _ _ Hload) as H4.
    pose proof (ld_remote_type _ _ _ _ Hload) as H5.
    pose proof (ld_run_type _ _ _ _ Hload) as H6.
    pose proof (ld_sandbox_type _ _ _ _ Hload) as H7.
    pose proof (ld_skipped_packages_type _ _ _ _ Hload) as H8.
    rewrite (ld_allow _ _ _ _ Hload) in H1, H2.
    rewrite (ld_build_args _ _ _ _ Hload) in H3.
    rewrite (ld_no_shell _ _ _ _ Hload) in H4.
    rewrite (ld_remote _ _ _ _ Hload) in H5.
    rewrite (ld_run _ _ _ _ Hload) in H6.
    rewrite (ld_sandbox _ _ _ _ Hload) in H7.
    rewrite (ld_skipped_packages _ _ _ _ Hload) in H8.
    rewrite dict_get_insert_ne in H1, H2, H3, H4, H5, H6, H7, H8
      by discriminate.
    clear Hload.
    destruct (Config.update_from_dict re d c) as [c' r] eqn:H.
    unfold Config.update_from_dict in H.
    repeat step_known H.
    rewrite (dict_get_present d _ _ _ Hkey) in H.
    rewrite bind_check_type in H. cbn [isinstance Config.items] in H.
    rewrite bind_lift, Hcompile in H.
    injection H as <- <-. eexists. split; reflexivity.
  - intros l c1 Hload. apply update_from_dict_ok in Hload.
    destruct (ld_regexes _ _ _ _ Hload) as (compiled & Hc & Hattr).
    rewrite (dict_get_present _ _ (PList l)) in Hc
      by apply lookup_insert_eq.
    exists compiled. repeat split; try assumption.
    now apply compile_all_length in Hc.
Qed.

Lemma update_from_dict_invalid_regex_witness :
  exists c',
    Config.update_from_dict re_sample file_bad_regex (Config.default "nix")
    = (c', Raise (ArgumentTypeError
         "'(' is not a valid regex: missing ), unterminated subpattern at position 0"))
    /\ Config.skipped_package_regexes c' = PList [].
Proof.
  destruct (update_from_dict_invalid_regex re_sample file_bad_regex
              (Config.default "nix") [PStr "^python3"] [] "("
              (ReError "missing ), unterminated subpattern at position 0")
              eq_refl eq_refl) as (_ & Hloadable & _).
  apply (Hloadable eq_refl
           (fst (Config.update_from_dict re_sample
                   (<["skipped_package_regexes" := PList []]> file_bad_regex)
                   (Config.default "nix")))).
  vm_compute. reflexivity.
Defined.

(** C8 fails as stated, on three files that all load once the list is
    emptied.  The error of [file_bad_regex] quotes the pattern and does
    not name the option it was given for.  In [file_regex_after_number]
    the broken pattern comes after an entry that is no string: the error is
    the [TypeError] of that entry, and names neither.  The pattern of
    [file_regex_overflow] makes [re.compile] raise an [OverflowError],
    which [regex_type] does not catch. *)
Lemma update_from_dict_regex_error_omits_field :
  let c := Config.default "nix" in
  let msg :=
    "'(' is not a valid regex: missing ), unterminated subpattern at position 0"
  in
  let emptied := <["skipped_package_regexes" := PList []]> in
  (snd (Config.update_from_dict re_sample file_bad_regex c)
   = Raise (ArgumentTypeError msg)
   /\ occurs_in "(" msg = true
   /\ occurs_in "skipped_package_regexes" msg = false)
  /\ (snd (Config.update_from_dict re_sample
             (emptied file_regex_after_number) c) = Ok tt
      /\ snd (Config.update_from_dict re_sample file_regex_after_number c)
         = Raise (TypeError "first argument must be string or compiled pattern"))
  /\ (snd (Config.update_from_dict re_sample (emptied file_regex_overflow) c)
      = Ok tt
      /\ snd (Config.update_from_dict re_sample file_regex_overflow c)
         = Raise (OverflowError "the repetition number is too large")).
Proof. repeat split; vm_compute; reflexivity. Qed.

(** ** The review orchestrator *)

Lemma frame_eta fr :
  {| trace := trace fr; pending := pending fr; sessions := sessions fr;
     config := config fr; contexts := contexts fr; review := review fr;
     builddir := builddir fr |} = fr.
Proof. now destruct fr. Qed.

Lemma after_loop_nil w fr : after_loop w [] fr = fr.
Proof.
  unfold after_loop. cbn [loop_trace planned recorded last_review last_session
                          rev length app].
  rewrite !app_nil_r, Nat.add_0_r. apply frame_eta.
Qed.

Lemma domain_errors_handled w :
  raises_domain_errors_only w -> forall b pr, handled w b pr.
Proof.
  intros [Hinit Hbuild] b pr e. unfold pipeline.
  destruct (Review_init w b) as [[]|e'] eqn:Hi.
  - apply Hbuild.
  - intros [= <-]. exact (Hinit _ _ Hi).
Qed.

(** One turn of the loop on an identifier that is handled. *)
Lemma review_pr_handled w pr fr :
  handled w (session (sessions fr) pr) pr ->
  review_pr w pr fr = (after_loop w [pr] fr, Ok tt).
Proof.
  intros Hhandled. unfold handled in Hhandled.
  unfold after_loop, review_pr.
  cbn [loop_trace planned recorded last_review last_session rev length app].
  rewrite Nat.add_1_r. unfold pipeline in *.
  unfold bind at 1. cbn [Builddir_new].
  unfold bind at 1, enter_context, emit, assign, ret, bind at 1 2.
  cbn [trace pending sessions config contexts review builddir
       set_trace set_pending set_sessions set_builddir].
  unfold bind at 1. fold (session (sessions fr) pr).
  cbn [trace pending sessions config contexts review builddir
       set_trace set_pending set_sessions set_builddir].
  unfold except_NixpkgsReviewError, Review_new, bind, lift, ret, assign.
  destruct (Review_init w (session (sessions fr) pr)) as [[]|e] eqn:Hi.
  - destruct (build_pr w {| review_builddir := session (sessions fr) pr |} pr)
      as [attrs|e] eqn:Hb.
    + destruct fr. cbn. now rewrite ?app_nil_r.
    + pose proof (Hhandled _ eq_refl) as He. destruct e; try discriminate He.
      destruct fr. cbn. now rewrite ?app_nil_r, <- ?app_assoc.
  - pose proof (Hhandled _ eq_refl) as He. destruct e; try discriminate He.
    destruct fr. cbn. now rewrite ?app_nil_r, <- ?app_assoc.
Qed.

Lemma after_loop_cons w pr rest fr :
  after_loop w rest (after_loop w [pr] fr) = after_loop w (pr :: rest) fr.
Proof.
  unfold after_loop.
  cbn [loop_trace planned recorded last_review last_session rev length app
       trace pending sessions config contexts review builddir].
  rewrite Nat.add_1_r, !app_nil_r.
  f_equal.
  - rewrite <- !app_assoc. reflexivity.
  - rewrite <- !app_assoc. reflexivity.
  - lia.
  - rewrite <- app_assoc.
    now destruct (pipeline w (session (sessions fr) pr) pr).
Qed.

(** The loop when every identifier is handled. *)
Lemma for_pr_in_handled w prs :
  (forall b pr, handled w b pr) ->
  forall fr, for_pr_in w prs fr = (after_loop w prs fr, Ok tt).
Proof.
  intros Hw. induction prs as [|pr rest IH]; intros fr.
  - now rewrite after_loop_nil.
  - cbn [for_pr_in]. unfold bind.
    rewrite (review_pr_handled w pr fr (Hw _ _)), IH.
    now rewrite after_loop_cons.
Qed.

(** Reviewing the contexts leaves the frame as it is. *)
Lemma all_start_review_frame w post print r cs fr :
  fst (all_start_review w post print r cs fr) = fr.
Proof.
  induction cs as [|[[pr path] attrs] rest IH]; [reflexivity|].
  cbn [all_start_review]. rewrite bind_lift.
  destruct (start_review w r attrs path pr post print) as [[|]|e];
    [exact IH|reflexivity|reflexivity].
Qed.

Lemma all_start_review_returns w args r cs fr :
  reviews_return w ->
  all_start_review w (arg_post_result args) (arg_print_result args) r cs fr
  = (fr, Ok (forallb (review_succeeds w args r) cs)).
Proof.
  intros Hw. induction cs as [|[[pr path] attrs] rest IH]; [reflexivity|].
  cbn [all_start_review forallb review_succeeds]. rewrite bind_lift.
  destruct (Hw r attrs path pr (arg_post_result args) (arg_print_result args))
    as [ok ->].
  destruct ok; [exact IH|reflexivity].
Qed.

Ltac frame_eq :=
  unfold set_trace, set_pending, set_review, set_builddir;
  cbn [trace pending sessions config contexts review builddir];
  rewrite <- ?app_assoc; reflexivity.

(** The whole of lines 67 to 112 when every identifier is handled. *)
Lemma review_prs_handled w args prs fr :
  (forall b pr, handled w b pr) ->
  (last_review w (sessions fr) prs None = None \/ reviews_return w) ->
  let start :=
    set_review None
      (set_trace (trace fr ++ [BuildenvEnter])%list (set_builddir None fr)) in
  let loop := after_loop w prs start in
  review_prs w args prs fr
  = (set_pending []
       (set_trace
          (trace loop ++ List.map BuilddirExit (pending loop)
           ++ [BuildenvExit])%list loop),
     match review loop with
     | None => Raise AssertionError
     | Some r => outcome w args prs r (contexts loop) (builddir loop)
     end).
Proof.
  intros Hdomain Hreturn start loop.
  unfold review_prs. rewrite bind_assign.
  unfold bind at 1, with_ at 1, emit at 1, assign at 1.
  unfold with_ at 1, ret at 1, with_body.
  rewrite bind_assign.
  change (trace (set_builddir None fr)) with (trace fr). fold start.
  rewrite (bind_run (for_pr_in w prs)).
  rewrite (for_pr_in_handled w prs Hdomain start). fold loop.
  rewrite bind_reads.
  destruct (review loop) as [r|] eqn:Hr.
  - destruct Hreturn as [Hnone|Hreturn].
    { change (review loop) with (last_review w (sessions fr) prs None) in Hr.
      congruence. }
    rewrite bind_reads.
    rewrite (bind_run (all_start_review _ _ _ _ _)).
    rewrite (all_start_review_returns w args r (contexts loop) loop Hreturn).
    unfold outcome.
    destruct (arg_no_shell args).
    + cbn. frame_eq.
    + unfold sys_exit, throw, ret, bind, reads, emit, assign, ExitStack_exit.
      cbn [trace pending sessions config contexts review builddir
           set_trace set_pending negb].
      destruct (length (contexts loop) =? length prs)%nat; cbn;
        [destruct (last_session _ _ _)|]; frame_eq.
  - cbn. frame_eq.
Qed.


Lemma recorded_length w prs : forall n, (length (recorded w n prs) <= length prs)%nat.
Proof.
  induction prs as [|pr rest IH]; intros n; cbn [recorded length]; [lia|].
  specialize (IH (S n)).
  destruct (pipeline w (session n pr) pr); cbn [length]; lia.
Qed.

Lemma for_pr_in_handled_in w prs :
  (forall b pr, In pr prs -> handled w b pr) ->
  forall fr, for_pr_in w prs fr = (after_loop w prs fr, Ok tt).
Proof.
  induction prs as [|pr rest IH]; intros Hw fr.
  - now rewrite after_loop_nil.
  - cbn [for_pr_in]. unfold bind.
    rewrite (review_pr_handled w pr fr (Hw _ _ (or_introl eq_refl))).
    rewrite IH by (intros b pr' Hin; apply Hw; now right).
    now rewrite after_loop_cons.
Qed.

Lemma filter_warning_exits bs :
  List.filter is_warning (List.map BuilddirExit bs) = [].
Proof. induction bs as [|b bs IH]; [reflexivity|exact IH]. Qed.

(** The answer of [all(...)] does not depend on the frame, and leaves it
    as it is. *)
Lemma all_start_review_run w args r cs fr :
  all_start_review w (arg_post_result args) (arg_print_result args) r cs fr
  = (fr, all_succeeded w args r cs).
Proof.
  unfold all_succeeded.
  induction cs as [|[[pr path] attrs] rest IH]; [reflexivity|].
  cbn [all_start_review]. rewrite !bind_lift.
  destruct (start_review w r attrs path pr (arg_post_result args)
              (arg_print_result args)) as [[|]|e];
    [exact IH|reflexivity|reflexivity].
Qed.

(** The whole of lines 67 to 112 when every identifier of the list is
    handled, whatever the reviews do. *)
Lemma review_prs_loop w args prs fr :
  (forall b pr, In pr prs -> handled w b pr) ->
  let start :=
    set_review None
      (set_trace (trace fr ++ [BuildenvEnter])%list (set_builddir None fr)) in
  let loop := after_loop w prs start in
  review_prs w args prs fr
  = (set_pending []
       (set_trace
          (trace loop ++ List.map BuilddirExit (pending loop)
           ++ [BuildenvExit])%list loop),
     match review loop with
     | None => Raise AssertionError
     | Some r =>
         ending w args prs (all_succeeded w args r (contexts loop))
           (contexts loop) (builddir loop)
     end).
Proof.
  intros Hhandled start loop.
  unfold review_prs. rewrite bind_assign.
  unfold bind at 1, with_ at 1, emit at 1, assign at 1.
  unfold with_ at 1, ret at 1, with_body.
  rewrite bind_assign.
  change (trace (set_builddir None fr)) with (trace fr). fold start.
  rewrite (bind_run (for_pr_in w prs)).
  rewrite (for_pr_in_handled_in w prs Hhandled start). fold loop.
  rewrite bind_reads.
  destruct (review loop) as [r|] eqn:Hr.
  - rewrite bind_reads.
    rewrite (bind_run (all_start_review _ _ _ _ _)).
    rewrite (all_start_review_run w args r (contexts loop) loop).
    unfold ending.
    destruct (all_succeeded w args r (contexts loop)) as [ok|e].
    + destruct (arg_no_shell args).
      * cbn. frame_eq.
      * unfold sys_exit, throw, ret, bind, reads, emit, assign, ExitStack_exit.
        cbn [trace pending sessions config contexts review builddir
             set_trace set_pending negb].
        destruct (length (contexts loop) =? length prs)%nat; cbn;
          [destruct (last_session _ _ _)|]; frame_eq.
    + cbn. frame_eq.
  - cbn. frame_eq.
Qed.

(** Once the loop is through with fewer contexts than identifiers and a
    [Review] object, the run ends in [sys.exit]: with code 1 without
    [no_shell]; under [no_shell] with code 0 exactly when the review of
    every recorded context succeeds, the identifiers without a context
    not being counted. *)
Lemma exit_code_after_failed_identifier
    (w : World) (args : Namespace) (prs : list Z) (fr : Frame) (r : Review) :
  raises_domain_errors_only w ->
  reviews_return w ->
  contexts fr = [] ->
  (length (recorded w (sessions fr) prs) < length prs)%nat ->
  last_review w (sessions fr) prs None = Some r ->
  snd (review_prs w args prs fr)
  = Raise (SystemExit
      (if arg_no_shell args
       then if forallb (review_succeeds w args r)
                 (recorded w (sessions fr) prs)
            then 0 else 1
       else 1)).
Proof.
  intros Hdomain Hreturn Hcontexts Hfewer Hreview.
  rewrite (review_prs_handled w args prs fr
             (domain_errors_handled w Hdomain) (or_intror Hreturn)).
  cbn [snd after_loop review contexts sessions set_review set_trace
       set_builddir builddir].
  rewrite Hreview, Hcontexts. cbn [app]. unfold outcome.
  destruct (arg_no_shell args); [reflexivity|].
  destruct (Nat.eqb_spec (length (recorded w (sessions fr) prs)) (length prs));
    [lia|reflexivity].
Qed.


(** When the constructor returns, the loop leaves a [Review] object as
    soon as the list has an identifier. *)
Lemma last_review_of_constructor w :
  (forall b, Review_init w b = Ok tt) ->
  forall prs n r0,
    prs <> [] -> exists r, last_review w n prs r0 = Some r.
Proof.
  intros Hinit. induction prs as [|pr rest IH]; intros n r0 Hne; [congruence|].
  cbn [last_review]. rewrite Hinit.
  destruct rest as [|pr' rest]; [cbn; eauto|].
  apply IH. discriminate.
Qed.


Lemma world_second_fails_domain : raises_domain_errors_only world_second_fails.
Proof.
  split.
  - intros b e H. discriminate H.
  - intros r pr e H. cbn in H. destruct (pr =? 2); [|discriminate H].
    now injection H as <-.
Qed.

Lemma world_second_fails_returns : reviews_return world_second_fails.
Proof. intros r attrs path pr post print. now exists true. Qed.


(** When the constructor itself raises the domain error for every
    identifier, no [Review] object is left after the loop. *)
Lemma no_review_constructed w prs :
  (forall b, exists m, Review_init w b = Raise (NixpkgsReviewError m)) ->
  forall n r0,
    last_review w n prs r0 = r0 /\ recorded w n prs = [].
Proof.
  intros Hinit. induction prs as [|pr rest IH]; intros n r0;
    cbn [last_review recorded]; [now split|].
  unfold pipeline. destruct (Hinit (session n pr)) as [m ->]. apply IH.
Qed.

(** Then the run ends in the [AssertionError] of line 99. *)
Lemma constructor_failures_assert
    (w : World) (args : Namespace) (prs : list Z) (fr : Frame) :
  (forall b, exists m, Review_init w b = Raise (NixpkgsReviewError m)) ->
  snd (review_prs w args prs fr) = Raise AssertionError.
Proof.
  intros Hinit.
  destruct (no_review_constructed w prs Hinit (sessions fr) None)
    as [Hreview Hrecorded].
  assert (Hhandled : forall b pr, handled w b pr).
  { intros b pr e. unfold pipeline. destruct (Hinit b) as [m ->].
    now intros [= <-]. }
  rewrite (review_prs_handled w args prs fr Hhandled (or_introl Hreview)).
  cbn [fst snd after_loop review contexts sessions pending trace set_review
       set_trace set_builddir set_pending builddir].
  now rewrite Hreview.
Qed.

(** Also a list that is empty ends there: [parse_pr_numbers] makes one of
    the argument [5-5]. *)
Lemma empty_range_asserts :
  parse_pr_numbers ["5-5"] [] = ([], Ok [])
  /\ snd (review_prs world_second_fails (sample_args false) []
            (Frame_init world_second_fails))
     = Raise AssertionError.
Proof. split; reflexivity. Qed.

(** A loop in which [build_pr] raises the domain error at every turn
    records nothing and warns at every turn. *)
Lemma loop_of_failures w prs :
  (forall b, Review_init w b = Ok tt) ->
  (forall r pr, In pr prs ->
     exists msg, build_pr w r pr = Raise (NixpkgsReviewError msg)) ->
  forall n,
    recorded w n prs = []
    /\ length (List.filter is_warning (loop_trace w n prs)) = length prs.
Proof.
  intros Hinit. induction prs as [|pr rest IH]; intros Hfail n; [now split|].
  cbn [recorded loop_trace List.filter is_warning is_scope_event negb].
  unfold pipeline. rewrite Hinit.
  destruct (Hfail {| review_builddir := session n pr |} pr
              (or_introl eq_refl)) as [msg ->].
  destruct (IH (fun r pr' Hin => Hfail r pr' (or_intror Hin)) (S n))
    as [Hrecorded Hwarned].
  split; [exact Hrecorded|].
  cbn [app List.filter is_warning is_scope_event negb length].
  now rewrite Hwarned.
Qed.

(** C10, as the code has it.  In a list that is not empty and in which
    [build_pr] raises the domain error for every identifier, no context is
    recorded and every identifier is warned about; the [Review] object
    was constructed before [build_pr] was called, so the assertion of
    line 99 holds, and the run does not end in an [AssertionError]:
    without [no_shell] it ends in [sys.exit(1)]. *)
Theorem checkout_failures_pass_assertion
    (w : World) (args : Namespace) (prs : list Z) (fr : Frame) :
  prs <> [] ->
  (forall b, Review_init w b = Ok tt) ->
  (forall r pr, In pr prs ->
     exists msg, build_pr w r pr = Raise (NixpkgsReviewError msg)) ->
  contexts fr = [] ->
  let run := review_prs w args prs fr in
  contexts (fst run) = []
  /\ length (List.filter is_warning (trace (fst run)))
     = (length (List.filter is_warning (trace fr)) + length prs)%nat
  /\ review (fst run) <> None
  /\ snd run <> Raise AssertionError
  /\ (arg_no_shell args = false -> snd run = Raise (SystemExit 1)).
Proof.
  intros Hne Hinit Hfail Hcontexts run. subst run.
  assert (Hhandled : forall b pr, In pr prs -> handled w b pr).
  { intros b pr Hin e. unfold pipeline. rewrite Hinit.
    destruct (Hfail {| review_builddir := b |} pr Hin) as [msg ->].
    now intros [= <-]. }
  destruct (last_review_of_constructor w Hinit prs (sessions fr) None Hne)
    as [r Hr].
  destruct (loop_of_failures w prs Hinit Hfail (sessions fr))
    as [Hrecorded Hwarned].
  rewrite (review_prs_loop w args prs fr Hhandled).
  cbn [fst snd after_loop review contexts sessions pending trace set_review
       set_trace set_builddir set_pending builddir].
  rewrite Hr, Hrecorded, Hcontexts. cbn [app].
  assert (Hend :
    ending w args prs (all_succeeded w args r []) []
      (last_session (sessions fr) prs None)
    = Raise (SystemExit (if arg_no_shell args then 0 else 1))).
  { unfold ending, all_succeeded. cbn [all_start_review ret snd].
    destruct (arg_no_shell args); [reflexivity|].
    destruct prs; [congruence|reflexivity]. }
  rewrite Hend. repeat split.
  - rewrite !List.filter_app, filter_warning_exits, !length_app, Hwarned.
    cbn [List.filter is_warning is_scope_event negb length]. lia.
  - discriminate.
  - discriminate.
  - now intros ->.
Qed.

Lemma checkout_failures_pass_assertion_witness :
  let w := world_checkouts_fail in
  let run := review_prs w (sample_args false) [1; 2; 3] (Frame_init w) in
  contexts (fst run) = []
  /\ length (List.filter is_warning (trace (fst run))) = 3%nat
  /\ snd run = Raise (SystemExit 1).
Proof.
  destruct (checkout_failures_pass_assertion
              world_checkouts_fail (sample_args false) [1; 2; 3]
              (Frame_init world_checkouts_fail)
              ltac:(discriminate)
              (fun _ => eq_refl)
              (fun _ _ _ => ex_intro _ "checkout failed" eq_refl)
              eq_refl) as (Hcontexts & Hwarned & _ & _ & Hend).
  split; [exact Hcontexts|].
  split; [exact Hwarned|exact (Hend eq_refl)].
Defined.

(** C10 fails as stated: the checkout of each of the pull requests 1, 2
    and 3 raises the domain error and no context is recorded, yet lines 67
    to 112 do not end in the [AssertionError]: they warn three times and
    end in [sys.exit(1)].  Nor does the command as written fail that
    assertion: on this input it ends in the [TypeError] of line 42. *)
Lemma checkout_failures_exit_not_assert :
  let w := world_checkouts_fail in
  let run := review_prs w (sample_args false) [1; 2; 3] (Frame_init w) in
  (pipeline w (session 0 1) 1 = Raise (NixpkgsReviewError "checkout failed")
   /\ pipeline w (session 1 2) 2 = Raise (NixpkgsReviewError "checkout failed")
   /\ pipeline w (session 2 3) 3 = Raise (NixpkgsReviewError "checkout failed"))
  /\ contexts (fst run) = []
  /\ List.filter is_warning (trace (fst run))
     = [Warn "https://github.com/NixOS/nixpkgs/pull/1 failed to build: checkout failed";
        Warn "https://github.com/NixOS/nixpkgs/pull/2 failed to build: checkout failed";
        Warn "https://github.com/NixOS/nixpkgs/pull/3 failed to build: checkout failed"]
  /\ review (fst run) = Some {| review_builddir := session 2 3 |}
  /\ snd run = Raise (SystemExit 1)
  /\ snd run <> Raise AssertionError
  /\ snd (pr_command w (sample_args false) (Frame_init w))
     = Raise (TypeError
         "Config.update_from_args() takes 1 positional argument but 2 were given").
Proof. repeat split; try reflexivity. discriminate. Qed.

(** *** Scopes, in any world *)

Lemma scope_events_app tr1 tr2 :
  scope_events (tr1 ++ tr2) = (scope_events tr1 ++ scope_events tr2)%list.
Proof. unfold scope_events. apply List.filter_app. Qed.

(** One turn of the loop enters one session and leaves it pending,
    however the turn ends. *)
Lemma review_pr_scopes w pr fr :
  let b := session (sessions fr) pr in
  let after := fst (review_pr w pr fr) in
  pending after = b :: pending fr
  /\ sessions after = S (sessions fr)
  /\ scope_events (trace after)
     = (scope_events (trace fr) ++ [BuilddirEnter b])%list.
Proof.
  intros b after. subst after b.
  cbv [review_pr bind Builddir_new enter_context emit assign ret
       except_NixpkgsReviewError Review_new lift on_trace warn].
  fold (session (sessions fr) pr).
  destruct (Review_init w (session (sessions fr) pr)) as [[]|e];
    [destruct (build_pr w _ pr) as [attrs|e]|];
    try destruct e;
    cbn [fst trace pending sessions config contexts review builddir
         set_trace set_pending set_sessions set_builddir set_review
         set_contexts];
    rewrite ?scope_events_app; cbn [scope_events List.filter is_scope_event];
    rewrite ?app_nil_r; repeat split; reflexivity.
Qed.

(** The loop enters the sessions of a front part of the list, in order,
    and leaves them pending, the latest first; it enters them all when it
    ends without an exception. *)
Lemma for_pr_in_scopes w prs :
  forall fr,
    exists k : nat,
      (k <= length prs)%nat
      /\ let after := for_pr_in w prs fr in
         let bs := planned (sessions fr) (firstn k prs) in
         pending (fst after) = (rev bs ++ pending fr)%list
         /\ scope_events (trace (fst after))
            = (scope_events (trace fr) ++ List.map BuilddirEnter bs)%list
         /\ (snd after = Ok tt -> k = length prs).
Proof.
  induction prs as [|pr rest IH]; intros fr.
  - exists 0%nat. cbn. rewrite app_nil_r. repeat split. lia.
  - cbn [for_pr_in]. rewrite bind_run.
    destruct (review_pr_scopes w pr fr) as (Hpending & Hsessions & Htrace).
    destruct (review_pr w pr fr) as [fr1 [[]|e]].
    + destruct (IH fr1) as (k & Hk & Hp & Ht & Hall).
      cbn [fst] in Hpending, Hsessions, Htrace.
      exists (S k). split; [cbn [length]; lia|].
      cbn [firstn planned rev List.map]. cbv zeta in Hp, Ht, Hall |- *.
      rewrite Hsessions, Hpending in Hp. rewrite Hsessions, Htrace in Ht.
      rewrite Hp, Ht, <- !app_assoc. repeat split.
      intros Hok. cbn [length]. now rewrite (Hall Hok).
    + exists 1%nat. split; [cbn [length]; lia|].
      cbn [fst snd] in *. cbn [firstn planned rev List.map app].
      rewrite Hpending, Htrace. repeat split. discriminate.
Qed.

(** After the loop nothing touches the frame. *)
Lemma with_body_frame w args prs fr :
  let loop := for_pr_in w prs (set_review None fr) in
  fst (with_body w args prs fr) = fst loop
  /\ (is_ok (snd (with_body w args prs fr)) = true -> snd loop = Ok tt).
Proof.
  cbv zeta. unfold with_body. rewrite bind_assign, bind_run.
  destruct (for_pr_in w prs (set_review None fr)) as [fl [[]|e]];
    [|split; [reflexivity|discriminate]].
  split; [|reflexivity]. rewrite bind_reads.
  destruct (review fl) as [r|]; [|reflexivity].
  rewrite bind_reads, bind_run.
  pose proof (all_start_review_frame w (arg_post_result args)
                (arg_print_result args) r (contexts fl) fl) as Hframe.
  destruct (all_start_review w _ _ r (contexts fl) fl) as [f2 [ok|e]];
    cbn [fst] in Hframe; subst f2; [|reflexivity].
  destruct (arg_no_shell args); [reflexivity|].
  cbn. now destruct (negb (length (contexts fl) =? length prs)%nat).
Qed.

(** Lines 67 to 112 around the body of the [with] statement. *)
Lemma review_prs_run w args prs fr :
  let start := set_trace (trace fr ++ [BuildenvEnter])%list
                 (set_builddir None fr) in
  let body := with_body w args prs start in
  review_prs w args prs fr
  = (set_trace
       ((trace (fst body) ++ List.map BuilddirExit (pending (fst body)))
        ++ [BuildenvExit])%list
       (set_pending []
          (set_trace
             (trace (fst body) ++ List.map BuilddirExit (pending (fst body)))%list
             (fst body))),
     match snd body with
     | Ok _ =>
         match builddir (fst body) with
         | Some b => Ok (builddir_path w b)
         | None => Raise AssertionError
         end
     | Raise e => Raise e
     end).
Proof.
  intros start body. subst body. unfold review_prs.
  rewrite bind_assign, bind_run.
  unfold with_ at 1, emit at 1, assign at 1.
  unfold with_ at 1, ret at 1.
  change (trace (set_builddir None fr)) with (trace fr). fold start.
  destruct (with_body w args prs start) as [fb [[]|e]]; cbn;
    [destruct (builddir fb)|]; reflexivity.
Qed.

(** C9.  However the run ends, its scope events are: the build
    environment entered, then the sessions of a front part of the list of
    identifiers entered in order, then the same sessions left in the
    reverse order, then the build environment left; no exit is left
    pending.  All the identifiers have their session when the run returns,
    and in a world of domain errors. *)
Theorem scopes_released_in_reverse
    (w : World) (args : Namespace) (prs : list Z) (fr : Frame) :
  pending fr = [] ->
  exists k : nat,
    (k <= length prs)%nat
    /\ let run := review_prs w args prs fr in
       let bs := planned (sessions fr) (firstn k prs) in
       scope_events (trace (fst run))
       = (scope_events (trace fr)
          ++ [BuildenvEnter]
          ++ List.map BuilddirEnter bs
          ++ List.map BuilddirExit (rev bs)
          ++ [BuildenvExit])%list
       /\ pending (fst run) = []
       /\ (is_ok (snd run) = true -> k = length prs)
       /\ (raises_domain_errors_only w -> k = length prs).
Proof.
  intros Hpending.
  set (start := set_trace (trace fr ++ [BuildenvEnter])%list
                  (set_builddir None fr)).
  destruct (for_pr_in_scopes w prs (set_review None start))
    as (k & Hk & Hp & Ht & Hall).
  destruct (with_body_frame w args prs start) as [Hframe Hok].
  cbv zeta in Hp, Ht, Hall, Hframe, Hok.
  unfold start in Hp at 2 3. unfold start in Ht at 2 3.
  cbn [sessions pending trace set_review set_trace set_builddir] in Hp, Ht.
  rewrite Hpending, app_nil_r in Hp.
  rewrite scope_events_app in Ht. cbn [scope_events List.filter
                                       is_scope_event] in Ht.
  fold (scope_events (trace fr)) in Ht.
  pose proof (review_prs_run w args prs fr) as Hrun. cbv zeta in Hrun.
  fold start in Hrun.
  assert (Hrunok : is_ok (snd (review_prs w args prs fr)) = true ->
                   is_ok (snd (with_body w args prs start)) = true).
  { rewrite Hrun. cbn [snd].
    now destruct (snd (with_body w args prs start)). }
  apply (f_equal fst) in Hrun. cbn [fst] in Hrun.
  exists k. split; [exact Hk|]. cbv zeta. rewrite Hrun, Hframe.
  cbn [trace pending set_pending set_trace].
  repeat split.
  - rewrite !scope_events_app, Ht, Hp.
    assert (Hexits : forall bs, scope_events (List.map BuilddirExit bs)
                               = List.map BuilddirExit bs).
    { induction bs as [|b bs IHbs]; [reflexivity|]. cbn. now f_equal. }
    rewrite Hexits. cbn [scope_events List.filter is_scope_event].
    now rewrite <- !app_assoc.
  - intros Hfinal. now apply Hall, Hok, Hrunok.
  - intros Hdomain. apply Hall.
    now rewrite (for_pr_in_handled w prs (domain_errors_handled w Hdomain)).
Qed.

Lemma scopes_released_in_reverse_witness :
  exists k : nat,
    (k <= 3)%nat
    /\ let w := world_second_fails in
       let run := review_prs w (sample_args false) [1; 2; 3] (Frame_init w) in
       let bs := planned 0 (firstn k [1; 2; 3]) in
       scope_events (trace (fst run))
       = ([BuildenvEnter]
          ++ List.map BuilddirEnter bs
          ++ List.map BuilddirExit (rev bs)
          ++ [BuildenvExit])%list
       /\ pending (fst run) = []
       /\ (is_ok (snd run) = true -> k = 3%nat)
       /\ (raises_domain_errors_only w -> k = 3%nat).
Proof.
  exact (scopes_released_in_reverse world_second_fails (sample_args false)
           [1; 2; 3] (Frame_init world_second_fails) eq_refl).
Defined.

(** The run that is cut short at the second identifier leaves the two
    sessions it entered, the second first, and then the environment. *)
Lemma crash_releases_entered_sessions :
  review_prs world_second_crashes (sample_args false) [1; 2; 3]
    (Frame_init world_second_crashes)
  = ({| trace :=
          [BuildenvEnter;
           BuilddirEnter (session 0 1); BuilddirEnter (session 1 2);
           BuilddirExit (session 1 2); BuilddirExit (session 0 1);
           BuildenvExit];
        pending := [];
        sessions := 2;
        config := Config.default "nix";
        contexts := [(1, "/tmp/pr-1", ∅)];
        review := Some {| review_builddir := session 1 2 |};
        builddir := Some (session 1 2) |},
     Raise (OtherError "KeyboardInterrupt")).
Proof. reflexivity. Qed.

(** ** The three layers *)

(** The file layer: an absent file leaves the object alone, a file goes
    through [update_from_dict]. *)
Lemma read_config_layers re c :
  Config.read_config re None c = (c, Ok tt)
  /\ forall d, Config.read_config re (Some (Ok d)) c
               = Config.update_from_dict re d c.
Proof. split; reflexivity. Qed.

(** The call of [update_from_args] raises whatever the arguments are, and
    leaves the object as the file layer made it. *)
Lemma update_from_args_raises args c :
  Config.update_from_args args c
  = (c, Raise (TypeError
      "Config.update_from_args() takes 1 positional argument but 2 were given")).
Proof. reflexivity. Qed.

(** The command never gets past line 42. *)
Lemma pr_command_never_returns w args fr :
  is_ok (snd (pr_command w args fr)) = false.
Proof.
  unfold pr_command. rewrite bind_assign, bind_run.
  destruct (on_config _ _) as [f1 [[]|e]]; [|reflexivity].
  rewrite bind_run.
  destruct (on_trace _ f1) as [f2 [prs|e]]; [|reflexivity].
  reflexivity.
Qed.

(** C2.  With [build_args] set in the file and on the command line, the
    command raises [TypeError] at [config.update_from_args(args)]; the
    [Config] it leaves holds the value of the file, and no session has
    been entered. *)
Theorem cli_layer_raises :
  let w := world_with_file in
  let args := sample_args false in
  let run := pr_command w args (Frame_init w) in
  file_build_args !! "build_args" = Some (PStr "--keep-going")
  /\ arg_build_args args = "--show-trace"
  /\ snd run
     = Raise (TypeError
         "Config.update_from_args() takes 1 positional argument but 2 were given")
  /\ Config.build_args (config (fst run)) = PStr "--keep-going"
  /\ trace (fst run) = [].
Proof. repeat split; reflexivity. Qed.

(** * Further properties *)

(** ** The identifier parser, argument by argument *)

Lemma span_digits_all_digits s :
  all_digits (fst (span_digits s)) = true.
Proof.
  induction s as [|c s IH]; [reflexivity|]. cbn [span_digits].
  destruct (is_digit c) eqn:Hc; [|reflexivity].
  destruct (span_digits s) as [ds tl]. cbn [fst all_digits] in *.
  now rewrite Hc, IH.
Qed.

(** The groups of a match are runs of digits that are not empty. *)
Lemma match_range_groups arg a b :
  match_range arg = Some (a, b) ->
  (all_digits a = true /\ a <> EmptyString)
  /\ (all_digits b = true /\ b <> EmptyString).
Proof.
  unfold match_range. intros H.
  pose proof (span_digits_all_digits arg) as Ha.
  destruct (span_digits arg) as [[|c ds] rest]; [discriminate|].
  destruct rest as [|c' rest]; [discriminate|].
  destruct (Ascii.eqb_spec c' "-") as [->|Hne].
  - pose proof (span_digits_all_digits rest) as Hb.
    destruct (span_digits rest) as [[|d ds'] tl]; [discriminate|].
    injection H as <- <-. cbn [fst] in *. now repeat split.
  - exfalso. destruct c' as [[] [] [] [] [] [] [] []];
      try discriminate H; now apply Hne.
Qed.

Lemma match_url_group arg n :
  match_url arg = Some n -> all_digits n = true /\ n <> EmptyString.
Proof.
  unfold match_url. intros H.
  destruct (strip_prefix "https://github" arg) as [[|c rest]|];
    try discriminate.
  destruct (Ascii.eqb c "010"); [discriminate|].
  destruct (strip_prefix "com/NixOS/nixpkgs/pull/" rest) as [tl|];
    [|discriminate].
  pose proof (span_digits_all_digits tl) as Hn.
  destruct (span_digits tl) as [[|d ds] tl']; [discriminate|].
  injection H as <-. now split.
Qed.

Lemma parse_pr_numbers_by_expansion :
  forall (number_args : list string) (tr : list event),
    parse_pr_numbers number_args tr =
    match expansions number_args with
    | Some prs => (tr, Ok prs)
    | None =>
        ((tr ++ [Warn "expected number or URL, got None"])%list,
         Raise (SystemExit 1))
    end.
Proof.
  induction number_args as [|arg rest IH]; intros tr; [reflexivity|].
  unfold parse_pr_numbers. cbn [parse_pr_numbers_loop expansions].
  unfold expansion.
  destruct (match_range arg) as [[a b]|] eqn:Hrange.
  { destruct (match_range_groups arg a b Hrange) as [[Ha Hane] [Hb Hbne]].
    unfold bind, py_int.
    rewrite (int_of_str_digits a Ha Hane), (int_of_str_digits b Hb Hbne).
    unfold ret. rewrite parse_pr_numbers_loop_acc, IH.
    now destruct (expansions rest). }
  destruct (match_url arg) as [n|] eqn:Hurl.
  { destruct (match_url_group arg n Hurl) as [Hn Hnne].
    unfold bind, py_int. rewrite (int_of_str_digits n Hn Hnne).
    unfold ret. rewrite parse_pr_numbers_loop_acc, IH.
    now destruct (expansions rest). }
  destruct (int_of_str arg) as [pr|]; [|reflexivity].
  cbn [option_map]. rewrite parse_pr_numbers_loop_acc, IH.
  now destruct (expansions rest).
Qed.

(** X1.  [parse_pr_numbers] is the concatenation of the expansions of its
    arguments, made without a warning; when an argument has no expansion
    it warns once and exits with code 1.  It ends in no other way: the
    conversions of the range and URL branches cannot fail. *)
Theorem parse_pr_numbers_expansions :
  forall (number_args : list string) (tr : list event),
    parse_pr_numbers number_args tr =
    match expansions number_args with
    | Some prs => (tr, Ok prs)
    | None =>
        ((tr ++ [Warn "expected number or URL, got None"])%list,
         Raise (SystemExit 1))
    end.
Proof. exact parse_pr_numbers_by_expansion. Qed.

Lemma parse_pr_numbers_single arg prs tr :
  expansion arg = Some prs -> parse_pr_numbers [arg] tr = (tr, Ok prs).
Proof.
  intros H. rewrite parse_pr_numbers_by_expansion. cbn [expansions].
  rewrite H. now rewrite app_nil_r.
Qed.

Lemma range_empty a b : b <= a -> range a b = [].
Proof.
  intros H. unfold range. replace (Z.to_nat (b - a)) with 0%nat by lia.
  reflexivity.
Qed.

(** X2.  A range whose upper bound is not above its lower bound stands
    for no identifier at all, and is no error. *)
Theorem parse_pr_numbers_empty_range (A B : string) (tr : list event) :
  all_digits A = true -> A <> EmptyString ->
  all_digits B = true -> B <> EmptyString ->
  decimal B <= decimal A ->
  parse_pr_numbers [A ++ "-" ++ B] tr = (tr, Ok []).
Proof.
  intros HA HAne HB HBne Hle. apply parse_pr_numbers_single.
  unfold expansion. rewrite (match_range_digits A B HA HAne HB HBne).
  now rewrite range_empty.
Qed.

Lemma parse_pr_numbers_empty_range_witness :
  parse_pr_numbers ["7-3"] [] = ([], Ok []).
Proof.
  exact (parse_pr_numbers_empty_range "7" "3" []
           eq_refl ltac:(discriminate) eq_refl ltac:(discriminate)
           ltac:(vm_compute; discriminate)).
Defined.

Lemma match_range_prefix a b rest :
  all_digits a = true -> a <> EmptyString ->
  all_digits b = true -> b <> EmptyString ->
  ends_digits rest ->
  match_range (a ++ "-" ++ b ++ rest) = Some (a, b).
Proof.
  intros Ha Hane Hb Hbne Hrest. unfold match_range.
  rewrite (span_digits_app a ("-" ++ b ++ rest) Ha) by reflexivity.
  destruct a as [|c a]; [congruence|].
  change ("-" ++ b ++ rest) with (String "-" (b ++ rest)). cbv beta iota.
  rewrite (span_digits_app b rest Hb Hrest).
  destruct b; [congruence|reflexivity].
Qed.

(** X3.  The range form only looks at the start of the argument: what
    follows the second number is ignored, so that [10-13abc] and [1-2-3]
    are ranges. *)
Theorem parse_pr_numbers_range_prefix
    (A B rest : string) (tr : list event) :
  all_digits A = true -> A <> EmptyString ->
  all_digits B = true -> B <> EmptyString ->
  ends_digits rest ->
  parse_pr_numbers [A ++ "-" ++ B ++ rest] tr
  = (tr, Ok (range (decimal A) (decimal B))).
Proof.
  intros HA HAne HB HBne Hrest. apply parse_pr_numbers_single.
  unfold expansion.
  now rewrite (match_range_prefix A B rest HA HAne HB HBne Hrest).
Qed.

Lemma parse_pr_numbers_range_prefix_witness :
  parse_pr_numbers ["1-3-7"] [] = ([], Ok [1; 2]).
Proof.
  exact (parse_pr_numbers_range_prefix "1" "3" "-7" []
           eq_refl ltac:(discriminate) eq_refl ltac:(discriminate)
           eq_refl).
Defined.

(** X4.  The URL form takes the number after [/pull/] and ignores what
    follows it; the dot of [github.com] stands for any character but a
    newline. *)
Theorem parse_pr_numbers_url
    (c : ascii) (n rest : string) (tr : list event) :
  c <> "010"%char ->
  all_digits n = true -> n <> EmptyString ->
  ends_digits rest ->
  parse_pr_numbers
    ["https://github" ++ String c ("com/NixOS/nixpkgs/pull/" ++ n ++ rest)] tr
  = (tr, Ok [decimal n]).
Proof.
  intros Hc Hn Hnne Hrest. apply parse_pr_numbers_single.
  unfold expansion.
  assert (Hrange :
    match_range
      ("https://github" ++ String c ("com/NixOS/nixpkgs/pull/" ++ n ++ rest))
    = None) by reflexivity.
  rewrite Hrange. unfold match_url.
  change (strip_prefix "https://github"
            ("https://github"
             ++ String c ("com/NixOS/nixpkgs/pull/" ++ n ++ rest)))
    with (Some (String c ("com/NixOS/nixpkgs/pull/" ++ n ++ rest))).
  cbv beta iota.
  destruct (Ascii.eqb c "010") eqn:E; [apply Ascii.eqb_eq in E; congruence|].
  change (strip_prefix "com/NixOS/nixpkgs/pull/"
            ("com/NixOS/nixpkgs/pull/" ++ n ++ rest))
    with (Some (n ++ rest)).
  cbv beta iota.
  rewrite (span_digits_app n rest Hn Hrest).
  destruct n; [congruence|reflexivity].
Qed.

Lemma parse_pr_numbers_url_witness :
  parse_pr_numbers ["https://github_com/NixOS/nixpkgs/pull/456/files"] []
  = ([], Ok [456]).
Proof.
  exact (parse_pr_numbers_url "_" "456" "/files" []
           ltac:(discriminate) eq_refl ltac:(discriminate) eq_refl).
Defined.

(** X5.  The bare form is Python's [int]: a sign is accepted, so that the
    parser hands out negative identifiers. *)
Theorem parse_pr_numbers_signed (n : string) (tr : list event) :
  all_digits n = true -> n <> EmptyString ->
  parse_pr_numbers [String "-" n] tr = (tr, Ok [- decimal n])
  /\ parse_pr_numbers [String "+" n] tr = (tr, Ok [decimal n]).
Proof.
  intros Hn Hnne.
  split; apply parse_pr_numbers_single; unfold expansion.
  - assert (Hrange : match_range (String "-" n) = None) by reflexivity.
    assert (Hurl : match_url (String "-" n) = None) by reflexivity.
    rewrite Hrange, Hurl. unfold int_of_str. cbn [lstrip].
    change (is_space "-") with false. cbv iota.
    now rewrite (int_scan_digits n Hn Hnne 0).
  - assert (Hrange : match_range (String "+" n) = None) by reflexivity.
    assert (Hurl : match_url (String "+" n) = None) by reflexivity.
    rewrite Hrange, Hurl. unfold int_of_str. cbn [lstrip].
    change (is_space "+") with false. cbv iota.
    now rewrite (int_scan_digits n Hn Hnne 0).
Qed.

Lemma parse_pr_numbers_signed_witness :
  parse_pr_numbers ["-5"] [] = ([], Ok [-5]).
Proof.
  exact (proj1 (parse_pr_numbers_signed "5" []
                  eq_refl ltac:(discriminate))).
Defined.

(** ** The loader, completely *)

Lemma RevConfig_update_table d self :
  isinstance (dict_get d "branch" (RevConfig.branch self)) TStr = true ->
  RevConfig.update_from_dict (PDict d) self
  = ({| RevConfig.branch := dict_get d "branch" (RevConfig.branch self) |},
     Ok tt).
Proof.
  intros H. unfold RevConfig.update_from_dict.
  rewrite bind_reads, bind_py_get, bind_assign.
  unfold _check_type. now rewrite H.
Qed.

Lemma WipConfig_update_table d self :
  isinstance (dict_get d "branch" (WipConfig.branch self)) TStr = true ->
  isinstance
    (dict_get d "staged" (dict_get d "branch" (WipConfig.branch self)))
    TBool = true ->
  WipConfig.update_from_dict (PDict d) self
  = ({| WipConfig.branch := dict_get d "branch" (WipConfig.branch self);
        WipConfig.staged :=
          dict_get d "staged" (dict_get d "branch" (WipConfig.branch self)) |},
     Ok tt).
Proof.
  intros Hb Hs. unfold WipConfig.update_from_dict.
  rewrite bind_reads, bind_py_get, bind_assign, bind_check_type, Hb.
  rewrite bind_reads, bind_py_get, bind_assign.
  cbn [WipConfig.branch WipConfig.set_branch WipConfig.staged
       WipConfig.set_staged].
  unfold _check_type. now rewrite Hs.
Qed.

Lemma PrConfig_update_table d self :
  in_values (dict_get d "eval" (PrConfig.eval self)) EVAL_VALUES = true ->
  in_values (dict_get d "checkout" (PrConfig.checkout self)) CHECKOUT_VALUES
  = true ->
  isinstance (dict_get d "post_result" (PrConfig.post_result self)) TBool
  = true ->
  PrConfig.update_from_dict (PDict d) self
  = ({| PrConfig.eval := dict_get d "eval" (PrConfig.eval self);
        PrConfig.checkout := dict_get d "checkout" (PrConfig.checkout self);
        PrConfig.post_result :=
          dict_get d "post_result" (PrConfig.post_result self) |},
     Ok tt).
Proof.
  intros He Hc Hp. unfold PrConfig.update_from_dict.
  rewrite bind_reads, bind_py_get, bind_assign, bind_assert, He.
  rewrite bind_reads, bind_py_get, bind_assign.
  cbn [PrConfig.eval PrConfig.checkout PrConfig.post_result
       PrConfig.set_eval PrConfig.set_checkout PrConfig.set_post_result].
  rewrite bind_assert, Hc.
  rewrite bind_reads, bind_py_get, bind_assign.
  cbn [PrConfig.eval PrConfig.checkout PrConfig.post_result
       PrConfig.set_eval PrConfig.set_checkout PrConfig.set_post_result].
  unfold _check_type. now rewrite Hp.
Qed.

Lemma str_not_list v :
  isinstance v TStr = true -> isinstance v TList = false.
Proof. now destruct v. Qed.

(** A load whose checks all pass completes, and leaves what [Loaded]
    describes. *)
Lemma update_from_dict_complete re d c c' :
  Loaded re d c c' -> Config.update_from_dict re d c = (c', Ok tt).
Proof.
  intros [Hallow Hallow_t Hallow_v Hbuild_args Hbuild_args_t
          Hno_shell Hno_shell_t Hremote Hremote_t Hrun Hrun_t
          Hsandbox Hsandbox_t Hpackages Hpackages_t
          Hregexes_t (compiled & Hcompile & Hregexes)
          Hsystems Hsystems_t Hgraph Hgraph_t Hgraph_v
          Hprint Hprint_t Hextra Hextra_t Hevals Hevals_t Hevals_p
          (trev & Htrev & Hrev & Hrev_t)
          (twip & Htwip & Hwipb & Hwipb_t & Hwips & Hwips_t)
          (tpr & Htpr & Hpre & Hpre_v & Hprc & Hprc_v & Hprp & Hprp_t)].
  rewrite Hallow in Hallow_t, Hallow_v.
  rewrite Hbuild_args in Hbuild_args_t. rewrite Hno_shell in Hno_shell_t.
  rewrite Hremote in Hremote_t. rewrite Hrun in Hrun_t.
  rewrite Hsandbox in Hsandbox_t. rewrite Hpackages in Hpackages_t.
  rewrite Hsystems in Hsystems_t.
  rewrite Hgraph in Hgraph_t, Hgraph_v. rewrite Hprint in Hprint_t.
  rewrite Hextra in Hextra_t. rewrite Hevals in Hevals_t, Hevals_p.
  rewrite Hwipb in Hwips. rewrite Hrev in Hrev_t. rewrite Hwipb in Hwipb_t.
  rewrite Hwips in Hwips_t.
  rewrite Hpre in Hpre_v. rewrite Hprc in Hprc_v. rewrite Hprp in Hprp_t.
  assert (Hsystems_or :
    isinstance (dict_get d "systems" (Config.systems c)) TStr
    || isinstance (dict_get d "systems" (Config.systems c)) TList = true).
  { destruct Hsystems_t as [->|[-> _]]; [reflexivity|apply orb_true_r]. }
  destruct (Config.update_from_dict re d c) as [c'' r] eqn:H.
  unfold Config.update_from_dict in H.
  repeat step_known H.
  rewrite bind_lift, Hcompile, bind_assign in H.
  repeat step_known H.
  assert (Hafter_systems : forall k s,
    bind (if isinstance (dict_get d "systems" (Config.systems c)) TList
          then py_assert
                 (forallb (fun system => isinstance system TStr)
                    (Config.items (dict_get d "systems" (Config.systems c))))
          else ret tt) k s = k tt s :> Config.t * result unit).
  { intros k s. destruct Hsystems_t as [Hs|[Hl Hf]].
    - now rewrite (str_not_list _ Hs).
    - now rewrite Hl, bind_assert, Hf. }
  rewrite Hafter_systems in H.
  repeat step_known H.
  rewrite bind_on_rev_config in H. config_simpl H.
  rewrite Htrev, (RevConfig_update_table trev _ Hrev_t) in H.
  rewrite bind_on_wip_config in H. config_simpl H.
  rewrite Htwip, (WipConfig_update_table twip _ Hwipb_t Hwips_t) in H.
  unfold Config.on_pr_config in H. config_simpl H.
  rewrite Htpr, (PrConfig_update_table tpr _ Hpre_v Hprc_v Hprp_t) in H.
  injection H as <- <-. f_equal.
  destruct c' as [a1 a2 a3 a4 a5 a6 a7 a8 a9 a10 a11 a12 a13 [r1] [p1 p2 p3]
                  [w1 w2]].
  config_simpl_goal.
  cbn [Config.allow Config.build_args Config.no_shell Config.remote
       Config.run Config.sandbox Config.skipped_packages
       Config.skipped_package_regexes Config.systems Config.build_graph
       Config.print_result Config.extra_nixpkgs_config
       Config.num_parallel_evals Config.rev_config Config.pr_config
       Config.wip_config RevConfig.branch WipConfig.branch WipConfig.staged
       PrConfig.eval PrConfig.checkout PrConfig.post_result] in *.
  subst. reflexivity.
Qed.

(** X6.  A load completes exactly when every value it resolves (the value
    of the key, or what the attribute held when the key is absent) passes
    its check, and then every attribute holds the value it resolved. *)
Theorem update_from_dict_completes_iff :
  forall (re : string -> result unit) (d : gmap string pyval)
         (c c' : Config.t),
    Config.update_from_dict re d c = (c', Ok tt) <-> Loaded re d c c'.
Proof.
  intros re d c c'. split.
  - apply update_from_dict_ok.
  - apply update_from_dict_complete.
Qed.

Lemma dict_get_twice (d : gmap string pyval) key x y :
  x = dict_get d key y -> x = dict_get d key x.
Proof. unfold dict_get. now destruct (d !! key). Qed.

Lemma regex_type_pattern re x p :
  Config.regex_type re x = Ok p ->
  is_pattern p = true /\ Config.regex_type re p = Ok p.
Proof.
  destruct x; cbn; try discriminate.
  - destruct (re s) as [[]|[]]; try discriminate. now intros [= <-].
  - now intros [= <-].
Qed.

(** What [compile_all] returns is made of patterns, and compiling it
    again gives it back. *)
Lemma compile_all_compiled re l compiled :
  Config.compile_all re l = Ok compiled ->
  forallb is_pattern compiled = true
  /\ Config.compile_all re compiled = Ok compiled.
Proof.
  revert compiled. induction l as [|x l IH]; intros compiled H; cbn in H.
  - injection H as <-. now split.
  - destruct (Config.regex_type re x) as [p|] eqn:Hx; [|discriminate].
    destruct (Config.compile_all re l) as [ps|]; [|discriminate].
    injection H as <-.
    destruct (regex_type_pattern re x p Hx) as [Hp Hpp].
    destruct (IH ps eq_refl) as [Hps Hpsps].
    cbn. now rewrite Hp, Hps, Hpp, Hpsps.
Qed.

Lemma Loaded_again re d c c' : Loaded re d c c' -> Loaded re d c' c'.
Proof.
  intros [Hallow Hallow_t Hallow_v Hbuild_args Hbuild_args_t
          Hno_shell Hno_shell_t Hremote Hremote_t Hrun Hrun_t
          Hsandbox Hsandbox_t Hpackages Hpackages_t
          Hregexes_t (compiled & Hcompile & Hregexes)
          Hsystems Hsystems_t Hgraph Hgraph_t Hgraph_v
          Hprint Hprint_t Hextra Hextra_t Hevals Hevals_t Hevals_p
          (trev & Htrev & Hrev & Hrev_t)
          (twip & Htwip & Hwipb & Hwipb_t & Hwips & Hwips_t)
          (tpr & Htpr & Hpre & Hpre_v & Hprc & Hprc_v & Hprp & Hprp_t)].
  destruct (compile_all_compiled re _ _ Hcompile) as [_ Hagain].
  constructor; try assumption; try (eapply dict_get_twice; eassumption).
  - unfold dict_get in *.
    destruct (d !! "skipped_package_regexes"); [assumption|].
    now rewrite Hregexes.
  - exists compiled. split; [|assumption]. unfold dict_get in *.
    destruct (d !! "skipped_package_regexes"); [assumption|].
    now rewrite Hregexes.
  - exists trev. repeat split; try assumption.
    eapply dict_get_twice; eassumption.
  - exists twip. repeat split; try assumption.
    eapply dict_get_twice; eassumption.
  - exists tpr. repeat split; try assumption;
      eapply dict_get_twice; eassumption.
Qed.

(** X7.  Loading is idempotent: a dictionary that has loaded loads again
    on the resulting object and leaves it as it is. *)
Theorem update_from_dict_idempotent
    (re : string -> result unit) (d : gmap string pyval)
    (c c' : Config.t) :
  Config.update_from_dict re d c = (c', Ok tt) ->
  Config.update_from_dict re d c' = (c', Ok tt).
Proof.
  intros H. apply update_from_dict_complete, (Loaded_again re d c).
  now apply update_from_dict_ok.
Qed.

(** The loader reads the dictionary at its own keys only. *)
Lemma update_from_dict_reads_known_keys re (d1 d2 : gmap string pyval) c :
  (forall key, In key known_keys -> d1 !! key = d2 !! key) ->
  Config.update_from_dict re d1 c = Config.update_from_dict re d2 c.
Proof.
  intros H. unfold Config.update_from_dict, dict_get.
  rewrite !(H _) by (cbn; tauto).
  reflexivity.
Qed.

(** X8.  A key the loader does not know is ignored: with or without it
    the load ends the same way, on the same object. *)
Theorem update_from_dict_ignores_unknown_key
    (re : string -> result unit) (d : gmap string pyval) (c : Config.t)
    (key : string) (v : pyval) :
  ~ In key known_keys ->
  Config.update_from_dict re (<[key := v]> d) c
  = Config.update_from_dict re d c.
Proof.
  intros Hunknown. apply update_from_dict_reads_known_keys.
  intros k Hk. apply lookup_insert_ne. intros ->. now apply Hunknown.
Qed.

(** X9.  The number of parallel evaluations of a loaded file is a positive
    integer or the boolean [True], which passes for one. *)
Theorem update_from_dict_parallel_evals
    (re : string -> result unit) (d : gmap string pyval)
    (c c' : Config.t) (v : pyval) :
  Config.update_from_dict re d c = (c', Ok tt) ->
  d !! "num_parallel_evals" = Some v ->
  Config.num_parallel_evals c' = v
  /\ ((exists n, v = PInt n /\ 0 < n) \/ v = PBool true).
Proof.
  intros H Hkey. apply update_from_dict_ok in H.
  pose proof (ld_num_parallel_evals _ _ _ _ H) as Hv.
  pose proof (ld_num_parallel_evals_type _ _ _ _ H) as Ht.
  pose proof (ld_num_parallel_evals_positive _ _ _ _ H) as Hp.
  rewrite (dict_get_present d _ v _ Hkey) in Hv. rewrite Hv in Ht, Hp.
  split; [exact Hv|].
  destruct v; try discriminate.
  - left. exists n. split; [reflexivity|]. now apply Z.ltb_lt.
  - right. cbn in Hp. now subst.
Qed.

(** X10.  After a load that completes, every check of the loader holds of
    the object, whatever object the load started from: the attributes whose
    keys the dictionary does not give have been checked again too. *)
Theorem update_from_dict_checks_hold
    (re : string -> result unit) (d : gmap string pyval)
    (c c' : Config.t) :
  Config.update_from_dict re d c = (c', Ok tt) -> checks_hold c' = true.
Proof.
  intros H. apply update_from_dict_ok in H.
  destruct H as
    [Hallow Hallow_t Hallow_v Hbuild_args Hbuild_args_t
     Hno_shell Hno_shell_t Hremote Hremote_t Hrun Hrun_t
     Hsandbox Hsandbox_t Hpackages Hpackages_t
     Hregexes_t (compiled & Hcompile & Hregexes)
     Hsystems Hsystems_t Hgraph Hgraph_t Hgraph_v
     Hprint Hprint_t Hextra Hextra_t Hevals Hevals_t Hevals_p
     (trev & Htrev & Hrev & Hrev_t)
     (twip & Htwip & Hwipb & Hwipb_t & Hwips & Hwips_t)
     (tpr & Htpr & Hpre & Hpre_v & Hprc & Hprc_v & Hprp & Hprp_t)].
  destruct (compile_all_compiled re _ _ Hcompile) as [Hpatterns _].
  unfold checks_hold.
  rewrite Hallow_t, Hallow_v, Hbuild_args_t, Hno_shell_t, Hremote_t, Hrun_t,
    Hsandbox_t, Hpackages_t, Hgraph_t, Hgraph_v, Hprint_t, Hextra_t,
    Hevals_t, Hevals_p, Hrev_t, Hwipb_t, Hwips_t, Hpre_v, Hprc_v, Hprp_t.
  assert (Hsystems_b :
    isinstance (Config.systems c') TStr
    || isinstance (Config.systems c') TList
       && forallb (fun x => isinstance x TStr)
            (Config.items (Config.systems c')) = true).
  { destruct Hsystems_t as [->|[-> ->]]; [reflexivity|apply orb_true_r]. }
  rewrite Hsystems_b, Hregexes. cbn [isinstance Config.items].
  now rewrite Hpatterns.
Qed.

Lemma file_loads_loads :
  exists c',
    Config.update_from_dict re_sample file_loads (Config.default "nix")
    = (c', Ok tt).
Proof. eexists. vm_compute. reflexivity. Qed.

Lemma update_from_dict_idempotent_witness :
  let c' :=
    fst (Config.update_from_dict re_sample file_loads (Config.default "nix")) in
  Config.update_from_dict re_sample file_loads c' = (c', Ok tt).
Proof.
  apply (update_from_dict_idempotent re_sample file_loads
           (Config.default "nix")).
  vm_compute. reflexivity.
Defined.

Lemma update_from_dict_ignores_unknown_key_witness :
  Config.update_from_dict re_sample (<["sandbx" := PBool true]> file_loads)
    (Config.default "nix")
  = Config.update_from_dict re_sample file_loads (Config.default "nix").
Proof.
  apply (update_from_dict_ignores_unknown_key re_sample file_loads
           (Config.default "nix") "sandbx" (PBool true)).
  cbn. intros H. repeat (destruct H as [H|H]; [discriminate H|]). exact H.
Defined.

Lemma update_from_dict_parallel_evals_witness :
  let c' :=
    fst (Config.update_from_dict re_sample file_loads (Config.default "nix")) in
  Config.num_parallel_evals c' = PBool true
  /\ ((exists n, PBool true = PInt n /\ 0 < n) \/ PBool true = PBool true).
Proof.
  apply (update_from_dict_parallel_evals re_sample file_loads
           (Config.default "nix")).
  - vm_compute. reflexivity.
  - reflexivity.
Defined.

Lemma update_from_dict_checks_hold_witness :
  checks_hold
    (fst (Config.update_from_dict re_sample file_loads (Config.default "nix")))
  = true.
Proof.
  apply (update_from_dict_checks_hold re_sample file_loads
           (Config.default "nix")).
  vm_compute. reflexivity.
Defined.

(** When a file [d0] loads, any file with the same options gets through
    the options in the same way and goes on with the sub-namespaces. *)
Lemma update_from_dict_options re (d0 d : gmap string pyval) c c0 :
  Config.update_from_dict re d0 c = (c0, Ok tt) ->
  (forall key, In key option_keys -> d0 !! key = d !! key) ->
  exists compiled,
    Config.update_from_dict re d c
    = sub_namespaces d (after_options d c compiled).
Proof.
  intros Hload Hsame. apply update_from_dict_ok in Hload.
  assert (Hget : forall key x,
            In key option_keys -> dict_get d0 key x = dict_get d key x).
  { intros key x Hkey. unfold dict_get. now rewrite (Hsame key Hkey). }
  destruct Hload as
    [Hallow Hallow_t Hallow_v Hbuild_args Hbuild_args_t
     Hno_shell Hno_shell_t Hremote Hremote_t Hrun Hrun_t
     Hsandbox Hsandbox_t Hpackages Hpackages_t
     Hregexes_t (compiled & Hcompile & Hregexes)
     Hsystems Hsystems_t Hgraph Hgraph_t Hgraph_v
     Hprint Hprint_t Hextra Hextra_t Hevals Hevals_t Hevals_p _ _ _].
  rewrite Hallow in Hallow_t, Hallow_v.
  rewrite Hbuild_args in Hbuild_args_t. rewrite Hno_shell in Hno_shell_t.
  rewrite Hremote in Hremote_t. rewrite Hrun in Hrun_t.
  rewrite Hsandbox in Hsandbox_t. rewrite Hpackages in Hpackages_t.
  rewrite Hsystems in Hsystems_t.
  rewrite Hgraph in Hgraph_t, Hgraph_v. rewrite Hprint in Hprint_t.
  rewrite Hextra in Hextra_t. rewrite Hevals in Hevals_t, Hevals_p.
  rewrite Hget in Hallow_t, Hallow_v, Hbuild_args_t, Hno_shell_t, Hremote_t,
    Hrun_t, Hsandbox_t, Hpackages_t, Hregexes_t, Hcompile, Hsystems_t,
    Hgraph_t, Hgraph_v, Hprint_t, Hextra_t, Hevals_t, Hevals_p
    by (cbn; tauto).
  assert (Hsystems_or :
    isinstance (dict_get d "systems" (Config.systems c)) TStr
    || isinstance (dict_get d "systems" (Config.systems c)) TList = true).
  { destruct Hsystems_t as [->|[-> _]]; [reflexivity|apply orb_true_r]. }
  exists compiled.
  destruct (Config.update_from_dict re d c) as [c'' r] eqn:H.
  unfold Config.update_from_dict in H.
  repeat step_known H.
  rewrite bind_lift, Hcompile, bind_assign in H.
  repeat step_known H.
  assert (Hafter_systems : forall k s,
    bind (if isinstance (dict_get d "systems" (Config.systems c)) TList
          then py_assert
                 (forallb (fun system => isinstance system TStr)
                    (Config.items (dict_get d "systems" (Config.systems c))))
          else ret tt) k s = k tt s :> Config.t * result unit).
  { intros k s. destruct Hsystems_t as [Hs|[Hl Hf]].
    - now rewrite (str_not_list _ Hs).
    - now rewrite Hl, bind_assert, Hf. }
  rewrite Hafter_systems in H.
  repeat step_known H.
  symmetry. exact H.
Qed.

Lemma not_table_get {S} (v : pyval) key dflt (s : S) :
  is_table v = false ->
  py_get v key dflt s = (s, Raise (no_attribute v "get")).
Proof. now destruct v. Qed.

(** X11.  A sub-namespace that is not a table is not caught by a type
    check: in a file that loads once the namespace is made a table, the
    load ends in the [AttributeError] of the first [get] on it. *)
Theorem update_from_dict_namespace_not_table
    (re : string -> result unit) (d : gmap string pyval) (c c0 : Config.t)
    (key : string) (v : pyval) (t0 : gmap string pyval) :
  In key ["rev"; "wip"; "pr"] ->
  d !! key = Some v ->
  is_table v = false ->
  Config.update_from_dict re (<[key := PDict t0]> d) c = (c0, Ok tt) ->
  exists c',
    Config.update_from_dict re d c
    = (c', Raise (AttributeError
                    ("'" ++ type_name v ++ "' object has no attribute 'get'"))).
Proof.
  intros Hkey Hv Htable Hload.
  destruct (update_from_dict_options re (<[key := PDict t0]> d) d c c0 Hload)
    as [compiled Hrun].
  { intros k Hk. apply lookup_insert_ne. intros <-.
    cbn in Hkey, Hk. destruct Hkey as [<-|[<-|[<-|[]]]];
      repeat (destruct Hk as [Hk|Hk]; [discriminate Hk|]); exact Hk. }
  rewrite Hrun. clear Hrun.
  apply update_from_dict_ok in Hload.
  destruct (ld_rev _ _ _ _ Hload) as (trev & Htrev & Hrev & Hrev_t).
  destruct (ld_wip _ _ _ _ Hload)
    as (twip & Htwip & Hwipb & Hwipb_t & Hwips & Hwips_t).
  rewrite Hrev in Hrev_t. rewrite Hwipb in Hwips. rewrite Hwipb in Hwipb_t.
  rewrite Hwips in Hwips_t. clear Hload Hrev Hwipb Hwips.
  assert (Hfails : forall (S : Type) (m : pyval -> M S unit) (s : S),
            (forall t s', is_table t = false ->
               m t s' = (s', Raise (no_attribute t "get"))) ->
            m v s
            = (s, Raise (AttributeError
                 ("'" ++ type_name v ++ "' object has no attribute 'get'")))).
  { intros S m s Hm. rewrite (Hm v s Htable). now destruct v. }
  unfold sub_namespaces.
  cbn in Hkey. destruct Hkey as [<-|[<-|[<-|[]]]].
  - rewrite bind_on_rev_config, (dict_get_present d _ v _ Hv).
    rewrite (Hfails _ RevConfig.update_from_dict).
    + eauto.
    + intros t s' Ht. unfold RevConfig.update_from_dict.
      now rewrite bind_reads, bind_run, (not_table_get t _ _ _ Ht).
  - rewrite dict_get_insert_ne in Htrev by discriminate.
    rewrite bind_on_rev_config, Htrev.
    unfold after_options at 1. config_simpl_goal.
    rewrite (RevConfig_update_table trev _ Hrev_t).
    rewrite bind_on_wip_config, (dict_get_present d _ v _ Hv).
    rewrite (Hfails _ WipConfig.update_from_dict).
    + eauto.
    + intros t s' Ht. unfold WipConfig.update_from_dict.
      now rewrite bind_reads, bind_run, (not_table_get t _ _ _ Ht).
  - rewrite dict_get_insert_ne in Htrev, Htwip by discriminate.
    rewrite bind_on_rev_config, Htrev.
    unfold after_options at 1. config_simpl_goal.
    rewrite (RevConfig_update_table trev _ Hrev_t).
    rewrite bind_on_wip_config, Htwip.
    config_simpl_goal. unfold after_options at 1. config_simpl_goal.
    rewrite (WipConfig_update_table twip _ Hwipb_t Hwips_t).
    unfold Config.on_pr_config. rewrite (dict_get_present d _ v _ Hv).
    rewrite (Hfails _ PrConfig.update_from_dict).
    + eauto.
    + intros t s' Ht. unfold PrConfig.update_from_dict.
      now rewrite bind_reads, bind_run, (not_table_get t _ _ _ Ht).
Qed.

Lemma update_from_dict_namespace_not_table_witness :
  exists c',
    Config.update_from_dict re_sample file_pr_string (Config.default "nix")
    = (c', Raise (AttributeError "'str' object has no attribute 'get'")).
Proof.
  apply (update_from_dict_namespace_not_table re_sample file_pr_string
           (Config.default "nix")
           (fst (Config.update_from_dict re_sample
                   (<["pr" := PDict ∅]> file_pr_string)
                   (Config.default "nix")))
           "pr" (PStr "ofborg") ∅).
  - cbn. tauto.
  - reflexivity.
  - reflexivity.
  - vm_compute. reflexivity.
Defined.

(** ** The reviews after the loop *)

(** X12.  The reviews are started in the order of the contexts and stop at
    the first one that does not report success: its answer, [False] or an
    exception, is the answer of the whole, and no later context is
    reviewed. *)
Theorem all_start_review_stops
    (w : World) (post print : bool) (r : Review)
    (before after : list context) (c : context) (fr : Frame) :
  Forall (fun x => start_review_of w post print r x = Ok true) before ->
  start_review_of w post print r c <> Ok true ->
  all_start_review w post print r (before ++ c :: after) fr
  = (fr, start_review_of w post print r c).
Proof.
  intros Hbefore Hc. induction Hbefore as [|[[pr path] attrs] rest Hx _ IH].
  - destruct c as [[pr path] attrs]. cbn [app all_start_review].
    rewrite bind_lift. unfold start_review_of in Hc |- *.
    destruct (start_review w r attrs path pr post print) as [[|]|e];
      [congruence|reflexivity|reflexivity].
  - cbn [app all_start_review]. rewrite bind_lift.
    unfold start_review_of in Hx at 1. now rewrite Hx.
Qed.

Lemma all_start_review_stops_witness :
  all_start_review world_first_review_fails false false
    {| review_builddir := session 2 3 |}
    ([(2, "/tmp/pr-2", ∅)] ++ (1, "/tmp/pr-1", ∅) :: [(3, "/tmp/pr-3", ∅)])
    (Frame_init world_first_review_fails)
  = (Frame_init world_first_review_fails, Ok false).
Proof.
  apply (all_start_review_stops world_first_review_fails false false
           {| review_builddir := session 2 3 |}
           [(2, "/tmp/pr-2", ∅)] [(3, "/tmp/pr-3", ∅)] (1, "/tmp/pr-1", ∅)).
  - repeat constructor.
  - discriminate.
Defined.

Lemma last_review_constructed w :
  (forall b, Review_init w b = Ok tt) ->
  forall init n last r0,
    last_review w n (init ++ [last]) r0
    = Some {| review_builddir := session (n + length init) last |}.
Proof.
  intros Hinit. induction init as [|pr init IH]; intros n last r0.
  - cbn. now rewrite Hinit, Nat.add_0_r.
  - cbn [app last_review length]. rewrite IH. now rewrite Nat.add_succ_r.
Qed.

Lemma last_session_app init :
  forall n last b0,
    last_session n (init ++ [last]) b0
    = Some (session (n + length init) last).
Proof.
  induction init as [|pr init IH]; intros n last b0.
  - cbn. now rewrite Nat.add_0_r.
  - cbn [app last_session length]. rewrite IH. now rewrite Nat.add_succ_r.
Qed.

(** X13.  The reviews of all the recorded contexts go through one [Review]
    object, the one constructed for the last identifier of the list: under
    [no_shell] the exit code is decided by what that object answers for
    each context. *)
Theorem reviews_use_last_review
    (w : World) (args : Namespace) (init : list Z) (last : Z) (fr : Frame) :
  raises_domain_errors_only w ->
  reviews_return w ->
  (forall b, Review_init w b = Ok tt) ->
  contexts fr = [] ->
  arg_no_shell args = true ->
  let n := sessions fr in
  let r := {| review_builddir := session (n + length init) last |} in
  snd (review_prs w args (init ++ [last]) fr)
  = Raise (SystemExit
      (if forallb (review_succeeds w args r) (recorded w n (init ++ [last]))
       then 0 else 1)).
Proof.
  intros Hdomain Hreturn Hinit Hcontexts Hno_shell n r. subst n r.
  rewrite (review_prs_handled w args (init ++ [last]) fr
             (domain_errors_handled w Hdomain) (or_intror Hreturn)).
  cbn [snd after_loop review contexts sessions set_review set_trace
       set_builddir builddir].
  rewrite (last_review_constructed w Hinit), Hcontexts. cbn [app].
  unfold outcome. now rewrite Hno_shell.
Qed.

Lemma world_second_fails_constructs :
  forall b, Review_init world_second_fails b = Ok tt.
Proof. reflexivity. Qed.

Lemma reviews_use_last_review_witness :
  snd (review_prs world_second_fails (sample_args true) ([1; 2] ++ [3])
         (Frame_init world_second_fails))
  = Raise (SystemExit 0).
Proof.
  exact (reviews_use_last_review world_second_fails (sample_args true)
           [1; 2] 3 (Frame_init world_second_fails)
           world_second_fails_domain world_second_fails_returns
           world_second_fails_constructs eq_refl eq_refl).
Defined.

Lemma last_review_some w prs :
  forall n r, last_review w n prs (Some r) <> None.
Proof.
  induction prs as [|pr rest IH]; intros n r; cbn [last_review].
  - discriminate.
  - destruct (Review_init w (session n pr)); apply IH.
Qed.

Lemma all_recorded_last_review w prs :
  forall n r0,
    prs <> [] ->
    length (recorded w n prs) = length prs ->
    last_review w n prs r0 <> None.
Proof.
  destruct prs as [|pr rest]; intros n r0 Hne Hlen; [congruence|].
  cbn [recorded last_review length] in *. unfold pipeline in Hlen.
  destruct (Review_init w (session n pr)) as [[]|e].
  - apply last_review_some.
  - pose proof (recorded_length w rest (S n)). lia.
Qed.

(** X14.  Without [no_shell] the answers of the reviews do not reach the
    result: when every identifier of the list got its context recorded, the
    command returns the path of the session of the last identifier. *)
Theorem shell_run_returns_last_session
    (w : World) (args : Namespace) (init : list Z) (last : Z) (fr : Frame) :
  raises_domain_errors_only w ->
  reviews_return w ->
  contexts fr = [] ->
  arg_no_shell args = false ->
  length (recorded w (sessions fr) (init ++ [last])) = length (init ++ [last]) ->
  snd (review_prs w args (init ++ [last]) fr)
  = Ok (builddir_path w (session (sessions fr + length init) last)).
Proof.
  intros Hdomain Hreturn Hcontexts Hno_shell Hall.
  rewrite (review_prs_handled w args (init ++ [last]) fr
             (domain_errors_handled w Hdomain) (or_intror Hreturn)).
  cbn [snd after_loop review contexts sessions set_review set_trace
       set_builddir builddir].
  destruct (last_review w (sessions fr) (init ++ [last]) None) as [r|] eqn:Hr.
  - unfold outcome. rewrite Hno_shell, Hcontexts. cbn [app].
    rewrite Hall, Nat.eqb_refl. now rewrite last_session_app.
  - exfalso. revert Hr. apply all_recorded_last_review; [|exact Hall].
    now destruct init.
Qed.

Lemma world_reviews_fail_domain : raises_domain_errors_only world_reviews_fail.
Proof. split; intros; discriminate. Qed.

Lemma world_reviews_fail_returns : reviews_return world_reviews_fail.
Proof. intros r attrs path pr post print. now exists false. Qed.

Lemma shell_run_returns_last_session_witness :
  snd (review_prs world_reviews_fail (sample_args false) ([1; 2] ++ [3])
         (Frame_init world_reviews_fail))
  = Ok "/tmp/pr-3".
Proof.
  exact (shell_run_returns_last_session world_reviews_fail (sample_args false)
           [1; 2] 3 (Frame_init world_reviews_fail)
           world_reviews_fail_domain world_reviews_fail_returns
           eq_refl eq_refl eq_refl).
Defined.

Lemma loop_trace_warnings w :
  (forall b pr, handled w b pr) ->
  forall prs n,
    (length (List.filter is_warning (loop_trace w n prs))
     + length (recorded w n prs) = length prs)%nat.
Proof.
  intros Hw. induction prs as [|pr rest IH]; intros n; [reflexivity|].
  cbn [loop_trace recorded List.filter is_warning is_scope_event negb].
  rewrite List.filter_app, length_app.
  specialize (IH (S n)). pose proof (Hw (session n pr) pr) as Hpr.
  unfold handled in Hpr.
  destruct (pipeline w (session n pr) pr) as [attrs|e].
  - cbn [List.filter length]. lia.
  - specialize (Hpr e eq_refl). destruct e; try discriminate Hpr.
    cbn [List.filter is_warning is_scope_event negb length]. lia.
Qed.

(** X15.  When [Review] and [build_pr] raise the domain error only, every
    identifier of the list is accounted for exactly once: it leaves a
    recorded context or a warning, so that the new contexts and the new
    warnings together are as many as the identifiers. *)
Theorem every_identifier_recorded_or_warned
    (w : World) (args : Namespace) (prs : list Z) (fr : Frame) :
  raises_domain_errors_only w ->
  let after := fst (review_prs w args prs fr) in
  (length (List.filter is_warning (trace after)) + length (contexts after)
   = length (List.filter is_warning (trace fr)) + length (contexts fr)
     + length prs)%nat.
Proof.
  intros Hdomain after. subst after.
  pose proof (domain_errors_handled w Hdomain) as Hw.
  rewrite review_prs_run.
  destruct (with_body_frame w args prs
              (set_trace (trace fr ++ [BuildenvEnter])%list
                 (set_builddir None fr))) as [-> _].
  rewrite (for_pr_in_handled w prs Hw).
  cbn [fst after_loop trace contexts sessions pending set_trace set_pending
       set_review set_builddir].
  rewrite !List.filter_app, filter_warning_exits, !length_app.
  cbn [List.filter is_warning is_scope_event negb length].
  pose proof (loop_trace_warnings w Hw prs (sessions fr)). lia.
Qed.

Lemma every_identifier_recorded_or_warned_witness :
  let after :=
    fst (review_prs world_second_fails (sample_args false) [1; 2; 3]
           (Frame_init world_second_fails)) in
  (length (List.filter is_warning (trace after)) + length (contexts after)
   = 0 + 0 + 3)%nat.
Proof.
  exact (every_identifier_recorded_or_warned world_second_fails
           (sample_args false) [1; 2; 3] (Frame_init world_second_fails)
           world_second_fails_domain).
Defined.

(** ** The command as a whole *)

(** X16.  The command ends before any scope is entered, in one of three
    ways, tried in this order: the error of the configuration file; the
    warning and exit code 1 of the identifier parser; the [TypeError] of the
    call of [update_from_args].  Apart from the parser's warning it leaves
    only the configuration, as far as the file was loaded: no token is
    asked for, no session is created and no review is started. *)
Theorem pr_command_outcome (w : World) (args : Namespace) (fr : Frame) :
  let loaded :=
    Config.read_config (re_compile w) (config_file w)
      (Config.default (nix_nom_tool w)) in
  pr_command w args fr
  = match snd loaded, expansions (number args) with
    | Raise e, _ => (set_config (fst loaded) fr, Raise e)
    | Ok _, None =>
        (set_trace
           (trace fr ++ [Warn "expected number or URL, got None"])%list
           (set_config (fst loaded) fr),
         Raise (SystemExit 1))
    | Ok _, Some _ =>
        (set_config (fst loaded) fr,
         Raise (TypeError
           "Config.update_from_args() takes 1 positional argument but 2 were given"))
    end.
Proof.
  intros loaded. subst loaded.
  unfold pr_command. rewrite bind_assign, bind_run.
  unfold on_config at 1. cbn [config set_config].
  destruct (Config.read_config _ _ _) as [c [[]|e]]; cbn [fst snd].
  - rewrite bind_run. unfold on_trace at 1.
    rewrite parse_pr_numbers_by_expansion.
    destruct (expansions (number args)) as [prs|]; destruct fr; reflexivity.
  - destruct (expansions (number args)); destruct fr; reflexivity.
Qed.

(** X17.  On an empty list of identifiers, which is what an empty range
    such as [5-5] gives, the loop enters no session and constructs no
    [Review]: the run ends in the [AssertionError] of line 99, in every
    world and whatever the options, after leaving the two scopes. *)
Theorem review_prs_no_identifier (w : World) (args : Namespace) (fr : Frame) :
  review_prs w args [] fr
  = (set_pending []
       (set_trace
          (trace fr ++ [BuildenvEnter] ++ List.map BuilddirExit (pending fr)
           ++ [BuildenvExit])%list
          (set_review None (set_builddir None fr))),
     Raise AssertionError).
Proof.
  destruct fr. cbn. now rewrite <- !app_assoc.
Qed.

(** ** An exception that is not the domain error *)

Lemma after_loop_app w l1 :
  forall l2 fr,
    after_loop w l2 (after_loop w l1 fr) = after_loop w (l1 ++ l2) fr.
Proof.
  induction l1 as [|pr l1 IH]; intros l2 fr.
  - now rewrite after_loop_nil.
  - cbn [app]. rewrite <- (after_loop_cons w pr l1 fr), IH.
    apply after_loop_cons.
Qed.

Lemma for_pr_in_app w l1 :
  forall l2 fr,
    for_pr_in w (l1 ++ l2) fr
    = match for_pr_in w l1 fr with
      | (f, Ok _) => for_pr_in w l2 f
      | (f, Raise e) => (f, Raise e)
      end.
Proof.
  induction l1 as [|pr l1 IH]; intros l2 fr; [reflexivity|].
  cbn [app for_pr_in]. rewrite !bind_run.
  destruct (review_pr w pr fr) as [f [[]|e]]; [apply IH|reflexivity].
Qed.

Lemma review_pr_fatal w pr fr e :
  pipeline w (session (sessions fr) pr) pr = Raise e ->
  is_domain_error e = false ->
  review_pr w pr fr = (after_loop w [pr] fr, Raise e).
Proof.
  intros Hpipeline He.
  unfold after_loop, review_pr.
  cbn [loop_trace planned recorded last_review last_session rev length app].
  rewrite Nat.add_1_r, Hpipeline. unfold pipeline in Hpipeline.
  unfold bind at 1. cbn [Builddir_new].
  unfold bind at 1, enter_context, emit, assign, ret, bind at 1 2.
  cbn [trace pending sessions config contexts review builddir
       set_trace set_pending set_sessions set_builddir].
  unfold bind at 1. fold (session (sessions fr) pr).
  cbn [trace pending sessions config contexts review builddir
       set_trace set_pending set_sessions set_builddir].
  unfold except_NixpkgsReviewError, Review_new, bind, lift, ret, assign.
  destruct (Review_init w (session (sessions fr) pr)) as [[]|e'] eqn:Hi.
  - rewrite Hpipeline.
    destruct e; try discriminate He;
      destruct fr; cbn; now rewrite ?app_nil_r.
  - injection Hpipeline as ->.
    destruct e; try discriminate He;
      destruct fr; cbn; now rewrite ?app_nil_r.
Qed.

Lemma review_prs_fatal w args before pr after fr e :
  (forall b pr', In pr' before -> handled w b pr') ->
  pipeline w (session (sessions fr + length before) pr) pr = Raise e ->
  is_domain_error e = false ->
  let start :=
    set_review None
      (set_trace (trace fr ++ [BuildenvEnter])%list (set_builddir None fr)) in
  let loop := after_loop w (before ++ [pr]) start in
  review_prs w args (before ++ pr :: after) fr
  = (set_pending []
       (set_trace
          (trace loop ++ List.map BuilddirExit (pending loop)
           ++ [BuildenvExit])%list loop),
     Raise e).
Proof.
  intros Hbefore Hpipeline He start loop.
  assert (Hloop : for_pr_in w (before ++ pr :: after) start = (loop, Raise e)).
  { rewrite for_pr_in_app, (for_pr_in_handled_in w before Hbefore).
    cbn [for_pr_in]. rewrite bind_run.
    rewrite (review_pr_fatal w pr (after_loop w before start) e);
      [|exact Hpipeline|exact He].
    subst loop. now rewrite after_loop_app. }
  rewrite review_prs_run.
  assert (Hbody :
    with_body w args (before ++ pr :: after)
      (set_trace (trace fr ++ [BuildenvEnter])%list (set_builddir None fr))
    = (loop, Raise e)).
  { unfold with_body. rewrite bind_assign, bind_run.
    fold start. now rewrite Hloop. }
  rewrite Hbody. cbn [fst snd].
  destruct loop. cbn. now rewrite <- !app_assoc.
Qed.

Lemma loop_trace_scopes w prs :
  forall n,
    scope_events (loop_trace w n prs)
    = List.map BuilddirEnter (planned n prs).
Proof.
  induction prs as [|pr rest IH]; intros n; [reflexivity|].
  cbn [loop_trace planned List.map]. unfold scope_events in *.
  cbn [List.filter is_scope_event]. rewrite List.filter_app, IH.
  now destruct (pipeline w (session n pr) pr) as [attrs|[]].
Qed.

Lemma scope_events_exits bs :
  scope_events (List.map BuilddirExit bs) = List.map BuilddirExit bs.
Proof.
  induction bs as [|b bs IH]; [reflexivity|].
  cbn [List.map]. unfold scope_events in *. cbn [List.filter is_scope_event].
  now rewrite IH.
Qed.

(** X18.  An exception of [Review] or [build_pr] that is not the domain
    error is not caught: it ends the loop at its identifier and leaves the
    command unchanged.  The identifiers after it get no session, no review
    is started, and the contexts are those recorded before it. *)
Theorem other_exception_ends_the_loop
    (w : World) (args : Namespace) (before after : list Z) (pr : Z)
    (fr : Frame) (e : exn) :
  (forall b pr', In pr' before -> handled w b pr') ->
  pipeline w (session (sessions fr + length before) pr) pr = Raise e ->
  is_domain_error e = false ->
  let run := review_prs w args (before ++ pr :: after) fr in
  snd run = Raise e
  /\ sessions (fst run) = (sessions fr + length before + 1)%nat
  /\ contexts (fst run)
     = (contexts fr ++ recorded w (sessions fr) before)%list
  /\ scope_events (trace (fst run))
     = (scope_events (trace fr) ++ [BuildenvEnter]
        ++ List.map BuilddirEnter (planned (sessions fr) (before ++ [pr]))
        ++ List.map BuilddirExit
             (rev (planned (sessions fr) (before ++ [pr])) ++ pending fr)
        ++ [BuildenvExit])%list.
Proof.
  intros Hbefore Hpipeline He run. subst run.
  rewrite (review_prs_fatal w args before pr after fr e Hbefore Hpipeline He).
  cbn [fst snd after_loop trace pending sessions contexts set_trace
       set_pending set_review set_builddir].
  repeat split.
  - rewrite length_app. cbn [length]. lia.
  - f_equal. clear Hbefore. revert Hpipeline.
    generalize (sessions fr). induction before as [|x before IH]; intros n H.
    + cbn [app recorded length] in *. rewrite Nat.add_0_r in H. now rewrite H.
    + cbn [app recorded length] in *.
      rewrite Nat.add_succ_r in H. rewrite (IH (S n) H). reflexivity.
  - rewrite !scope_events_app. cbn [scope_events List.filter is_scope_event].
    rewrite loop_trace_scopes, scope_events_exits.
    rewrite <- !app_assoc. reflexivity.
Qed.

Lemma other_exception_ends_the_loop_witness :
  let run :=
    review_prs world_second_crashes (sample_args false) ([1] ++ 2 :: [3])
      (Frame_init world_second_crashes) in
  snd run = Raise (OtherError "KeyboardInterrupt")
  /\ sessions (fst run) = 2%nat
  /\ contexts (fst run) = [(1, "/tmp/pr-1", ∅)]
  /\ scope_events (trace (fst run))
     = [BuildenvEnter;
        BuilddirEnter (session 0 1); BuilddirEnter (session 1 2);
        BuilddirExit (session 1 2); BuilddirExit (session 0 1);
        BuildenvExit].
Proof.
  apply (other_exception_ends_the_loop world_second_crashes
           (sample_args false) [1] [3] 2 (Frame_init world_second_crashes)
           (OtherError "KeyboardInterrupt")).
  - intros b pr' [<-|[]] e He. discriminate He.
  - reflexivity.
  - reflexivity.
Defined.

(** ** One layer after the other *)

Lemma dict_get_union (t1 t2 : gmap string pyval) key x :
  dict_get (t2 ∪ t1) key x = dict_get t2 key (dict_get t1 key x).
Proof.
  unfold dict_get. rewrite lookup_union.
  now destruct (t2 !! key), (t1 !! key).
Qed.

Lemma dict_get_layered d1 d2 key x :
  In key option_keys ->
  dict_get (layered d1 d2) key x = dict_get d2 key (dict_get d1 key x).
Proof.
  intros Hkey. unfold layered.
  rewrite !dict_get_insert_ne; [apply dict_get_union|..];
    intros <-; cbn in Hkey;
    repeat (destruct Hkey as [Hkey|Hkey]; [discriminate Hkey|]);
    exact Hkey.
Qed.

Lemma dict_get_layered_table d1 d2 key t1 t2 :
  In key ["rev"; "wip"; "pr"] ->
  dict_get d1 key (PDict ∅) = PDict t1 ->
  dict_get d2 key (PDict ∅) = PDict t2 ->
  dict_get (layered d1 d2) key (PDict ∅) = PDict (t2 ∪ t1).
Proof.
  intros Hkey H1 H2. unfold layered.
  destruct Hkey as [<-|[<-|[<-|[]]]]; rewrite H1, H2; unfold dict_get;
    cbn [merge_tables].
  - now rewrite lookup_insert.
  - rewrite lookup_insert_ne by discriminate. now rewrite lookup_insert.
  - rewrite !lookup_insert_ne by discriminate. now rewrite lookup_insert.
Qed.

Lemma Loaded_layered re d1 d2 c c1 c2 :
  Loaded re d1 c c1 -> Loaded re d2 c1 c2 -> Loaded re (layered d1 d2) c c2.
Proof.
  intros L1
         [Hallow Hallow_t Hallow_v Hbuild_args Hbuild_args_t
          Hno_shell Hno_shell_t Hremote Hremote_t Hrun Hrun_t
          Hsandbox Hsandbox_t Hpackages Hpackages_t
          Hregexes_t (compiled & Hcompile & Hregexes)
          Hsystems Hsystems_t Hgraph Hgraph_t Hgraph_v
          Hprint Hprint_t Hextra Hextra_t Hevals Hevals_t Hevals_p
          (trev & Htrev & Hrev & Hrev_t)
          (twip & Htwip & Hwipb & Hwipb_t & Hwips & Hwips_t)
          (tpr & Htpr & Hpre & Hpre_v & Hprc & Hprc_v & Hprp & Hprp_t)].
  pose proof (ld_regexes_type _ _ _ _ L1) as Hregexes_t1.
  destruct (ld_regexes _ _ _ _ L1) as (compiled1 & Hcompile1 & Hregexes1).
  destruct (ld_rev _ _ _ _ L1) as (trev1 & Htrev1 & Hrev1 & _).
  destruct (ld_wip _ _ _ _ L1) as (twip1 & Htwip1 & Hwipb1 & _).
  destruct (ld_pr _ _ _ _ L1)
    as (tpr1 & Htpr1 & Hpre1 & _ & Hprc1 & _ & Hprp1 & _).
  constructor; try assumption;
    try (rewrite dict_get_layered by (cbn; tauto)).
  - rewrite Hallow. now rewrite (ld_allow _ _ _ _ L1).
  - rewrite Hbuild_args. now rewrite (ld_build_args _ _ _ _ L1).
  - rewrite Hno_shell. now rewrite (ld_no_shell _ _ _ _ L1).
  - rewrite Hremote. now rewrite (ld_remote _ _ _ _ L1).
  - rewrite Hrun. now rewrite (ld_run _ _ _ _ L1).
  - rewrite Hsandbox. now rewrite (ld_sandbox _ _ _ _ L1).
  - rewrite Hpackages. now rewrite (ld_skipped_packages _ _ _ _ L1).
  - unfold dict_get in Hregexes_t |- *.
    destruct (d2 !! "skipped_package_regexes"); assumption.
  - exists compiled. split; [|assumption].
    unfold dict_get in Hcompile |- *.
    destruct (d2 !! "skipped_package_regexes"); [assumption|].
    rewrite Hregexes1 in Hcompile. cbn [Config.items] in Hcompile.
    destruct (compile_all_compiled re _ _ Hcompile1) as [_ Hagain].
    fold (dict_get d1 "skipped_package_regexes"
            (Config.skipped_package_regexes c)).
    congruence.
  - rewrite Hsystems. now rewrite (ld_systems _ _ _ _ L1).
  - rewrite Hgraph. now rewrite (ld_build_graph _ _ _ _ L1).
  - rewrite Hprint. now rewrite (ld_print_result _ _ _ _ L1).
  - rewrite Hextra. now rewrite (ld_extra_nixpkgs_config _ _ _ _ L1).
  - rewrite Hevals. now rewrite (ld_num_parallel_evals _ _ _ _ L1).
  - exists (trev ∪ trev1).
    rewrite (dict_get_layered_table d1 d2 "rev" trev1 trev)
      by (assumption || (cbn; tauto)).
    rewrite dict_get_union, <- Hrev1. auto.
  - exists (twip ∪ twip1).
    rewrite (dict_get_layered_table d1 d2 "wip" twip1 twip)
      by (assumption || (cbn; tauto)).
    rewrite !dict_get_union, <- Hwipb1. repeat split; try assumption.
    unfold dict_get in Hwips |- *.
    destruct (twip !! "staged"); [assumption|].
    rewrite Hwips in Hwips_t. destruct (str_not_bool _ Hwipb_t Hwips_t).
  - exists (tpr ∪ tpr1).
    rewrite (dict_get_layered_table d1 d2 "pr" tpr1 tpr)
      by (assumption || (cbn; tauto)).
    rewrite !dict_get_union, <- Hpre1, <- Hprc1, <- Hprp1.
    repeat split; assumption.
Qed.

(** X19.  Loading one dictionary and then another comes to loading the two
    as one file, in which the second wins key by key, also inside the
    [rev], [wip] and [pr] tables: what the first layer set and the second
    does not mention stays. *)
Theorem update_from_dict_layers
    (re : string -> result unit) (d1 d2 : gmap string pyval)
    (c c1 c2 : Config.t) :
  Config.update_from_dict re d1 c = (c1, Ok tt) ->
  Config.update_from_dict re d2 c1 = (c2, Ok tt) ->
  Config.update_from_dict re (layered d1 d2) c = (c2, Ok tt).
Proof.
  intros H1 H2. apply update_from_dict_complete.
  apply (Loaded_layered re d1 d2 c c1 c2); now apply update_from_dict_ok.
Qed.

Lemma update_from_dict_layers_witness :
  let c1 :=
    fst (Config.update_from_dict re_sample file_loads (Config.default "nix")) in
  let c2 := fst (Config.update_from_dict re_sample file_second c1) in
  Config.update_from_dict re_sample (layered file_loads file_second)
    (Config.default "nix")
  = (c2, Ok tt)
  /\ Config.systems c2 = PStr "all"
  /\ Config.num_parallel_evals c2 = PBool true.
Proof.
  split; [|split; vm_compute; reflexivity].
  apply (update_from_dict_layers re_sample file_loads file_second
           (Config.default "nix")
           (fst (Config.update_from_dict re_sample file_loads
                   (Config.default "nix")))).
  - vm_compute. reflexivity.
  - vm_compute. reflexivity.
Defined.
